(** * FAT32 root-directory reader over SPI (src/main.c)

    A shallow embedding of the SD-card block driver, the FAT32 volume
    parser, the directory decoder and the orchestrating [main] of
    src/main.c, together with the properties of the specification that
    were checked against them.

    Target platform facts used throughout (avr-gcc, ATmega4809):
    [int] is 16 bits wide, [uint8_t]/[uint16_t]/[uint32_t] are 8/16/32
    bits wide and unsigned arithmetic wraps around. *)

From Stdlib Require Import String Ascii DecimalString DecimalZ.
From Stdlib Require Import ZArith List Bool Lia.
From Stdlib Require Import Strings.Byte.
Import ListNotations.
Local Open Scope Z_scope.

(** ** Machine integers *)

Definition wrap8 (z : Z) : Z := z mod 2 ^ 8.
Definition wrap16 (z : Z) : Z := z mod 2 ^ 16.
Definition wrap32 (z : Z) : Z := z mod 2 ^ 32.

(** Conversion of an integer value to the 16-bit signed [int] of the
    target: reduction modulo 2^16 into [-32768, 32767]. *)
Definition to_int16 (z : Z) : Z :=
  let m := wrap16 z in if m <? 2 ^ 15 then m else m - 2 ^ 16.

(** The value of a byte of memory as an unsigned integer. *)
Definition u8 (b : byte) : Z := Z.of_N (Byte.to_N b).

(** [p[i]] for a pointer [p] into a byte buffer, the buffer being the
    list of bytes from [p] on. *)
Definition idx (p : list byte) (i : nat) : byte := nth i p x00.

(** Little-endian assembly of four bytes, as written four times in the
    source: [(uint32_t)b0 | (uint32_t)b1 << 8 | (uint32_t)b2 << 16 |
    (uint32_t)b3 << 24]. *)
Definition le32 (b0 b1 b2 b3 : byte) : Z :=
  Z.lor (Z.lor (Z.lor (u8 b0) (wrap32 (Z.shiftl (u8 b1) 8)))
               (wrap32 (Z.shiftl (u8 b2) 16)))
        (wrap32 (Z.shiftl (u8 b3) 24)).

Definition SECTOR_SIZE : nat := 512.

(** ** Volume parser *)

Record fat32_info_t : Type := mk_fat32_info {
  bytes_per_sector : Z;
  sectors_per_cluster : Z;
  reserved_sector_count : Z;
  num_fats : Z;
  fat_size : Z;
  root_cluster : Z;
  fat_start : Z;
  data_start : Z
}.

(** [parse_fat32_info]: the result is the constant return value 1 and the
    structure filled in through the [info] pointer. *)
Definition parse_fat32_info (sector : list byte) : Z * fat32_info_t :=
  let bps := wrap16 (Z.lor (u8 (idx sector 11))
                           (wrap16 (Z.shiftl (u8 (idx sector 12)) 8))) in
  let spc := u8 (idx sector 13) in
  let rsc := wrap16 (Z.lor (u8 (idx sector 14))
                           (wrap32 (Z.shiftl (u8 (idx sector 15)) 8))) in
  let nf := u8 (idx sector 16) in
  let fsz := le32 (idx sector 36) (idx sector 37) (idx sector 38) (idx sector 39) in
  let rc := le32 (idx sector 44) (idx sector 45) (idx sector 46) (idx sector 47) in
  let fst_ := rsc in
  let dst := wrap32 (fst_ + wrap32 (nf * fsz)) in
  (1, mk_fat32_info bps spc rsc nf fsz rc fst_ dst).

(** The cluster-to-sector expression of [main],
    [data_start + (sectors_per_cluster * (cluster - 2))], evaluated in
    [uint32_t]; [main] uses it at [cluster = root_cluster]. *)
Definition cluster_to_sector (info : fat32_info_t) (cluster : Z) : Z :=
  wrap32 (data_start info
          + wrap32 (sectors_per_cluster info * wrap32 (cluster - 2))).

Definition first_root_sector (info : fat32_info_t) : Z :=
  cluster_to_sector info (root_cluster info).

(** ** Diagnostic output (USART0)

    The output sink only receives bytes; a function that prints returns
    the bytes it pushes into the transmit register, in order. *)

Definition bytes (s : string) : list byte := list_byte_of_string s.

Definition crlf : list byte := [x0d; x0a].

Definition usart0_putc (c : byte) : list byte := [c].

(** [usart0_puts] stops at the terminating NUL; a C string is given by
    its bytes, the end of the list standing for the terminator of a
    literal. *)
Fixpoint usart0_puts (str : list byte) : list byte :=
  match str with
  | [] => []
  | c :: rest => if Byte.eqb c x00 then [] else usart0_putc c ++ usart0_puts rest
  end.

Definition hex_digits : list byte := bytes "0123456789ABCDEF".

Definition usart0_print_hex (v : byte) : list byte :=
  usart0_putc (idx hex_digits (Z.to_nat (Z.land (Z.shiftr (u8 v) 4) 15)))
  ++ usart0_putc (idx hex_digits (Z.to_nat (Z.land (u8 v) 15))).

(** The decimal text of an integer: an optional minus sign and the digits
    without leading zeros. *)
Definition decimal (z : Z) : list byte :=
  bytes (NilEmpty.string_of_int (Z.to_int z)).

(** Modelled from the spec: [itoa] is not defined in src/; it is the C
    library routine declared in [<stdlib.h>] (avr-libc,
    [char *itoa(int val, char *s, int radix)]). With radix 10 it writes
    the decimal text of [val]. Its parameter has type [int], which is 16
    bits wide on the target, so a wider argument is converted to [int]
    at the call. *)
Definition itoa (val : Z) : list byte := decimal (to_int16 val).

(** ** Directory decoder *)

Definition space : byte := x20.
Definition dot : byte := x2e.

(** The two copy loops of [print_filename]: up to [n] bytes from index [i],
    stopping at the first space. *)
Fixpoint copy_field (n i : nat) (entry : list byte) : list byte :=
  match n with
  | O => []
  | S n' =>
      if Byte.eqb (idx entry i) space then []
      else idx entry i :: copy_field n' (S i) entry
  end.

Definition print_filename (entry : list byte) : list byte :=
  let name := copy_field 8 0 entry in
  let name :=
    if negb (Byte.eqb (idx entry 8) space)
    then name ++ [dot] ++ copy_field 3 8 entry
    else name in
  usart0_puts (name ++ [x00]).

Definition dir_size (entry : list byte) : Z :=
  le32 (idx entry 28) (idx entry 29) (idx entry 30) (idx entry 31).

Definition print_dir_entry (entry : list byte) : list byte :=
  if (u8 (idx entry 0) =? 0x00) || (u8 (idx entry 0) =? 0xE5)
     || negb (Z.land (u8 (idx entry 11)) 0x08 =? 0)
  then []
  else
    usart0_puts (bytes "Name: ")
    ++ print_filename entry
    ++ usart0_puts (bytes " | Attr: ")
    ++ usart0_print_hex (idx entry 11)
    ++ usart0_puts (bytes " | Size: ")
    ++ usart0_puts (itoa (dir_size entry))
    ++ usart0_puts crlf.

(** The listing loop of [main]:
    [for (i = 0; i < SECTOR_SIZE; i += 32) print_dir_entry(&sector[i])],
    with [n] the number of iterations left. *)
Fixpoint print_entries (n i : nat) (sector : list byte) : list byte :=
  match n with
  | O => []
  | S n' => print_dir_entry (skipn i sector) ++ print_entries n' (i + 32) sector
  end.

Definition print_root_dir (sector : list byte) : list byte :=
  print_entries (SECTOR_SIZE / 32) 0 sector.

(** *** Vocabulary of the specification *)

(** The [k]-th 32-byte slot of a block, as the pointer [&sector[32 * k]]. *)
Definition slot (sector : list byte) (k : nat) : list byte :=
  skipn (32 * k) sector.

Inductive record_kind : Type := Free | Deleted | VolumeLabel | Regular.

(** Record kind, from the first name byte and the attribute byte. *)
Definition classify (entry : list byte) : record_kind :=
  if u8 (idx entry 0) =? 0x00 then Free
  else if u8 (idx entry 0) =? 0xE5 then Deleted
  else if Z.testbit (u8 (idx entry 11)) 3 then VolumeLabel
  else Regular.

Definition is_regular (entry : list byte) : bool :=
  match classify entry with Regular => true | _ => false end.


(** ** Transport primitive and hardware trace

    The card is the sequence of bytes it answers with: [card k] is the
    byte shifted in during the [k]-th byte exchange on the bus. What the
    program does to the outside is recorded as events: the chip-select
    line driven low or high, a byte exchange ([mosi] sent, [miso]
    received) and a byte written to the USART. The driver is
    deterministic, so a card that reacts to what it is sent still shows
    up, in any one run, as one such sequence of answers. *)

Inductive event : Type :=
  | CsLow
  | CsHigh
  | Xfer (mosi : Z) (miso : byte)
  | Tx (c : byte).

Definition stream : Type := nat -> byte.

(** A hardware-facing computation runs against a card from exchange
    number [n]; it gives its result, the events it performed and the
    next exchange number. [None] stands for a polling loop of the model
    running out of fuel. *)
Definition M (A : Type) : Type :=
  stream -> nat -> option (A * list event * nat).

Definition ret {A} (a : A) : M A := fun _ n => Some (a, [], n).

Definition bind {A B} (m : M A) (f : A -> M B) : M B :=
  fun card n =>
    match m card n with
    | Some (a, e1, n1) =>
        match f a card n1 with
        | Some (b, e2, n2) => Some (b, e1 ++ e2, n2)
        | None => None
        end
    | None => None
    end.

Definition out_of_fuel {A} : M A := fun _ _ => None.

Notation "x <- m ;; k" := (bind m (fun x => k))
  (at level 61, m at next level, right associativity).
Notation "m ;; k" := (bind m (fun _ => k))
  (at level 61, right associativity).

Definition SD_CS_LOW : M unit := fun _ n => Some (tt, [CsLow], n).
Definition SD_CS_HIGH : M unit := fun _ n => Some (tt, [CsHigh], n).

(** [spi_transfer]: one full-duplex exchange; the argument is converted
    to [uint8_t]. *)
Definition spi_transfer (data : Z) : M byte :=
  fun card n => Some (card n, [Xfer (wrap8 data) (card n)], S n).

(** Output on the USART, lifted to a computation. *)
Definition usart (out : list byte) : M unit :=
  fun _ n => Some (tt, map Tx out, n).

Fixpoint spi_send_dummy (n : nat) : M unit :=
  match n with
  | O => ret tt
  | S n' => _ <- spi_transfer 0xFF ;; spi_send_dummy n'
  end.

(** ** SD card SPI protocol *)

(** The response loop of [sd_send_cmd], [n] attempts left; [res] is the
    last byte read. *)
Fixpoint sd_wait_response (n : nat) (res : byte) : M byte :=
  match n with
  | O => ret res
  | S n' =>
      res <- spi_transfer 0xFF ;;
      if Z.land (u8 res) 0x80 =? 0 then ret res
      else sd_wait_response n' res
  end.

(** [res] is not initialised in the source; the loop body runs at least
    once, so the placeholder is never returned. *)
Definition sd_send_cmd (cmd arg crc : Z) : M byte :=
  _ <- SD_CS_LOW ;;
  _ <- spi_transfer (Z.lor 0x40 cmd) ;;
  _ <- spi_transfer (Z.shiftr arg 24) ;;
  _ <- spi_transfer (Z.shiftr arg 16) ;;
  _ <- spi_transfer (Z.shiftr arg 8) ;;
  _ <- spi_transfer arg ;;
  _ <- spi_transfer crc ;;
  sd_wait_response 8 xff.

(** Fuel given to the two [do ... while (--timeout)] loops. *)
Definition POLL_FUEL : nat := Z.to_nat 0xFFFF.

(** The ACMD41 loop of [sd_init]; the result is the value of [timeout]
    when the loop is left. *)
Fixpoint acmd41_loop (fuel : nat) (timeout : Z) : M Z :=
  match fuel with
  | O => out_of_fuel
  | S fuel' =>
      _ <- sd_send_cmd 55 0 0x65 ;;
      r <- sd_send_cmd 41 0x40000000 0x77 ;;
      if u8 r =? 0x00 then ret timeout
      else
        let timeout := wrap16 (timeout - 1) in
        if negb (timeout =? 0) then acmd41_loop fuel' timeout
        else ret timeout
  end.

Definition sd_init : M Z :=
  _ <- SD_CS_HIGH ;;
  _ <- spi_send_dummy 10 ;;
  r <- sd_send_cmd 0 0 0x95 ;;
  if negb (u8 r =? 0x01) then ret 0 else
  r <- sd_send_cmd 8 0x1AA 0x87 ;;
  if negb (u8 r =? 0x01) then ret 0 else
  _ <- spi_transfer 0xFF ;; _ <- spi_transfer 0xFF ;;
  _ <- spi_transfer 0xFF ;; _ <- spi_transfer 0xFF ;;
  timeout <- acmd41_loop POLL_FUEL 0xFFFF ;;
  if timeout =? 0 then ret 0 else
  r <- sd_send_cmd 58 0 0xFD ;;
  if negb (u8 r =? 0x00) then ret 0 else
  _ <- spi_transfer 0xFF ;; _ <- spi_transfer 0xFF ;;
  _ <- spi_transfer 0xFF ;; _ <- spi_transfer 0xFF ;;
  _ <- SD_CS_HIGH ;;
  _ <- spi_transfer 0xFF ;;
  ret 1.

(** The data-token loop of [sd_read_sector]; the result is the value of
    [t] when the loop is left. *)
Fixpoint token_loop (fuel : nat) (t : Z) : M Z :=
  match fuel with
  | O => out_of_fuel
  | S fuel' =>
      token <- spi_transfer 0xFF ;;
      if u8 token =? 0xFE then ret t
      else
        let t := wrap16 (t - 1) in
        if negb (t =? 0) then token_loop fuel' t else ret t
  end.

(** [buffer[i] = v]. *)
Fixpoint store (buffer : list byte) (i : nat) (v : byte) : list byte :=
  match buffer, i with
  | [], _ => []
  | _ :: rest, O => v :: rest
  | b :: rest, S i' => b :: store rest i' v
  end.

(** The payload loop of [sd_read_sector], [n] iterations left. *)
Fixpoint read_payload (n i : nat) (buffer : list byte) : M (list byte) :=
  match n with
  | O => ret buffer
  | S n' =>
      b <- spi_transfer 0xFF ;;
      read_payload n' (S i) (store buffer i b)
  end.

(** [sd_read_sector]: the result is the return value and the contents of
    the caller's buffer afterwards. *)
Definition sd_read_sector (sector : Z) (buffer : list byte)
  : M (Z * list byte) :=
  _ <- SD_CS_LOW ;;
  r <- sd_send_cmd 17 sector 0xFF ;;
  if negb (u8 r =? 0x00) then
    _ <- SD_CS_HIGH ;; _ <- spi_transfer 0xFF ;; ret (0, buffer)
  else
  t <- token_loop POLL_FUEL 0xFFFF ;;
  if t =? 0 then
    _ <- SD_CS_HIGH ;; _ <- spi_transfer 0xFF ;; ret (0, buffer)
  else
  buffer <- read_payload SECTOR_SIZE 0 buffer ;;
  _ <- spi_transfer 0xFF ;; _ <- spi_transfer 0xFF ;;
  _ <- SD_CS_HIGH ;;
  _ <- spi_transfer 0xFF ;;
  ret (1, buffer).

(** ** Main routine *)

(** Where [main] ends up spinning in [while (1);]. *)
Inductive halt : Type :=
  | InitFailed
  | MbrFailed
  | VbrFailed
  | RootFailed
  | Listed.

(** [main]. [usart0_init] and [spi_init] only configure the peripherals
    and perform no exchange and no output. The local [sector] buffer is
    not initialised in the source; it is only read after a successful
    [sd_read_sector] has overwritten all of it. *)
Definition main : M halt :=
  let sector := repeat x00 SECTOR_SIZE in
  _ <- usart (usart0_puts (crlf ++ bytes "Initializing SD Card..." ++ crlf)) ;;
  ok <- sd_init ;;
  if ok =? 0 then
    _ <- usart (usart0_puts (bytes "SD Card init failed!" ++ crlf)) ;;
    ret InitFailed
  else
  _ <- usart (usart0_puts (bytes "SD Card OK." ++ crlf)) ;;
  rd <- sd_read_sector 0 sector ;;
  let (ok, sector) := rd : Z * list byte in
  if ok =? 0 then
    _ <- usart (usart0_puts (bytes "MBR read error" ++ crlf)) ;;
    ret MbrFailed
  else
  let part_start :=
    le32 (idx sector 454) (idx sector 455) (idx sector 456) (idx sector 457) in
  rd <- sd_read_sector part_start sector ;;
  let (ok, sector) := rd : Z * list byte in
  if ok =? 0 then
    _ <- usart (usart0_puts (bytes "VBR read error" ++ crlf)) ;;
    ret VbrFailed
  else
  let fat32 := snd (parse_fat32_info sector) in
  _ <- usart (usart0_puts (bytes "FAT32 detected. Root Cluster: ")) ;;
  _ <- usart (usart0_puts (itoa (root_cluster fat32))) ;;
  _ <- usart (usart0_puts crlf) ;;
  let first_root := first_root_sector fat32 in
  rd <- sd_read_sector first_root sector ;;
  let (ok, sector) := rd : Z * list byte in
  if ok =? 0 then
    _ <- usart (usart0_puts (bytes "Root dir read error" ++ crlf)) ;;
    ret RootFailed
  else
  _ <- usart (usart0_puts (bytes "Root Directory:" ++ crlf)) ;;
  _ <- usart (print_root_dir sector) ;;
  ret Listed.

(** * Vocabulary for the properties *)

(** ** Observations on a run *)

(** The filler exchanges of a polling loop: [d] exchanges from number [p],
    each sending 0xFF. *)
Fixpoint polls (card : stream) (p d : nat) : list event :=
  match d with
  | O => []
  | S d' => Xfer 0xFF (card p) :: polls card (S p) d'
  end.

(** The bytes put on the bus by the six leading exchanges of
    [sd_send_cmd]. *)
Definition frame (cmd arg crc : Z) : list Z :=
  [wrap8 (Z.lor 0x40 cmd); wrap8 (Z.shiftr arg 24); wrap8 (Z.shiftr arg 16);
   wrap8 (Z.shiftr arg 8); wrap8 arg; wrap8 crc].

(** The bytes sent on the bus, in order. *)
Definition sent (evs : list event) : list Z :=
  flat_map (fun e => match e with Xfer m _ => [m] | _ => [] end) evs.

Definition is_xfer (e : event) : bool :=
  match e with Xfer _ _ => true | _ => false end.

(** Events that keep the card selected: chip-select driven low, or an
    exchange. *)
Definition selected_event (e : event) : bool :=
  match e with CsLow | Xfer _ _ => true | _ => false end.

(** The number of times chip-select is driven low, which [sd_send_cmd]
    does once per command. *)
Definition commands (evs : list event) : nat :=
  length (filter (fun e => match e with CsLow => true | _ => false end) evs).

Definition chip_selects_released (evs : list event) : nat :=
  length (filter (fun e => match e with CsHigh => true | _ => false end) evs).

(** The state of chip-select as a command exchange goes on: the card is
    not selected; it is selected and no byte has been exchanged; it is
    selected and a command is under way. *)
Inductive cs_phase : Type := Off | On | Cmd.

(** The discipline of one exchange per assertion of chip-select: no
    command starts while the previous one is under way, and a command
    under way ends with chip-select driven high followed by exactly one
    filler exchange. *)
Fixpoint released_after_each_command (ph : cs_phase) (evs : list event)
  : bool :=
  match evs with
  | [] => match ph with Cmd => false | _ => true end
  | Tx _ :: rest => released_after_each_command ph rest
  | CsLow :: rest =>
      match ph with
      | Cmd => false
      | _ => released_after_each_command On rest
      end
  | Xfer _ _ :: rest =>
      match ph with
      | Off => released_after_each_command Off rest
      | _ => released_after_each_command Cmd rest
      end
  | CsHigh :: rest =>
      match ph with
      | Cmd =>
          match rest with
          | Xfer m _ :: rest' =>
              (m =? 0xFF)
              && match rest' with
                 | Xfer _ _ :: _ => false
                 | _ => released_after_each_command Off rest'
                 end
          | _ => false
          end
      | _ => released_after_each_command Off rest
      end
  end.

Definition printed (evs : list event) : list byte :=
  flat_map (fun e => match e with Tx c => [c] | _ => [] end) evs.

(** The text [main] prints, as events. *)
Definition say (text : list byte) : list event := map Tx text.

(** Result and next exchange number of a run, without its events. *)
Definition outcome {A} (r : option (A * list event * nat)) : option (A * nat) :=
  option_map (fun x => (fst (fst x), snd x)) r.

(** ** Program points of [sd_init] and [main] *)

(** [sd_init] up to the test of the R1 byte of CMD8; the result tells
    whether [sd_init] goes on. *)
Definition sd_init_until_cmd8 : M bool :=
  _ <- SD_CS_HIGH ;;
  _ <- spi_send_dummy 10 ;;
  r <- sd_send_cmd 0 0 0x95 ;;
  if negb (u8 r =? 0x01) then ret false else
  r <- sd_send_cmd 8 0x1AA 0x87 ;;
  if negb (u8 r =? 0x01) then ret false else ret true.

(** The four exchanges after the R1 byte of CMD8, whose results
    [sd_init] drops. *)
Definition sd_init_cmd8_echo : M unit :=
  _ <- spi_transfer 0xFF ;; _ <- spi_transfer 0xFF ;;
  _ <- spi_transfer 0xFF ;; _ <- spi_transfer 0xFF ;;
  ret tt.

(** [sd_init] from the ACMD41 loop on. *)
Definition sd_init_from_acmd41 : M Z :=
  timeout <- acmd41_loop POLL_FUEL 0xFFFF ;;
  if timeout =? 0 then ret 0 else
  r <- sd_send_cmd 58 0 0xFD ;;
  if negb (u8 r =? 0x00) then ret 0 else
  _ <- spi_transfer 0xFF ;; _ <- spi_transfer 0xFF ;;
  _ <- spi_transfer 0xFF ;; _ <- spi_transfer 0xFF ;;
  _ <- SD_CS_HIGH ;;
  _ <- spi_transfer 0xFF ;;
  ret 1.

(** The sector number [main] reads the boot sector from: the start of
    the first partition, at offset 454 of the MBR. *)
Definition part_start (mbr : list byte) : Z :=
  le32 (idx mbr 454) (idx mbr 455) (idx mbr 456) (idx mbr 457).

(** ** Cards *)

Definition agree (c1 c2 : stream) (lo hi : nat) : Prop :=
  forall k, (lo <= k < hi)%nat -> c1 k = c2 k.

(** A computation is local when it only moves forward and its run is
    decided by the answers it consumed. *)
Definition local {A} (m : M A) : Prop :=
  forall c1 c2 n a evs n',
    m c1 n = Some (a, evs, n') ->
    (n <= n')%nat /\ (agree c1 c2 n n' -> m c2 n = Some (a, evs, n')).

(** The card that answers [l] from exchange [p] on and like [card]
    elsewhere. *)
Definition patch (card : stream) (p : nat) (l : list byte) : stream :=
  fun k =>
    if (p <=? k)%nat && (k <? p + length l)%nat then nth (k - p) l x00
    else card k.

(** The card that answers with the given bytes and then with 0xFF for
    ever (the level of an idle bus). *)
Definition card_of (answers : list byte) : stream :=
  fun k => nth k answers xff.

(** A card that answers 0x01 (idle, no error) to every exchange. *)
Definition idle_card : stream := fun _ => x01.

(** Answers of a card that goes through the whole of [sd_init]; [echo] is
    what it sends after the R1 byte of CMD8. *)
Definition init_answers (echo : list byte) : list byte :=
  repeat xff 10
  ++ repeat xff 6 ++ [x01]
  ++ repeat xff 6 ++ [x01] ++ echo
  ++ repeat xff 6 ++ [x01] ++ repeat xff 6 ++ [x00]
  ++ repeat xff 6 ++ [x00; xc0; xff; x80; x00]
  ++ [xff].

Definition good_echo : list byte := [x00; x00; x01; xaa].
Definition bad_echo : list byte := [x00; x00; x00; x00].

(** What the card sends for a successful [sd_read_sector] of [block]. *)
Definition read_answers (block : list byte) : list byte :=
  repeat xff 6 ++ [x00] ++ [xff; xfe] ++ block ++ [xaa; xbb] ++ [xff].

(** ** Sample data *)

(** A boot sector with the geometry of the end-to-end example of the
    specification: 4 sectors per cluster, 32 reserved sectors, 2 FATs of
    100 sectors, root cluster 2. *)
Definition sample_vbr : list byte :=
  repeat x00 13 ++ [x04; x20; x00; x02] ++ repeat x00 19
  ++ [x64; x00; x00; x00] ++ repeat x00 4 ++ [x02; x00; x00; x00]
  ++ repeat x00 464.

(** An MBR whose first partition starts at sector 8. *)
Definition sample_mbr : list byte :=
  repeat x00 454 ++ [x08; x00; x00; x00] ++ repeat x00 54.

(** A directory entry for [HELLO.TXT], archive attribute, 10 bytes. *)
Definition hello_entry : list byte :=
  bytes "HELLO   TXT" ++ [x20] ++ repeat x00 16 ++ [x0a; x00; x00; x00].

(** A root-directory block whose first slot is free (first byte 0x00),
    whose second slot is [hello_entry] and whose other slots are free. *)
Definition free_then_hello : list byte :=
  repeat x00 32 ++ hello_entry ++ repeat x00 448.

(** A directory entry for [BIG.BIN], archive attribute, 40000 bytes. *)
Definition big_entry : list byte :=
  bytes "BIG     BIN" ++ [x20] ++ repeat x00 16 ++ [x40; x9c; x00; x00].

Definition sample_card : stream :=
  card_of (init_answers good_echo ++ read_answers sample_mbr
           ++ read_answers sample_vbr ++ read_answers free_then_hello).

(** ** Vocabulary for the further properties *)

(** The value of an upper-case hexadecimal digit. *)
Definition hex_value (c : byte) : option Z :=
  let v := u8 c in
  if (0x30 <=? v) && (v <=? 0x39) then Some (v - 0x30)
  else if (0x41 <=? v) && (v <=? 0x46) then Some (v - 0x41 + 10)
  else None.

(** Bit 7 of a byte, which a card keeps set until it answers. *)
Definition bit7 (b : byte) : bool := negb (Z.land (u8 b) 0x80 =? 0).

(** The command bytes of a run, in order: the byte sent by the first
    exchange after each assertion of chip-select. *)
Fixpoint command_bytes (evs : list event) : list Z :=
  match evs with
  | [] => []
  | CsLow :: rest =>
      match rest with
      | Xfer m _ :: _ => m :: command_bytes rest
      | _ => command_bytes rest
      end
  | _ :: rest => command_bytes rest
  end.

(** [evs] issues the commands [l], whatever follows it. *)
Definition issues (evs : list event) (l : list Z) : Prop :=
  forall rest, command_bytes (evs ++ rest) = l ++ command_bytes rest.

(** The command bytes of [k] rounds of the ACMD41 loop: CMD55 then
    ACMD41. *)
Fixpoint acmd41_rounds (k : nat) : list Z :=
  match k with
  | O => []
  | S k' => 0x77 :: 0x69 :: acmd41_rounds k'
  end.

(** The offsets of a boot sector that [parse_fat32_info] reads. *)
Definition bpb_offsets : list nat :=
  [11; 12; 13; 14; 15; 16; 36; 37; 38; 39; 44; 45; 46; 47]%nat.

(** [sd_read_sector] up to the end of the payload loop; the result tells
    whether the payload was read, with the buffer afterwards. *)
Definition sd_read_sector_until_crc (sector : Z) (buffer : list byte)
  : M (bool * list byte) :=
  _ <- SD_CS_LOW ;;
  r <- sd_send_cmd 17 sector 0xFF ;;
  if negb (u8 r =? 0x00) then
    _ <- SD_CS_HIGH ;; _ <- spi_transfer 0xFF ;; ret (false, buffer)
  else
  t <- token_loop POLL_FUEL 0xFFFF ;;
  if t =? 0 then
    _ <- SD_CS_HIGH ;; _ <- spi_transfer 0xFF ;; ret (false, buffer)
  else
  buffer <- read_payload SECTOR_SIZE 0 buffer ;;
  ret (true, buffer).

(** The name [print_filename] builds in its 13-byte buffer, before the
    terminator. *)
Definition built_name (entry : list byte) : list byte :=
  if negb (Byte.eqb (idx entry 8) space)
  then copy_field 8 0 entry ++ [dot] ++ copy_field 3 8 entry
  else copy_field 8 0 entry.

(** The commands that [sd_init] can issue: [l] for the result [ok], with
    [k] rounds of the ACMD41 loop. *)
Definition init_commands (ok : Z) (k : nat) (l : list Z) : Prop :=
  (ok = 1 /\ (1 <= k)%nat /\ l = [0x40; 0x48] ++ acmd41_rounds k ++ [0x7A])
  \/ (ok = 0
      /\ (l = [0x40]
          \/ l = [0x40; 0x48]
          \/ (k = POLL_FUEL /\ l = [0x40; 0x48] ++ acmd41_rounds k)
          \/ ((1 <= k)%nat
              /\ l = [0x40; 0x48] ++ acmd41_rounds k ++ [0x7A]))).

(** The number of sectors [main] has asked for when it halts. *)
Definition reads_before (h : halt) : nat :=
  match h with
  | InitFailed => 0
  | MbrFailed => 1
  | VbrFailed => 2
  | RootFailed | Listed => 3
  end.

(** Whether the decimal text of each of the [fuel] integers from [z] on
    has at most 6 characters. *)
Fixpoint decimal_short (fuel : nat) (z : Z) : bool :=
  match fuel with
  | O => true
  | S fuel' => (length (decimal z) <=? 6)%nat && decimal_short fuel' (z + 1)
  end.

(** ** The course of [sd_init] *)

(** The exchange number reached after [j] rounds of the ACMD41 loop from
    exchange [n], none of which found the card ready (the response to
    each ACMD41 is not 0x00); [None] when one of them found it ready. *)
Fixpoint busy_rounds (card : stream) (n j : nat) : option nat :=
  match j with
  | O => Some n
  | S j' =>
      match sd_send_cmd 55 0 0x65 card n with
      | Some (_, _, p55) =>
          match sd_send_cmd 41 0x40000000 0x77 card p55 with
          | Some (r, _, p41) =>
              if u8 r =? 0x00 then None else busy_rounds card p41 j'
          | None => None
          end
      | None => None
      end
  end.

(** How a run of [sd_init] from exchange [n] goes, command by command:
    each command is named with the response it got and the exchange
    number where it ended; [ok] is the result, [n'] the exchange number
    at the end and [cmds] the command bytes issued. *)
Definition init_course
    (card : stream) (n : nat) (ok : Z) (n' : nat) (cmds : list Z) : Prop :=
  exists r0 p0,
    outcome (sd_send_cmd 0 0 0x95 card (n + 10)%nat) = Some (r0, p0)
    /\ if negb (u8 r0 =? 0x01) then ok = 0 /\ n' = p0 /\ cmds = [0x40] else
       exists r8 p8,
         outcome (sd_send_cmd 8 0x1AA 0x87 card p0) = Some (r8, p8)
         /\ if negb (u8 r8 =? 0x01)
            then ok = 0 /\ n' = p8 /\ cmds = [0x40; 0x48] else
            exists j pj,
              busy_rounds card (p8 + 4)%nat j = Some pj
              /\ ((j = POLL_FUEL /\ ok = 0 /\ n' = pj
                   /\ cmds = [0x40; 0x48] ++ acmd41_rounds j)
                  \/ ((j < POLL_FUEL)%nat
                      /\ exists r55 p55 p41 r58 p58,
                           outcome (sd_send_cmd 55 0 0x65 card pj)
                           = Some (r55, p55)
                           /\ outcome (sd_send_cmd 41 0x40000000 0x77 card p55)
                              = Some (x00, p41)
                           /\ outcome (sd_send_cmd 58 0 0xFD card p41)
                              = Some (r58, p58)
                           /\ cmds = [0x40; 0x48] ++ acmd41_rounds (S j)
                                     ++ [0x7A]
                           /\ if negb (u8 r58 =? 0x00)
                              then ok = 0 /\ n' = p58
                              else ok = 1 /\ n' = (p58 + 5)%nat)).

(** ** Further sample data *)

(** A card that passes CMD0 and CMD8, sends the echo 00 00 01 AA, keeps
    the bus idle during the 0xFFFF rounds of the ACMD41 loop, and would
    answer 0x00 to whatever came after them. *)
Definition late_ready_card : stream :=
  fun k =>
    if Z.of_nat k <? 28 + 28 * 0xFFFF
    then nth k (repeat xff 10 ++ repeat xff 6 ++ [x01]
                ++ repeat xff 6 ++ [x01] ++ good_echo) xff
    else x00.

(** A card that accepts CMD17 and sends the data token only when the
    0xFFFF polls for it are over. *)
Definition late_token_card : stream :=
  fun k =>
    if Z.of_nat k <? 7 + 0xFFFF
    then nth k (repeat xff 6 ++ [x00]) xff
    else xfe.

(** A boot sector like [sample_vbr] whose root cluster is 40000. *)
Definition big_root_vbr : list byte :=
  repeat x00 13 ++ [x04; x20; x00; x02] ++ repeat x00 19
  ++ [x64; x00; x00; x00] ++ repeat x00 4 ++ [x40; x9c; x00; x00]
  ++ repeat x00 464.

(** A card that initialises and serves [sample_mbr] and [big_root_vbr],
    then keeps the bus idle. *)
Definition big_root_card : stream :=
  card_of (init_answers good_echo ++ read_answers sample_mbr
           ++ read_answers big_root_vbr).

(** A directory entry whose base name has a space in the middle. *)
Definition spaced_entry : list byte :=
  bytes "A B     TXT" ++ [x20] ++ repeat x00 20.

(** * Properties *)

(** ** Bytes and little-endian fields *)

Lemma u8_range (b : byte) : 0 <= u8 b < 256.
Proof.
  unfold u8. pose proof (Byte.to_N_bounded b). lia.
Qed.

Lemma land_low_shifted (a b n : Z) :
  0 <= n -> 0 <= a < 2 ^ n -> Z.land a (b * 2 ^ n) = 0.
Proof.
  intros Hn Ha. apply Z.bits_inj'. intros k Hk.
  rewrite Z.land_spec, Z.bits_0.
  destruct (Z.lt_ge_cases k n) as [Hlt | Hge].
  - rewrite (Z.mul_pow2_bits_low b n k) by lia. apply andb_false_r.
  - rewrite <- (Z.mod_small a (2 ^ n)) by lia.
    rewrite Z.mod_pow2_bits_high by lia. reflexivity.
Qed.

Lemma lor_low_shifted (a b n : Z) :
  0 <= n -> 0 <= a < 2 ^ n -> Z.lor a (b * 2 ^ n) = a + b * 2 ^ n.
Proof.
  intros Hn Ha.
  pose proof (land_low_shifted a b n Hn Ha) as H0.
  rewrite <- (Z.lxor_lor _ _ H0). symmetry. apply Z.add_nocarry_lxor, H0.
Qed.

Lemma le16_value (lo hi : byte) :
  Z.lor (u8 lo) (Z.shiftl (u8 hi) 8) = u8 lo + 2 ^ 8 * u8 hi.
Proof.
  rewrite Z.shiftl_mul_pow2 by lia.
  rewrite lor_low_shifted; pose proof (u8_range lo); lia.
Qed.

Lemma le32_value (b0 b1 b2 b3 : byte) :
  le32 b0 b1 b2 b3 = u8 b0 + 2 ^ 8 * u8 b1 + 2 ^ 16 * u8 b2 + 2 ^ 24 * u8 b3.
Proof.
  pose proof (u8_range b0). pose proof (u8_range b1).
  pose proof (u8_range b2). pose proof (u8_range b3).
  unfold le32, wrap32. rewrite !Z.shiftl_mul_pow2 by lia.
  rewrite !Z.mod_small by lia.
  rewrite (lor_low_shifted (u8 b0) (u8 b1) 8) by lia.
  rewrite (lor_low_shifted (u8 b0 + u8 b1 * 2 ^ 8) (u8 b2) 16) by lia.
  rewrite lor_low_shifted by lia. lia.
Qed.

Lemma le32_range (b0 b1 b2 b3 : byte) : 0 <= le32 b0 b1 b2 b3 < 2 ^ 32.
Proof.
  rewrite le32_value.
  pose proof (u8_range b0). pose proof (u8_range b1).
  pose proof (u8_range b2). pose proof (u8_range b3). lia.
Qed.

Lemma land8_testbit3 (b : byte) :
  (Z.land (u8 b) 0x08 =? 0) = negb (Z.testbit (u8 b) 3).
Proof. destruct b; reflexivity. Qed.

(** ** Volume parser *)

Lemma parsed_fields (sector : list byte) :
  let info := snd (parse_fat32_info sector) in
  sectors_per_cluster info = u8 (idx sector 13)
  /\ reserved_sector_count info
     = u8 (idx sector 14) + 2 ^ 8 * u8 (idx sector 15)
  /\ num_fats info = u8 (idx sector 16)
  /\ fat_size info
     = le32 (idx sector 36) (idx sector 37) (idx sector 38) (idx sector 39)
  /\ root_cluster info
     = le32 (idx sector 44) (idx sector 45) (idx sector 46) (idx sector 47)
  /\ fat_start info = reserved_sector_count info
  /\ data_start info
     = wrap32 (reserved_sector_count info + num_fats info * fat_size info).
Proof.
  cbv zeta. cbn [snd parse_fat32_info sectors_per_cluster
    reserved_sector_count num_fats fat_size root_cluster fat_start data_start].
  repeat split.
  - pose proof (u8_range (idx sector 14)). pose proof (u8_range (idx sector 15)).
    unfold wrap16, wrap32. rewrite Z.shiftl_mul_pow2 by lia.
    rewrite (Z.mod_small (_ * _)) by lia.
    rewrite lor_low_shifted by lia. rewrite Z.mod_small by lia. lia.
  - unfold wrap32. rewrite Zplus_mod_idemp_r. reflexivity.
Qed.

Lemma parsed_ranges (sector : list byte) :
  let info := snd (parse_fat32_info sector) in
  0 <= sectors_per_cluster info < 2 ^ 8
  /\ 0 <= reserved_sector_count info < 2 ^ 16
  /\ 0 <= num_fats info < 2 ^ 8
  /\ 0 <= fat_size info < 2 ^ 32
  /\ 0 <= root_cluster info < 2 ^ 32
  /\ 0 <= data_start info < 2 ^ 32.
Proof.
  destruct (parsed_fields sector) as (Hs & Hr & Hn & Hf & Hc & _ & Hd).
  cbv zeta. rewrite Hs, Hr, Hn, Hf, Hc, Hd.
  pose proof (u8_range (idx sector 13)). pose proof (u8_range (idx sector 14)).
  pose proof (u8_range (idx sector 15)). pose proof (u8_range (idx sector 16)).
  pose proof (le32_range (idx sector 36) (idx sector 37) (idx sector 38) (idx sector 39)).
  pose proof (le32_range (idx sector 44) (idx sector 45) (idx sector 46) (idx sector 47)).
  repeat split; try lia; unfold wrap32; apply Z.mod_pos_bound; lia.
Qed.

Lemma wrap32_affine (d s x : Z) :
  wrap32 (d + wrap32 (s * wrap32 x)) = wrap32 (d + s * x).
Proof.
  unfold wrap32. rewrite Zplus_mod_idemp_r.
  rewrite (Zplus_mod d (s * (x mod 2 ^ 32))), Zmult_mod_idemp_r.
  rewrite <- Zplus_mod. reflexivity.
Qed.

(** C2. For every boot-sector block, [parse_fat32_info] decodes the
    reserved-sector count, the number of FATs and the FAT size
    little-endian from offsets 14, 16 and 36, sets [fat_start] to the
    reserved-sector count and [data_start] to
    [reserved_sector_count + num_fats * fat_size] reduced modulo 2^32;
    when that sum fits in 32 bits it is the sum itself. *)
Theorem parse_fat32_info_layout (sector : list byte) :
  let info := snd (parse_fat32_info sector) in
  reserved_sector_count info
  = u8 (idx sector 14) + 2 ^ 8 * u8 (idx sector 15)
  /\ num_fats info = u8 (idx sector 16)
  /\ fat_size info
     = u8 (idx sector 36) + 2 ^ 8 * u8 (idx sector 37)
       + 2 ^ 16 * u8 (idx sector 38) + 2 ^ 24 * u8 (idx sector 39)
  /\ fat_start info = reserved_sector_count info
  /\ data_start info
     = (reserved_sector_count info + num_fats info * fat_size info)
         mod 2 ^ 32
  /\ (reserved_sector_count info + num_fats info * fat_size info < 2 ^ 32 ->
      data_start info
      = reserved_sector_count info + num_fats info * fat_size info).
Proof.
  destruct (parsed_fields sector) as (_ & Hr & Hn & Hf & _ & Hs & Hd).
  destruct (parsed_ranges sector) as (_ & Rr & Rn & Rf & _).
  cbv zeta in *. rewrite <- le32_value, <- Hf.
  repeat split; try assumption.
  intros Hfit. rewrite Hd. unfold wrap32. apply Z.mod_small. nia.
Qed.

Lemma parse_fat32_info_layout_sample :
  data_start (snd (parse_fat32_info sample_vbr)) = 32 + 2 * 100.
Proof.
  pose proof (parse_fat32_info_layout sample_vbr) as H. cbv zeta in H.
  destruct H as (_ & _ & _ & _ & _ & H).
  rewrite H; reflexivity.
Defined.

(** C3. For every parsed geometry and every cluster number [N >= 2], the
    sector computed for cluster [N + 1] exceeds the one computed for
    cluster [N] by [sectors_per_cluster], the difference being taken in
    unsigned 32-bit arithmetic like the mapping itself; when the mapping
    does not wrap around at [N + 1] the plain difference is
    [sectors_per_cluster] too. *)
Theorem cluster_to_sector_affine (sector : list byte) (N : Z) :
  2 <= N -> N + 1 < 2 ^ 32 ->
  let info := snd (parse_fat32_info sector) in
  wrap32 (cluster_to_sector info (N + 1) - cluster_to_sector info N)
  = sectors_per_cluster info
  /\ (data_start info + sectors_per_cluster info * (N - 1) < 2 ^ 32 ->
      cluster_to_sector info (N + 1) - cluster_to_sector info N
      = sectors_per_cluster info).
Proof.
  intros H2 Hmax.
  destruct (parsed_ranges sector) as (Rs & _ & _ & _ & _ & Rd).
  cbv zeta in *.
  set (info := snd (parse_fat32_info sector)) in *.
  unfold cluster_to_sector. split.
  - rewrite !wrap32_affine. unfold wrap32. rewrite <- Zminus_mod.
    replace (data_start info + sectors_per_cluster info * (N + 1 - 2)
             - (data_start info + sectors_per_cluster info * (N - 2)))
      with (sectors_per_cluster info) by ring.
    apply Z.mod_small. lia.
  - intros Hfit. unfold wrap32.
    rewrite (Z.mod_small (N + 1 - 2)) by lia.
    rewrite (Z.mod_small (N - 2)) by lia.
    rewrite (Z.mod_small (sectors_per_cluster info * (N + 1 - 2))) by nia.
    rewrite (Z.mod_small (sectors_per_cluster info * (N - 2))) by nia.
    rewrite !Z.mod_small by nia. ring.
Qed.

Lemma cluster_to_sector_affine_sample :
  cluster_to_sector (snd (parse_fat32_info sample_vbr)) 3
  - cluster_to_sector (snd (parse_fat32_info sample_vbr)) 2
  = 4.
Proof.
  assert (H2 : 2 <= 2) by lia.
  assert (Hm : 2 + 1 < 2 ^ 32) by reflexivity.
  pose proof (cluster_to_sector_affine sample_vbr 2 H2 Hm) as H.
  cbv zeta in H. destruct H as [_ H].
  change (2 + 1) with 3 in H. rewrite H; reflexivity.
Defined.

(** ** Directory decoder *)

Lemma classify_regular (entry : list byte) :
  classify entry = Regular <->
  u8 (idx entry 0) <> 0x00 /\ u8 (idx entry 0) <> 0xE5
  /\ Z.testbit (u8 (idx entry 11)) 3 = false.
Proof.
  unfold classify.
  destruct (Z.eqb_spec (u8 (idx entry 0)) 0x00) as [E0 | E0];
    [ split; [discriminate | tauto] | ].
  destruct (Z.eqb_spec (u8 (idx entry 0)) 0xE5) as [E1 | E1];
    [ split; [discriminate | tauto] | ].
  destruct (Z.testbit (u8 (idx entry 11)) 3);
    split; try discriminate; try tauto.
  intros (_ & _ & H). discriminate H.
Qed.

Lemma print_dir_entry_cases (entry : list byte) :
  print_dir_entry entry
  = match classify entry with
    | Regular =>
        bytes "Name: " ++ print_filename entry ++ bytes " | Attr: "
        ++ usart0_print_hex (idx entry 11) ++ bytes " | Size: "
        ++ usart0_puts (itoa (dir_size entry)) ++ crlf
    | _ => []
    end.
Proof.
  unfold print_dir_entry, classify. rewrite land8_testbit3, negb_involutive.
  destruct (u8 (idx entry 0) =? 0x00); [reflexivity | ].
  destruct (u8 (idx entry 0) =? 0xE5); [reflexivity | ].
  destruct (Z.testbit (u8 (idx entry 11)) 3); reflexivity.
Qed.

Lemma print_dir_entry_emits (entry : list byte) :
  print_dir_entry entry <> [] <-> classify entry = Regular.
Proof.
  rewrite print_dir_entry_cases.
  destruct (classify entry); split; try congruence; try discriminate.
Qed.

Lemma print_dir_entry_not_regular (entry : list byte) :
  is_regular entry = false -> print_dir_entry entry = [].
Proof.
  unfold is_regular. rewrite print_dir_entry_cases.
  destruct (classify entry); try reflexivity. discriminate.
Qed.

Lemma print_entries_slots (sector : list byte) (n k : nat) :
  print_entries n (32 * k) sector
  = flat_map print_dir_entry (map (slot sector) (seq k n)).
Proof.
  revert k. induction n as [| n IH]; intros k; [reflexivity | ].
  cbn [print_entries seq map flat_map]. f_equal.
  replace (32 * k + 32)%nat with (32 * S k)%nat by lia. apply IH.
Qed.

Lemma flat_map_filter_emitting (l : list (list byte)) :
  flat_map print_dir_entry (filter is_regular l) = flat_map print_dir_entry l.
Proof.
  induction l as [| e l IH]; [reflexivity | ].
  cbn [filter flat_map]. destruct (is_regular e) eqn:E.
  - cbn [flat_map]. now rewrite IH.
  - now rewrite (print_dir_entry_not_regular e E), IH.
Qed.

Lemma print_root_dir_slots (sector : list byte) :
  print_root_dir sector
  = flat_map print_dir_entry (map (slot sector) (seq 0 16)).
Proof.
  unfold print_root_dir.
  change (SECTOR_SIZE / 32)%nat with 16%nat.
  exact (print_entries_slots sector 16 0).
Qed.

(** C1. In a 512-byte root-directory block, a slot whose first byte is
    0xE5 or whose attribute byte has bit 0x08 set prints nothing; a slot
    prints something exactly when it is classified Regular (first byte
    neither 0x00 nor 0xE5, attribute bit 0x08 clear); and the listing of
    the block is the concatenation of what its Regular slots print, in
    slot order. *)
Theorem only_regular_records_emitted (sector : list byte) (k : nat) :
  length sector = SECTOR_SIZE -> (k < 16)%nat ->
  let entry := slot sector k in
  (u8 (idx entry 0) = 0xE5 -> print_dir_entry entry = [])
  /\ (Z.testbit (u8 (idx entry 11)) 3 = true -> print_dir_entry entry = [])
  /\ (print_dir_entry entry <> [] <-> classify entry = Regular)
  /\ (classify entry = Regular <->
      u8 (idx entry 0) <> 0x00 /\ u8 (idx entry 0) <> 0xE5
      /\ Z.testbit (u8 (idx entry 11)) 3 = false)
  /\ print_root_dir sector
     = flat_map print_dir_entry
         (filter is_regular (map (slot sector) (seq 0 16))).
Proof.
  intros _ _ entry. split; [ | split; [ | split; [ | split ] ] ].
  - intros E. rewrite print_dir_entry_cases. unfold classify. rewrite E.
    reflexivity.
  - intros E. rewrite print_dir_entry_cases. unfold classify. rewrite E.
    destruct (u8 (idx entry 0) =? 0x00); [reflexivity | ].
    destruct (u8 (idx entry 0) =? 0xE5); reflexivity.
  - apply print_dir_entry_emits.
  - apply classify_regular.
  - rewrite flat_map_filter_emitting. apply print_root_dir_slots.
Qed.

Lemma only_regular_records_emitted_sample :
  print_root_dir free_then_hello
  = flat_map print_dir_entry
      (filter is_regular (map (slot free_then_hello) (seq 0 16))).
Proof.
  assert (Hl : length free_then_hello = SECTOR_SIZE) by reflexivity.
  assert (Hk : (1 < 16)%nat) by lia.
  exact (proj2 (proj2 (proj2 (proj2
           (only_regular_records_emitted free_then_hello 1 Hl Hk))))).
Defined.

Lemma copy_field_ext (n i : nat) (e e' : list byte) :
  (forall j, (i <= j < i + n)%nat -> idx e j = idx e' j) ->
  copy_field n i e = copy_field n i e'.
Proof.
  revert i. induction n as [| n IH]; intros i H; [reflexivity | ].
  cbn [copy_field]. rewrite (H i) by lia.
  rewrite (IH (S i)); [reflexivity | ]. intros j Hj. apply H. lia.
Qed.

Lemma print_dir_entry_ext (e e' : list byte) :
  (forall j, (j < 32)%nat -> idx e j = idx e' j) ->
  print_dir_entry e = print_dir_entry e'.
Proof.
  intros H. unfold print_dir_entry, print_filename, dir_size.
  rewrite (copy_field_ext 8 0 e e') by (intros; apply H; lia).
  rewrite (copy_field_ext 3 8 e e') by (intros; apply H; lia).
  rewrite (H 0%nat), (H 8%nat), (H 11%nat) by lia.
  rewrite (H 28%nat), (H 29%nat), (H 30%nat), (H 31%nat) by lia.
  reflexivity.
Qed.

Lemma print_dir_entry_firstn (e e' : list byte) :
  firstn 32 e = firstn 32 e' -> print_dir_entry e = print_dir_entry e'.
Proof.
  intros H. apply print_dir_entry_ext. intros j Hj. unfold idx.
  assert (F : forall l, nth j l x00 = nth j (firstn 32 l) x00).
  { intros l. rewrite nth_firstn.
    destruct (Nat.ltb_spec j 32); [reflexivity | lia]. }
  rewrite (F e), (F e'), H. reflexivity.
Qed.

Lemma record_after_free_slot_is_emitted :
  length free_then_hello = SECTOR_SIZE
  /\ u8 (idx (slot free_then_hello 0) 0) = 0x00
  /\ classify (slot free_then_hello 0) = Free
  /\ print_dir_entry (slot free_then_hello 1)
     = bytes "Name: HELLO.TXT | Attr: 20 | Size: 10" ++ crlf
  /\ print_root_dir free_then_hello
     = bytes "Name: HELLO.TXT | Attr: 20 | Size: 10" ++ crlf.
Proof. vm_compute. repeat split. Qed.

Lemma print_root_dir_around (sector : list byte) (k : nat) :
  (k < 16)%nat ->
  print_root_dir sector
  = flat_map print_dir_entry (map (slot sector) (seq 0 k))
    ++ print_dir_entry (slot sector k)
    ++ flat_map print_dir_entry (map (slot sector) (seq (S k) (15 - k))).
Proof.
  intros Hk. rewrite print_root_dir_slots.
  replace 16%nat with (k + S (15 - k))%nat at 1 by lia.
  rewrite seq_app, map_app, flat_map_app. cbn [Nat.add seq map flat_map].
  reflexivity.
Qed.

(** C9 (as the code has it). In a 512-byte block, a slot whose first byte
    is 0x00 prints nothing. A 0x00 slot does not end the listing: what a
    slot prints is decided by its own 32 bytes alone, whatever the other
    slots of the block hold, and it prints something exactly when it is
    itself classified Regular; the listing of the block is what the
    slots before it print, then what it prints, then what the slots
    after it print, so that a Regular slot that comes after a 0x00 slot
    has its line in the listing. *)
Theorem free_slot_silent_slots_independent (sector : list byte) (k : nat) :
  length sector = SECTOR_SIZE -> (k < 16)%nat ->
  (u8 (idx (slot sector k) 0) = 0x00 -> print_dir_entry (slot sector k) = [])
  /\ (forall sector' : list byte,
        length sector' = SECTOR_SIZE ->
        firstn 32 (slot sector' k) = firstn 32 (slot sector k) ->
        print_dir_entry (slot sector' k) = print_dir_entry (slot sector k))
  /\ (print_dir_entry (slot sector k) <> [] <->
      classify (slot sector k) = Regular)
  /\ print_root_dir sector
     = flat_map print_dir_entry (map (slot sector) (seq 0 k))
       ++ print_dir_entry (slot sector k)
       ++ flat_map print_dir_entry (map (slot sector) (seq (S k) (15 - k)))
  /\ (forall j, (j < k)%nat ->
        u8 (idx (slot sector j) 0) = 0x00 ->
        classify (slot sector k) = Regular ->
        print_dir_entry (slot sector j) = []
        /\ print_dir_entry (slot sector k) <> []
        /\ exists before after,
             print_root_dir sector
             = before ++ print_dir_entry (slot sector k) ++ after).
Proof.
  intros _ Hk.
  assert (Hfree : forall i, u8 (idx (slot sector i) 0) = 0x00 ->
                            print_dir_entry (slot sector i) = []).
  { intros i E. rewrite print_dir_entry_cases. unfold classify. rewrite E.
    reflexivity. }
  split; [apply Hfree | ].
  split; [intros sector' _ H; apply print_dir_entry_firstn, H | ].
  split; [apply print_dir_entry_emits | ].
  split; [apply print_root_dir_around, Hk | ].
  intros j _ Hj Hreg. split; [apply Hfree, Hj | ].
  split; [apply print_dir_entry_emits, Hreg | ].
  eexists _, _. apply print_root_dir_around, Hk.
Qed.

Lemma free_slot_silent_sample :
  print_dir_entry (slot free_then_hello 0) = []
  /\ exists before after,
       print_root_dir free_then_hello
       = before ++ (bytes "Name: HELLO.TXT | Attr: 20 | Size: 10" ++ crlf)
         ++ after.
Proof.
  assert (Hl : length free_then_hello = SECTOR_SIZE) by reflexivity.
  assert (Hk : (1 < 16)%nat) by lia.
  destruct (free_slot_silent_slots_independent free_then_hello 1 Hl Hk)
    as (_ & _ & _ & _ & H).
  assert (H0 : (0 < 1)%nat) by lia.
  assert (Hfree : u8 (idx (slot free_then_hello 0) 0) = 0x00) by reflexivity.
  assert (Hreg : classify (slot free_then_hello 1) = Regular) by reflexivity.
  destruct (H 0%nat H0 Hfree Hreg) as (Hsilent & _ & before & after & Hlist).
  split; [exact Hsilent | ].
  exists before, after. exact Hlist.
Defined.

(** ** Decimal output *)

Lemma bytes_inj (s t : string) : bytes s = bytes t -> s = t.
Proof.
  unfold bytes. intros H.
  rewrite <- (string_of_list_byte_of_string s).
  rewrite <- (string_of_list_byte_of_string t). now rewrite H.
Qed.

Lemma decimal_inj (a b : Z) : decimal a = decimal b -> a = b.
Proof.
  unfold decimal. intros H. apply bytes_inj in H.
  apply DecimalZ.to_int_inj.
  pose proof (NilEmpty.isi (Z.to_int a)) as Ha.
  pose proof (NilEmpty.isi (Z.to_int b)) as Hb.
  rewrite H in Ha. congruence.
Qed.

Lemma to_int16_fits (v : Z) : 0 <= v -> (to_int16 v = v <-> v <= 32767).
Proof.
  intros Hv. unfold to_int16, wrap16. cbv zeta.
  pose proof (Z.mod_pos_bound v (2 ^ 16) ltac:(lia)) as Hm.
  destruct (Z.ltb_spec (v mod 2 ^ 16) (2 ^ 15)) as [Hlt | Hge].
  - split; intros H.
    + lia.
    + apply Z.mod_small. lia.
  - split; intros H.
    + lia.
    + rewrite Z.mod_small in Hge by lia. lia.
Qed.

Lemma usart0_puts_no_nul (l : list byte) :
  Forall (fun b => b <> x00) l -> usart0_puts l = l.
Proof.
  induction 1 as [| b l Hb _ IH]; [reflexivity | ].
  cbn [usart0_puts]. destruct (Byte.eqb b x00) eqn:E.
  - apply Byte.byte_dec_bl in E. contradiction.
  - unfold usart0_putc. cbn [app]. now rewrite IH.
Qed.

Lemma string_of_uint_no_nul (d : Decimal.uint) :
  Forall (fun b => b <> x00) (bytes (NilEmpty.string_of_uint d)).
Proof.
  induction d; cbn [NilEmpty.string_of_uint]; try constructor;
    try assumption; discriminate.
Qed.

Lemma decimal_no_nul (z : Z) : Forall (fun b => b <> x00) (decimal z).
Proof.
  unfold decimal. destruct (Z.to_int z) as [d | d];
    cbn [NilEmpty.string_of_int].
  - apply string_of_uint_no_nul.
  - constructor; [discriminate | apply string_of_uint_no_nul].
Qed.

Lemma usart0_puts_itoa (v : Z) : usart0_puts (itoa v) = decimal (to_int16 v).
Proof. unfold itoa. apply usart0_puts_no_nul, decimal_no_nul. Qed.

Lemma itoa_exact_iff (v : Z) :
  0 <= v -> (usart0_puts (itoa v) = decimal v <-> v <= 32767).
Proof.
  intros Hv. rewrite usart0_puts_itoa, <- (to_int16_fits v Hv).
  split; [apply decimal_inj | congruence].
Qed.

(** ** Running the driver *)

Lemma run_inj {A} (a a' : A) (e e' : list event) (n n' : nat) :
  Some (a, e, n) = Some (a', e', n') -> a = a' /\ e = e' /\ n = n'.
Proof. intros H. inversion H. auto. Qed.

Lemma bind_run {A B} (m : M A) (f : A -> M B) card n a e1 n1 :
  m card n = Some (a, e1, n1) ->
  bind m f card n
  = match f a card n1 with
    | Some (b, e2, n2) => Some (b, e1 ++ e2, n2)
    | None => None
    end.
Proof. intros H. unfold bind. now rewrite H. Qed.

Lemma bind_some {A B} (m : M A) (f : A -> M B) card n b evs n' :
  bind m f card n = Some (b, evs, n') ->
  exists a e1 n1 e2,
    m card n = Some (a, e1, n1) /\ f a card n1 = Some (b, e2, n')
    /\ evs = e1 ++ e2.
Proof.
  unfold bind.
  destruct (m card n) as [[[a e1] n1] | ] eqn:Em; [ | discriminate ].
  destruct (f a card n1) as [[[b' e2] n2] | ] eqn:Ef; [ | discriminate ].
  intros H. inversion H; subst. exists a, e1, n1, e2. auto.
Qed.

Lemma polls_xfer card p d : forallb is_xfer (polls card p d) = true.
Proof.
  revert p. induction d as [| d IH]; intros p; [reflexivity | ].
  cbn [polls forallb is_xfer andb]. apply IH.
Qed.

Lemma sent_polls card p d : sent (polls card p d) = repeat 0xFF d.
Proof.
  revert p. induction d as [| d IH]; intros p; [reflexivity | ].
  cbn [polls repeat]. unfold sent in *. cbn [flat_map app]. now rewrite IH.
Qed.

Lemma sent_app (e1 e2 : list event) : sent (e1 ++ e2) = sent e1 ++ sent e2.
Proof. unfold sent. apply flat_map_app. Qed.

Lemma polls_app card p d1 d2 :
  polls card p (d1 + d2) = polls card p d1 ++ polls card (p + d1) d2.
Proof.
  revert p. induction d1 as [| d1 IH]; intros p.
  - cbn. now rewrite Nat.add_0_r.
  - cbn [Nat.add polls app]. rewrite IH. do 3 f_equal. lia.
Qed.

Lemma sd_wait_response_run (k : nat) (res : byte) card n :
  exists d,
    (d <= k)%nat /\ (0 < k -> 0 < d)%nat
    /\ sd_wait_response k res card n
       = Some (match d with O => res | S d' => card (n + d')%nat end,
               polls card n d, (n + d)%nat).
Proof.
  revert res n. induction k as [| k IH]; intros res n.
  - exists 0%nat. cbn. rewrite Nat.add_0_r. repeat split; lia.
  - cbn [sd_wait_response]. unfold bind, spi_transfer.
    destruct (Z.land (u8 (card n)) 0x80 =? 0).
    + exists 1%nat. cbn. rewrite Nat.add_0_r, Nat.add_1_r.
      repeat split; lia.
    + destruct (IH (card n) (S n)) as (d & Hd & _ & Hrun).
      rewrite Hrun. exists (S d). split; [lia | ]. split; [lia | ].
      cbn [polls app]. f_equal. f_equal; [ f_equal | lia ].
      destruct d as [| d']; f_equal; lia.
Qed.

Lemma sd_send_cmd_run (cmd arg crc : Z) card n :
  exists d,
    (1 <= d <= 8)%nat
    /\ sd_send_cmd cmd arg crc card n
       = Some (card (n + 5 + d)%nat,
               CsLow :: Xfer (wrap8 (Z.lor 0x40 cmd)) (card n)
               :: Xfer (wrap8 (Z.shiftr arg 24)) (card (n + 1)%nat)
               :: Xfer (wrap8 (Z.shiftr arg 16)) (card (n + 2)%nat)
               :: Xfer (wrap8 (Z.shiftr arg 8)) (card (n + 3)%nat)
               :: Xfer (wrap8 arg) (card (n + 4)%nat)
               :: Xfer (wrap8 crc) (card (n + 5)%nat)
               :: polls card (n + 6) d,
               (n + 6 + d)%nat).
Proof.
  destruct (sd_wait_response_run 8 xff card (n + 6)) as (d & Hd & Hpos & Hrun).
  exists d. split; [lia | ].
  unfold sd_send_cmd, bind, SD_CS_LOW, spi_transfer.
  replace (S (S (S (S (S (S n)))))) with (n + 6)%nat by lia.
  rewrite Hrun. cbn [app].
  replace (S n) with (n + 1)%nat by lia.
  replace (S (n + 1)) with (n + 2)%nat by lia.
  replace (S (n + 2)) with (n + 3)%nat by lia.
  replace (S (n + 3)) with (n + 4)%nat by lia.
  replace (S (n + 4)) with (n + 5)%nat by lia.
  destruct d as [| d']; [lia | ].
  do 3 f_equal. f_equal. lia.
Qed.

(** What every use of [sd_send_cmd] relies on: the result is one of the
    bytes the card answered, chip-select is driven low first and only
    exchanges follow, and the bytes sent are the frame and then fillers. *)
Lemma sd_send_cmd_shape (cmd arg crc : Z) card n :
  exists r xs d,
    sd_send_cmd cmd arg crc card n = Some (r, CsLow :: xs, (n + 6 + d)%nat)
    /\ (1 <= d <= 8)%nat
    /\ r = card (n + 5 + d)%nat
    /\ forallb is_xfer xs = true
    /\ sent xs = frame cmd arg crc ++ repeat 0xFF d.
Proof.
  destruct (sd_send_cmd_run cmd arg crc card n) as (d & Hd & Hrun).
  eexists _, _, d. split; [exact Hrun | ]. split; [exact Hd | ].
  split; [reflexivity | ]. split.
  - cbn [forallb is_xfer andb]. apply polls_xfer.
  - change (sent (?a :: ?b :: ?c :: ?e :: ?f :: ?g :: ?p))
      with (sent [a; b; c; e; f; g] ++ sent p) at 1 || idtac.
    unfold sent at 1. cbn [flat_map app]. fold (sent (polls card (n + 6) d)).
    now rewrite sent_polls.
Qed.

(** ** Command framing *)

Lemma frame_value (cmd arg crc : Z) :
  0 <= cmd < 64 -> 0 <= arg < 2 ^ 32 -> 0 <= crc < 256 ->
  frame cmd arg crc
  = [0x40 + cmd; arg / 2 ^ 24; (arg / 2 ^ 16) mod 2 ^ 8;
     (arg / 2 ^ 8) mod 2 ^ 8; arg mod 2 ^ 8; crc].
Proof.
  intros Hc Ha Hr. unfold frame, wrap8.
  rewrite !Z.shiftr_div_pow2 by lia.
  rewrite Z.lor_comm.
  change 0x40 with (1 * 2 ^ 6) at 1. rewrite lor_low_shifted by lia.
  rewrite (Z.mod_small (cmd + 1 * 2 ^ 6)) by lia.
  rewrite (Z.mod_small (arg / 2 ^ 24)).
  2:{ split; [apply Z.div_pos; lia | apply Z.div_lt_upper_bound; lia]. }
  rewrite (Z.mod_small crc) by lia.
  replace (cmd + 1 * 2 ^ 6) with (0x40 + cmd) by lia. reflexivity.
Qed.

Lemma cmd0_frame_first_byte :
  option_map (fun x => firstn 6 (sent (snd (fst x))))
    (sd_send_cmd 0 0 0x95 idle_card 0%nat)
  = Some [0x40; 0; 0; 0; 0; 0x95]
  /\ Z.land 0x40 0xC0 = 0x40
  /\ Z.testbit 0x40 7 = false.
Proof. vm_compute. repeat split. Qed.

(** C7 (as the code has it). Every command the driver sends starts with
    exactly six bytes: the command byte [0x40 | cmd], in which bit 6 is
    set and bit 7 is clear (the top two bits are 01, not 11) for every
    command index below 64, then the 32-bit argument most significant
    byte first, then the checksum byte given by the caller; every later
    byte of the exchange is the filler 0xFF. *)
Theorem command_frame_layout (cmd arg crc : Z) (card : stream) (n : nat) :
  0 <= cmd < 64 -> 0 <= arg < 2 ^ 32 -> 0 <= crc < 256 ->
  exists r evs n' d b3 b2 b1 b0,
    sd_send_cmd cmd arg crc card n = Some (r, evs, n')
    /\ (1 <= d <= 8)%nat
    /\ sent evs = [0x40 + cmd; b3; b2; b1; b0; crc] ++ repeat 0xFF d
    /\ Z.testbit (0x40 + cmd) 6 = true
    /\ Z.testbit (0x40 + cmd) 7 = false
    /\ 0 <= b3 < 256 /\ 0 <= b2 < 256 /\ 0 <= b1 < 256 /\ 0 <= b0 < 256
    /\ arg = 2 ^ 24 * b3 + 2 ^ 16 * b2 + 2 ^ 8 * b1 + b0.
Proof.
  intros Hc Ha Hr.
  destruct (sd_send_cmd_shape cmd arg crc card n)
    as (r & xs & d & Hrun & Hd & _ & _ & Hsent).
  rewrite (frame_value cmd arg crc Hc Ha Hr) in Hsent.
  exists r, (CsLow :: xs), (n + 6 + d)%nat, d.
  exists (arg / 2 ^ 24), ((arg / 2 ^ 16) mod 2 ^ 8),
    ((arg / 2 ^ 8) mod 2 ^ 8), (arg mod 2 ^ 8).
  split; [exact Hrun | ]. split; [exact Hd | ]. split; [exact Hsent | ].
  split.
  { apply Z.testbit_true; [lia | ].
    replace ((0x40 + cmd) / 2 ^ 6) with 1; [reflexivity | ].
    apply Z.div_unique with (r := cmd); lia. }
  split.
  { apply Z.testbit_false; [lia | ].
    rewrite Z.div_small by lia. reflexivity. }
  split.
  { split; [apply Z.div_pos; lia | apply Z.div_lt_upper_bound; lia]. }
  split; [apply Z.mod_pos_bound; lia | ].
  split; [apply Z.mod_pos_bound; lia | ].
  split; [apply Z.mod_pos_bound; lia | ].
  pose proof (Z.div_mod arg (2 ^ 8) ltac:(lia)) as E0.
  pose proof (Z.div_mod (arg / 2 ^ 8) (2 ^ 8) ltac:(lia)) as E1.
  pose proof (Z.div_mod (arg / 2 ^ 16) (2 ^ 8) ltac:(lia)) as E2.
  rewrite Z.div_div in E1 by lia. rewrite Z.div_div in E2 by lia.
  change (2 ^ 8 * 2 ^ 8) with (2 ^ 16) in E1.
  change (2 ^ 16 * 2 ^ 8) with (2 ^ 24) in E2.
  lia.
Qed.

Lemma command_frame_layout_acmd41 :
  exists r evs n' d b3 b2 b1 b0,
    sd_send_cmd 41 0x40000000 0x77 idle_card 0%nat = Some (r, evs, n')
    /\ (1 <= d <= 8)%nat
    /\ sent evs = [0x40 + 41; b3; b2; b1; b0; 0x77] ++ repeat 0xFF d
    /\ Z.testbit (0x40 + 41) 6 = true
    /\ Z.testbit (0x40 + 41) 7 = false
    /\ 0 <= b3 < 256 /\ 0 <= b2 < 256 /\ 0 <= b1 < 256 /\ 0 <= b0 < 256
    /\ 0x40000000 = 2 ^ 24 * b3 + 2 ^ 16 * b2 + 2 ^ 8 * b1 + b0.
Proof.
  apply (command_frame_layout 41 0x40000000 0x77 idle_card 0%nat); lia.
Defined.

(** ** The polling loops *)

Lemma xfers_selected (xs : list event) :
  forallb is_xfer xs = true -> forallb selected_event xs = true.
Proof.
  induction xs as [| e xs IH]; [reflexivity | ].
  cbn [forallb]. intros H. apply andb_true_iff in H. destruct H as [He Hxs].
  apply andb_true_iff. split; [ | auto].
  destruct e; try discriminate; reflexivity.
Qed.

Lemma u8_zero (b : byte) : u8 b = 0 -> b = x00.
Proof. destruct b; vm_compute; congruence. Qed.

Lemma u8_token (b : byte) : u8 b = 0xFE -> b = xfe.
Proof. destruct b; vm_compute; congruence. Qed.

Lemma wrap16_pred (t : Z) : 1 <= t <= 0xFFFF -> wrap16 (t - 1) = t - 1.
Proof. intros H. unfold wrap16. apply Z.mod_small. lia. Qed.

Lemma commands_app (e1 e2 : list event) :
  commands (e1 ++ e2) = (commands e1 + commands e2)%nat.
Proof. unfold commands. now rewrite filter_app, length_app. Qed.

Lemma commands_xfers (xs : list event) :
  forallb is_xfer xs = true -> commands xs = 0%nat.
Proof.
  induction xs as [| e xs IH]; [reflexivity | ].
  cbn [forallb]. intros H. apply andb_true_iff in H. destruct H as [He Hxs].
  destruct e; try discriminate. unfold commands in *. cbn [filter].
  auto.
Qed.

Lemma commands_cmd (xs : list event) :
  forallb is_xfer xs = true -> commands (CsLow :: xs) = 1%nat.
Proof.
  intros H. apply commands_xfers in H. unfold commands in *.
  cbn [filter length]. now rewrite H.
Qed.

Lemma acmd41_loop_run (k : nat) :
  forall (t : Z) card n,
    Z.of_nat k = t -> 1 <= t <= 0xFFFF ->
    exists t' evs n',
      (forall fuel, (k <= fuel)%nat ->
         acmd41_loop fuel t card n = Some (t', evs, n'))
      /\ 0 <= t' <= t
      /\ (n <= n' <= n + 28 * k)%nat
      /\ forallb selected_event evs = true
      /\ (t' <> 0 -> exists p, (n <= p < n')%nat /\ card p = x00)
      /\ (commands evs <= 2 * k)%nat.
Proof.
  induction k as [| k IH]; intros t card n Hk Ht; [lia | ].
  destruct (sd_send_cmd_shape 55 0 0x65 card n)
    as (r1 & xs1 & d1 & Hrun1 & Hd1 & _ & Hx1 & _).
  destruct (sd_send_cmd_shape 41 0x40000000 0x77 card (n + 6 + d1))
    as (r2 & xs2 & d2 & Hrun2 & Hd2 & Hr2 & Hx2 & _).
  pose proof (commands_cmd xs1 Hx1) as Hc1.
  pose proof (commands_cmd xs2 Hx2) as Hc2.
  apply xfers_selected in Hx1. apply xfers_selected in Hx2.
  destruct (u8 r2 =? 0x00) eqn:Eready.
  { (* the card reports ready: break *)
    exists t, ((CsLow :: xs1) ++ (CsLow :: xs2) ++ []), (n + 6 + d1 + 6 + d2)%nat.
    split.
    { intros [| fuel] Hf; [lia | ]. cbn [acmd41_loop].
      rewrite (bind_run _ _ _ _ _ _ _ Hrun1).
      rewrite (bind_run _ _ _ _ _ _ _ Hrun2).
      rewrite Eready. reflexivity. }
    split; [lia | ]. split; [lia | ]. split.
    { rewrite !forallb_app. cbn [forallb selected_event andb].
      now rewrite Hx1, Hx2. }
    split.
    { intros _. exists (n + 6 + d1 + 5 + d2)%nat. split; [lia | ].
      apply Z.eqb_eq, u8_zero in Eready. congruence. }
    rewrite !commands_app, Hc1, Hc2. cbn. lia. }
  destruct (wrap16 (t - 1) =? 0) eqn:Elast.
  { (* the last attempt failed: the counter reaches 0 *)
    exists 0, ((CsLow :: xs1) ++ (CsLow :: xs2) ++ []), (n + 6 + d1 + 6 + d2)%nat.
    split.
    { intros [| fuel] Hf; [lia | ]. cbn [acmd41_loop].
      rewrite (bind_run _ _ _ _ _ _ _ Hrun1).
      rewrite (bind_run _ _ _ _ _ _ _ Hrun2).
      rewrite Eready. cbv zeta. rewrite Elast.
      apply Z.eqb_eq in Elast. rewrite Elast. reflexivity. }
    split; [lia | ]. split; [lia | ]. split.
    { rewrite !forallb_app. cbn [forallb selected_event andb].
      now rewrite Hx1, Hx2. }
    split; [intros H; now contradiction H | ].
    rewrite !commands_app, Hc1, Hc2. cbn. lia. }
  (* another attempt *)
  rewrite wrap16_pred in Elast by exact Ht. apply Z.eqb_neq in Elast.
  destruct (IH (t - 1) card (n + 6 + d1 + 6 + d2)%nat ltac:(lia) ltac:(lia))
    as (t' & evs & n' & Hloop & Ht' & Hn' & Hsel & Hready & Hcnt).
  exists t', ((CsLow :: xs1) ++ (CsLow :: xs2) ++ evs), n'.
  split.
  { intros [| fuel] Hf; [lia | ]. cbn [acmd41_loop].
    rewrite (bind_run _ _ _ _ _ _ _ Hrun1).
    rewrite (bind_run _ _ _ _ _ _ _ Hrun2).
    rewrite Eready. cbv zeta. rewrite (wrap16_pred t Ht).
    destruct (Z.eqb_spec (t - 1) 0) as [E | _]; [contradiction | ].
    cbn [negb]. rewrite (Hloop fuel) by lia. reflexivity. }
  split; [lia | ]. split; [lia | ]. split.
  { rewrite !forallb_app. cbn [forallb selected_event andb].
    now rewrite Hx1, Hx2, Hsel. }
  split.
  { intros Hne. destruct (Hready Hne) as (p & Hp & Hcard).
    exists p. split; [lia | exact Hcard]. }
  rewrite !commands_app, Hc1, Hc2. lia.
Qed.

Lemma token_loop_run (k : nat) :
  forall (t : Z) card n,
    Z.of_nat k = t -> 1 <= t <= 0xFFFF ->
    exists t' d,
      (forall fuel, (k <= fuel)%nat ->
         token_loop fuel t card n = Some (t', polls card n d, (n + d)%nat))
      /\ 0 <= t' <= t
      /\ (1 <= d <= k)%nat
      /\ (t' <> 0 -> exists p, (n <= p < n + d)%nat /\ card p = xfe).
Proof.
  induction k as [| k IH]; intros t card n Hk Ht; [lia | ].
  destruct (u8 (card n) =? 0xFE) eqn:Etoken.
  { exists t, 1%nat. split.
    { intros [| fuel] Hf; [lia | ]. cbn [token_loop].
      unfold bind, spi_transfer. rewrite Etoken. cbn [ret app polls].
      do 2 f_equal. lia. }
    split; [lia | ]. split; [lia | ].
    intros _. exists n. split; [lia | ].
    apply Z.eqb_eq, u8_token in Etoken. exact Etoken. }
  destruct (wrap16 (t - 1) =? 0) eqn:Elast.
  { exists 0, 1%nat. split.
    { intros [| fuel] Hf; [lia | ]. cbn [token_loop].
      unfold bind, spi_transfer. rewrite Etoken. cbv zeta. rewrite Elast.
      apply Z.eqb_eq in Elast. rewrite Elast. cbn [negb ret app polls].
      do 2 f_equal. lia. }
    split; [lia | ]. split; [lia | ].
    intros H; now contradiction H. }
  rewrite wrap16_pred in Elast by exact Ht. apply Z.eqb_neq in Elast.
  destruct (IH (t - 1) card (S n) ltac:(lia) ltac:(lia))
    as (t' & d & Hloop & Ht' & Hd & Hfound).
  exists t', (S d). split.
  { intros [| fuel] Hf; [lia | ]. cbn [token_loop].
    unfold bind at 1. unfold spi_transfer at 1. rewrite Etoken. cbv zeta.
    rewrite (wrap16_pred t Ht).
    destruct (Z.eqb_spec (t - 1) 0) as [E | _]; [contradiction | ].
    cbn [negb]. rewrite (Hloop fuel) by lia. cbn [app polls].
    do 2 f_equal. lia. }
  split; [lia | ]. split; [lia | ].
  intros Hne. destruct (Hfound Hne) as (p & Hp & Hcard).
  exists p. split; [lia | exact Hcard].
Qed.

Lemma store_length (buffer : list byte) (i : nat) (v : byte) :
  length (store buffer i v) = length buffer.
Proof.
  revert i. induction buffer as [| b rest IH]; intros i; [reflexivity | ].
  destruct i; cbn [store length]; [reflexivity | now rewrite IH].
Qed.

Lemma read_payload_run (k i : nat) (buffer : list byte) card n :
  exists buffer',
    read_payload k i buffer card n
    = Some (buffer', polls card n k, (n + k)%nat)
    /\ length buffer' = length buffer.
Proof.
  revert i buffer n. induction k as [| k IH]; intros i buffer n.
  - exists buffer. cbn. rewrite Nat.add_0_r. auto.
  - destruct (IH (S i) (store buffer i (card n)) (S n)) as (b' & Hrun & Hlen).
    exists b'. split; [ | now rewrite Hlen, store_length ].
    cbn [read_payload]. unfold bind at 1. unfold spi_transfer at 1.
    rewrite Hrun. cbn [app polls]. do 2 f_equal. lia.
Qed.

(** ** The driver functions *)

Lemma poll_fuel_ceiling : Z.of_nat POLL_FUEL = 0xFFFF.
Proof. apply Z2Nat.id. lia. Qed.

Lemma bind_spi_transfer {B} (data : Z) (f : byte -> M B) card n :
  bind (spi_transfer data) f card n
  = match f (card n) card (S n) with
    | Some (b, e2, n2) => Some (b, Xfer (wrap8 data) (card n) :: e2, n2)
    | None => None
    end.
Proof. reflexivity. Qed.

Lemma bind_cs_high {B} (f : unit -> M B) card n :
  bind SD_CS_HIGH f card n
  = match f tt card n with
    | Some (b, e2, n2) => Some (b, CsHigh :: e2, n2)
    | None => None
    end.
Proof. reflexivity. Qed.

Lemma bind_cs_low {B} (f : unit -> M B) card n :
  bind SD_CS_LOW f card n
  = match f tt card n with
    | Some (b, e2, n2) => Some (b, CsLow :: e2, n2)
    | None => None
    end.
Proof. reflexivity. Qed.

Lemma spi_send_dummy_run (k : nat) card n :
  spi_send_dummy k card n = Some (tt, polls card n k, (n + k)%nat).
Proof.
  revert n. induction k as [| k IH]; intros n.
  - cbn. now rewrite Nat.add_0_r.
  - cbn [spi_send_dummy]. rewrite bind_spi_transfer, IH. cbn [polls].
    do 2 f_equal. lia.
Qed.

Ltac norm_events := rewrite <- ?app_assoc; cbn [app]; rewrite ?app_nil_r.

(** [sd_read_sector] always returns: chip-select is driven low, only
    exchanges follow, and on every path the exchange ends with
    chip-select driven high and one filler exchange. *)
Lemma sd_read_sector_run (sector : Z) (buffer : list byte) card n :
  exists ok buffer' body b n',
    sd_read_sector sector buffer card n
    = Some ((ok, buffer'), CsLow :: CsLow :: body ++ [CsHigh; Xfer 0xFF b], n')
    /\ forallb is_xfer body = true
    /\ (ok = 0 /\ buffer' = buffer \/ ok = 1 /\ length buffer' = length buffer)
    /\ (n < n' <= n + 17 + POLL_FUEL + SECTOR_SIZE)%nat
    /\ (ok = 1 -> exists p, (n <= p < n')%nat /\ card p = xfe).
Proof.
  destruct (sd_send_cmd_shape 17 sector 0xFF card n)
    as (r & xs & d & Hrun & Hd & _ & Hx & _).
  unfold sd_read_sector. rewrite bind_cs_low.
  rewrite (bind_run _ _ _ _ _ _ _ Hrun).
  destruct (u8 r =? 0x00) eqn:Er; cbn [negb].
  2:{ (* the command is rejected *)
      exists 0, buffer, xs, (card (n + 6 + d)%nat), (S (n + 6 + d)).
      split; [reflexivity | ]. split; [exact Hx | ].
      split; [left; split; reflexivity | ]. split; [lia | ]. discriminate. }
  destruct (token_loop_run POLL_FUEL 0xFFFF card (n + 6 + d)%nat
              poll_fuel_ceiling ltac:(lia))
    as (t & dt & Hloop & Ht & Hdt & Hfound).
  specialize (Hloop POLL_FUEL (le_n _)).
  rewrite (bind_run _ _ _ _ _ _ _ Hloop).
  destruct (t =? 0) eqn:Et.
  { (* no data token within the ceiling *)
    exists 0, buffer, (xs ++ polls card (n + 6 + d) dt),
      (card (n + 6 + d + dt)%nat), (S (n + 6 + d + dt)).
    split. { cbn. rewrite <- app_assoc. reflexivity. }
    split. { rewrite forallb_app, Hx. apply polls_xfer. }
    split; [left; split; reflexivity | ]. split; [lia | ]. discriminate. }
  destruct (read_payload_run SECTOR_SIZE 0 buffer card (n + 6 + d + dt)%nat)
    as (buffer' & Hpay & Hlen).
  rewrite (bind_run _ _ _ _ _ _ _ Hpay).
  exists 1, buffer',
    (xs ++ polls card (n + 6 + d) dt
        ++ polls card (n + 6 + d + dt) (SECTOR_SIZE + 2)),
    (card (n + 6 + d + dt + SECTOR_SIZE + 2)%nat),
    (n + 6 + d + dt + SECTOR_SIZE + 3)%nat.
  split.
  { rewrite polls_app. cbn [polls].
    unfold bind, spi_transfer, SD_CS_HIGH, ret. cbn [app].
    rewrite <- !app_assoc. cbn [app].
    replace (S (n + 6 + d + dt + SECTOR_SIZE))
      with (n + 6 + d + dt + SECTOR_SIZE + 1)%nat by lia.
    replace (S (n + 6 + d + dt + SECTOR_SIZE + 1))
      with (n + 6 + d + dt + SECTOR_SIZE + 2)%nat by lia.
    replace (S (n + 6 + d + dt + SECTOR_SIZE + 2))
      with (n + 6 + d + dt + SECTOR_SIZE + 3)%nat by lia.
    reflexivity. }
  split. { rewrite !forallb_app, Hx, !polls_xfer. reflexivity. }
  split; [right; split; [reflexivity | exact Hlen] | ]. split; [lia | ].
  intros _. apply Z.eqb_neq in Et. destruct (Hfound Et) as (p & Hp & Hc).
  exists p. split; [lia | exact Hc].
Qed.

(** [sd_init] always returns: it starts by driving chip-select high,
    then keeps the card selected through all its commands, and when it
    succeeds it ends with chip-select driven high and one filler
    exchange. *)
Lemma sd_init_run card n :
  exists ok body tail n',
    sd_init card n = Some (ok, CsHigh :: body ++ tail, n')
    /\ forallb selected_event body = true
    /\ (ok = 0 /\ tail = [] \/ ok = 1 /\ exists b, tail = [CsHigh; Xfer 0xFF b])
    /\ (n < n' <= n + 61 + 28 * POLL_FUEL)%nat
    /\ (ok = 1 -> exists p, (n <= p < n')%nat /\ card p = x00).
Proof.
  unfold sd_init. rewrite bind_cs_high.
  rewrite (bind_run _ _ _ _ _ _ _ (spi_send_dummy_run 10 card n)).
  pose proof (polls_xfer card n 10) as Hx.
  destruct (sd_send_cmd_shape 0 0 0x95 card (n + 10))
    as (r0 & xs0 & d0 & Hrun0 & Hd0 & _ & Hx0 & _).
  rewrite (bind_run _ _ _ _ _ _ _ Hrun0).
  apply xfers_selected in Hx, Hx0.
  destruct (u8 r0 =? 0x01) eqn:E0; cbn [negb].
  2:{ exists 0, (polls card n 10 ++ CsLow :: xs0), [], (n + 10 + 6 + d0)%nat.
      split. { cbn [ret]. norm_events. reflexivity. }
      split. { rewrite forallb_app. cbn [forallb selected_event andb].
               rewrite Hx, Hx0. reflexivity. }
      split; [left; split; reflexivity | ]. split; [lia | discriminate]. }
  destruct (sd_send_cmd_shape 8 0x1AA 0x87 card (n + 10 + 6 + d0))
    as (r8 & xs8 & d8 & Hrun8 & Hd8 & _ & Hx8 & _).
  rewrite (bind_run _ _ _ _ _ _ _ Hrun8).
  apply xfers_selected in Hx8.
  destruct (u8 r8 =? 0x01) eqn:E8; cbn [negb].
  2:{ exists 0, (polls card n 10 ++ (CsLow :: xs0) ++ CsLow :: xs8), [],
        (n + 10 + 6 + d0 + 6 + d8)%nat.
      split. { cbn [ret]. norm_events. reflexivity. }
      split. { rewrite !forallb_app. cbn [forallb selected_event andb].
               rewrite Hx, Hx0, Hx8. reflexivity. }
      split; [left; split; reflexivity | ]. split; [lia | discriminate]. }
  set (n8 := (n + 10 + 6 + d0 + 6 + d8)%nat) in *.
  repeat (rewrite bind_spi_transfer; cbv beta).
  change (S (S (S (S n8)))) with (4 + n8)%nat.
  destruct (acmd41_loop_run POLL_FUEL 0xFFFF card (4 + n8)%nat
              poll_fuel_ceiling ltac:(lia))
    as (t & evl & nl & Hloop & Ht & Hnl & Hsel & Hready & _).
  specialize (Hloop POLL_FUEL (le_n _)).
  rewrite (bind_run _ _ _ _ _ _ _ Hloop).
  set (echo := [Xfer (wrap8 0xFF) (card n8); Xfer (wrap8 0xFF) (card (S n8));
                Xfer (wrap8 0xFF) (card (S (S n8)));
                Xfer (wrap8 0xFF) (card (S (S (S n8))))]).
  destruct (t =? 0) eqn:Et.
  { exists 0,
      (polls card n 10 ++ (CsLow :: xs0) ++ (CsLow :: xs8) ++ echo ++ evl),
      [], nl.
    split. { cbn [ret]. unfold echo. norm_events. reflexivity. }
    split. { rewrite !forallb_app. cbn [forallb selected_event andb echo].
             rewrite Hx, Hx0, Hx8, Hsel. reflexivity. }
    split; [left; split; reflexivity | ]. split; [lia | discriminate]. }
  destruct (sd_send_cmd_shape 58 0 0xFD card nl)
    as (r58 & xs58 & d58 & Hrun58 & Hd58 & Hr58 & Hx58 & _).
  rewrite (bind_run _ _ _ _ _ _ _ Hrun58).
  apply xfers_selected in Hx58.
  destruct (u8 r58 =? 0x00) eqn:E58; cbn [negb].
  2:{ exists 0,
        (polls card n 10 ++ (CsLow :: xs0) ++ (CsLow :: xs8) ++ echo ++ evl
           ++ CsLow :: xs58),
        [], (nl + 6 + d58)%nat.
      split. { cbn [ret]. unfold echo. norm_events. reflexivity. }
      split. { rewrite !forallb_app. cbn [forallb selected_event andb echo].
               rewrite Hx, Hx0, Hx8, Hsel, Hx58. reflexivity. }
      split; [left; split; reflexivity | ]. split; [lia | discriminate]. }
  exists 1,
    (polls card n 10 ++ (CsLow :: xs0) ++ (CsLow :: xs8) ++ echo ++ evl
       ++ (CsLow :: xs58) ++ polls card (nl + 6 + d58) 4),
    [CsHigh; Xfer 0xFF (card (nl + 6 + d58 + 4)%nat)],
    (nl + 6 + d58 + 5)%nat.
  split.
  { unfold bind, spi_transfer, SD_CS_HIGH, ret. cbn [polls].
    unfold echo. norm_events.
    replace (S (nl + 6 + d58)) with (nl + 6 + d58 + 1)%nat by lia.
    replace (S (nl + 6 + d58 + 1)) with (nl + 6 + d58 + 2)%nat by lia.
    replace (S (nl + 6 + d58 + 2)) with (nl + 6 + d58 + 3)%nat by lia.
    replace (S (nl + 6 + d58 + 3)) with (nl + 6 + d58 + 4)%nat by lia.
    replace (S (nl + 6 + d58 + 4)) with (nl + 6 + d58 + 5)%nat by lia.
    reflexivity. }
  split. { rewrite !forallb_app. cbn [forallb selected_event andb echo].
           rewrite Hx, Hx0, Hx8, Hsel, Hx58.
           rewrite (xfers_selected _ (polls_xfer card (nl + 6 + d58) 4)). reflexivity. }
  split; [right; split; [reflexivity | eexists; reflexivity] | ].
  split; [lia | ].
  intros _. exists (nl + 5 + d58)%nat. split; [lia | ].
  apply Z.eqb_eq, u8_zero in E58. congruence.
Qed.

(** ** Chip-select discipline *)

Lemma exchange_then_release (xs : list event) (b : byte) :
  forallb is_xfer xs = true ->
  released_after_each_command Cmd (xs ++ [CsHigh; Xfer 0xFF b]) = true.
Proof.
  induction xs as [| e xs IH]; [reflexivity | ].
  cbn [forallb]. intros H. apply andb_true_iff in H. destruct H as [He Hxs].
  destruct e; try discriminate. cbn [app released_after_each_command].
  apply IH, Hxs.
Qed.

Lemma read_releases (body : list event) (b : byte) :
  forallb is_xfer body = true ->
  released_after_each_command Off
    (CsLow :: CsLow :: body ++ [CsHigh; Xfer 0xFF b]) = true.
Proof.
  intros H. cbn [released_after_each_command].
  destruct body as [| e xs]; [reflexivity | ].
  cbn [forallb] in H. apply andb_true_iff in H. destruct H as [He Hxs].
  destruct e; try discriminate. cbn [app released_after_each_command].
  apply exchange_then_release, Hxs.
Qed.

Lemma init_holds_chip_select :
  option_map (fun x => (fst (fst x),
                        commands (snd (fst x)),
                        chip_selects_released (snd (fst x)),
                        released_after_each_command Off (snd (fst x)),
                        firstn 10 (skipn 11 (snd (fst x)))))
    (sd_init (card_of (init_answers good_echo)) 0%nat)
  = Some (1, 5%nat, 2%nat, false,
          [CsLow; Xfer 0x40 xff; Xfer 0 xff; Xfer 0 xff; Xfer 0 xff;
           Xfer 0 xff; Xfer 0x95 xff; Xfer 0xFF x01;
           CsLow; Xfer 0x48 xff]).
Proof. vm_compute. reflexivity. Qed.

(** C8 (as the code has it). Every command is sent with chip-select
    driven low first, and [sd_send_cmd] itself never drives it high: the
    line is still asserted when it returns. [sd_read_sector] (CMD17) ends
    its exchange on every path by driving chip-select high and clocking
    exactly one filler byte. [sd_init] does not release the line between
    its commands: when it succeeds, chip-select stays asserted from CMD0
    until after the CMD58 exchange and is then driven high once, followed
    by exactly one filler byte. *)
Theorem chip_select_discipline (card : stream) (n : nat) :
  (forall cmd arg crc : Z,
     exists r xs n',
       sd_send_cmd cmd arg crc card n = Some (r, CsLow :: xs, n')
       /\ forallb is_xfer xs = true)
  /\ (forall (sector : Z) (buffer : list byte),
        exists res body b n',
          sd_read_sector sector buffer card n
          = Some (res, CsLow :: CsLow :: body ++ [CsHigh; Xfer 0xFF b], n')
          /\ forallb is_xfer body = true
          /\ released_after_each_command Off
               (CsLow :: CsLow :: body ++ [CsHigh; Xfer 0xFF b]) = true)
  /\ (forall evs n',
        sd_init card n = Some (1, evs, n') ->
        exists body b,
          evs = CsHigh :: body ++ [CsHigh; Xfer 0xFF b]
          /\ forallb selected_event body = true).
Proof.
  split; [ | split ].
  - intros cmd arg crc.
    destruct (sd_send_cmd_shape cmd arg crc card n)
      as (r & xs & d & Hrun & _ & _ & Hx & _).
    exists r, xs, (n + 6 + d)%nat. split; assumption.
  - intros sector buffer.
    destruct (sd_read_sector_run sector buffer card n)
      as (ok & buffer' & body & b & n' & Hrun & Hx & _).
    exists (ok, buffer'), body, b, n'.
    split; [exact Hrun | ]. split; [exact Hx | ]. apply read_releases, Hx.
  - intros evs n' Hone.
    destruct (sd_init_run card n)
      as (ok & body & tail & n'' & Hrun & Hsel & Hok & _).
    rewrite Hrun in Hone. inversion Hone; subst.
    destruct Hok as [[Hzero _] | [_ [b ->]]]; [discriminate | ].
    exists body, b. split; [reflexivity | exact Hsel].
Qed.

Lemma chip_select_discipline_sample :
  exists evs n' body b,
    sd_init (card_of (init_answers good_echo)) 0%nat = Some (1, evs, n')
    /\ evs = CsHigh :: body ++ [CsHigh; Xfer 0xFF b]
    /\ forallb selected_event body = true.
Proof.
  assert (E : exists evs n',
             sd_init (card_of (init_answers good_echo)) 0%nat
             = Some (1, evs, n')).
  { eexists _, _. vm_compute. reflexivity. }
  destruct E as (evs & n' & E).
  destruct (proj2 (proj2 (chip_select_discipline
                            (card_of (init_answers good_echo)) 0%nat))
              evs n' E) as (body & b & Hevs & Hsel).
  exists evs, n', body, b. auto.
Defined.

(** ** What a computation reads from the card *)

Lemma local_ret {A} (a : A) : local (ret a).
Proof.
  intros c1 c2 n a' evs n' H. unfold ret in *. inversion H; subst. auto.
Qed.

Lemma local_out_of_fuel {A} : local (@out_of_fuel A).
Proof. intros c1 c2 n a evs n' H. discriminate H. Qed.

Lemma local_cs_low : local SD_CS_LOW.
Proof.
  intros c1 c2 n a evs n' H. unfold SD_CS_LOW in *. inversion H; subst. auto.
Qed.

Lemma local_cs_high : local SD_CS_HIGH.
Proof.
  intros c1 c2 n a evs n' H. unfold SD_CS_HIGH in *. inversion H; subst. auto.
Qed.

Lemma local_spi_transfer (data : Z) : local (spi_transfer data).
Proof.
  intros c1 c2 n a evs n' H. unfold spi_transfer in *. inversion H; subst.
  split; [lia | ]. intros Hag. rewrite (Hag n) by lia. reflexivity.
Qed.

Create HintDb locality.
#[local] Hint Resolve local_ret local_out_of_fuel local_cs_low local_cs_high
  local_spi_transfer : locality.

Lemma local_bind {A B} (m : M A) (f : A -> M B) :
  local m -> (forall a, local (f a)) -> local (bind m f).
Proof.
  intros Hm Hf c1 c2 n b evs n' H.
  apply bind_some in H. destruct H as (a & e1 & n1 & e2 & H1 & H2 & ->).
  destruct (Hm c1 c2 n a e1 n1 H1) as [Hle1 Hrun1].
  destruct (Hf a c1 c2 n1 b e2 n' H2) as [Hle2 Hrun2].
  split; [lia | ]. intros Hag.
  rewrite (bind_run m f c2 n a e1 n1).
  - rewrite Hrun2; [reflexivity | ]. intros k Hk. apply Hag. lia.
  - apply Hrun1. intros k Hk. apply Hag. lia.
Qed.

(** One step through a sequence: the first computation is local by the
    hints, the rest is left to prove. *)
Ltac local_step :=
  apply local_bind; [solve [auto with locality] | intros ?].

Lemma local_spi_send_dummy (k : nat) : local (spi_send_dummy k).
Proof.
  induction k as [| k IH]; cbn [spi_send_dummy]; [auto with locality | ].
  local_step. exact IH.
Qed.

Lemma local_sd_wait_response (k : nat) (res : byte) :
  local (sd_wait_response k res).
Proof.
  revert res. induction k as [| k IH]; intros res; cbn [sd_wait_response];
    [auto with locality | ].
  local_step.
  match goal with
  | |- local (if ?c then _ else _) => destruct c
  end; auto with locality.
Qed.

#[local] Hint Resolve local_spi_send_dummy local_sd_wait_response : locality.

Lemma local_sd_send_cmd (cmd arg crc : Z) : local (sd_send_cmd cmd arg crc).
Proof. unfold sd_send_cmd. do 7 local_step. auto with locality. Qed.

#[local] Hint Resolve local_sd_send_cmd : locality.

Lemma local_acmd41_loop (fuel : nat) (timeout : Z) :
  local (acmd41_loop fuel timeout).
Proof.
  revert timeout. induction fuel as [| fuel IH]; intros timeout;
    cbn [acmd41_loop]; [auto with locality | ].
  do 2 local_step.
  match goal with
  | |- local (if ?c then _ else _) => destruct c
  end; [auto with locality | ]. cbv zeta.
  destruct (negb (wrap16 (timeout - 1) =? 0)); auto with locality.
Qed.

#[local] Hint Resolve local_acmd41_loop : locality.

Lemma local_same {A} (m : M A) (c1 c2 : stream) (n : nat) :
  local m -> (forall k, (n <= k)%nat -> c1 k = c2 k) -> m c1 n = m c2 n.
Proof.
  intros Hm Hag.
  destruct (m c1 n) as [[[a evs] n'] | ] eqn:E1.
  - destruct (Hm c1 c2 n a evs n' E1) as [_ H]. symmetry. apply H.
    intros k Hk. apply Hag. lia.
  - destruct (m c2 n) as [[[a evs] n'] | ] eqn:E2; [ | reflexivity ].
    destruct (Hm c2 c1 n a evs n' E2) as [_ H].
    rewrite H in E1; [discriminate | ].
    intros k Hk. symmetry. apply Hag. lia.
Qed.

(** ** The answer to CMD8 *)

Lemma sd_init_split card n :
  exists go evs p,
    sd_init_until_cmd8 card n = Some (go, evs, p)
    /\ outcome (sd_init card n)
       = if go : bool
         then outcome ((_ <- sd_init_cmd8_echo ;; sd_init_from_acmd41) card p)
         else Some (0, p).
Proof.
  unfold sd_init, sd_init_until_cmd8. rewrite !bind_cs_high.
  rewrite !(bind_run _ _ _ _ _ _ _ (spi_send_dummy_run 10 card n)).
  destruct (sd_send_cmd_shape 0 0 0x95 card (n + 10))
    as (r0 & xs0 & d0 & Hrun0 & _).
  rewrite !(bind_run _ _ _ _ _ _ _ Hrun0).
  destruct (u8 r0 =? 0x01); cbn [negb].
  2:{ eexists _, _, _. split; reflexivity. }
  destruct (sd_send_cmd_shape 8 0x1AA 0x87 card (n + 10 + 6 + d0))
    as (r8 & xs8 & d8 & Hrun8 & _).
  rewrite !(bind_run _ _ _ _ _ _ _ Hrun8).
  destruct (u8 r8 =? 0x01); cbn [negb].
  2:{ eexists _, _, _. split; reflexivity. }
  eexists _, _, _. split; [reflexivity | ].
  repeat (rewrite bind_spi_transfer; cbv beta).
  fold sd_init_from_acmd41.
  unfold sd_init_cmd8_echo, bind, spi_transfer, ret.
  destruct (sd_init_from_acmd41 card
              (S (S (S (S (n + 10 + 6 + d0 + 6 + d8)))))) as [[[r e] n'] | ];
    reflexivity.
Qed.

(** A computation built from local ones by sequencing and tests is
    local. *)
Ltac local_auto :=
  repeat first
    [ solve [auto with locality]
    | local_step
    | match goal with
      | |- local (if ?c then _ else _) => destruct c
      end ].

Lemma local_sd_init_until_cmd8 : local sd_init_until_cmd8.
Proof. unfold sd_init_until_cmd8. local_auto. Qed.

Lemma local_sd_init_from_acmd41 : local sd_init_from_acmd41.
Proof. unfold sd_init_from_acmd41. local_auto. Qed.

Lemma patch_outside card p l k :
  (k < p \/ p + length l <= k)%nat -> patch card p l k = card k.
Proof.
  intros H. unfold patch.
  destruct (Nat.leb_spec p k); destruct (Nat.ltb_spec k (p + length l));
    cbn [andb]; try reflexivity. lia.
Qed.

Lemma sd_init_until_cmd8_r1 card n evs p :
  sd_init_until_cmd8 card n = Some (true, evs, p) ->
  (0 < p)%nat /\ u8 (card (p - 1)%nat) = 0x01.
Proof.
  unfold sd_init_until_cmd8. rewrite bind_cs_high.
  rewrite (bind_run _ _ _ _ _ _ _ (spi_send_dummy_run 10 card n)).
  destruct (sd_send_cmd_shape 0 0 0x95 card (n + 10))
    as (r0 & xs0 & d0 & Hrun0 & _).
  rewrite (bind_run _ _ _ _ _ _ _ Hrun0).
  destruct (u8 r0 =? 0x01); cbn [negb ret]; [ | discriminate ].
  destruct (sd_send_cmd_shape 8 0x1AA 0x87 card (n + 10 + 6 + d0))
    as (r8 & xs8 & d8 & Hrun8 & Hd8 & Hr8 & _).
  rewrite (bind_run _ _ _ _ _ _ _ Hrun8).
  destruct (u8 r8 =? 0x01) eqn:E8; cbn [negb ret]; [ | discriminate ].
  intros H. inversion H; subst. split; [lia | ].
  apply Z.eqb_eq in E8. rewrite <- E8. do 2 f_equal. lia.
Qed.

Lemma mismatched_echo_accepted :
  outcome (sd_init_until_cmd8 (card_of (init_answers bad_echo)) 0%nat)
  = Some (true, 24%nat)
  /\ frame 8 0x1AA 0x87 = [0x48; 0x00; 0x00; 0x01; 0xAA; 0x87]
  /\ map (card_of (init_answers bad_echo)) [24; 25; 26; 27]%nat
     = [x00; x00; x00; x00]
  /\ outcome (sd_init (card_of (init_answers bad_echo)) 0%nat)
     = Some (1, 54%nat).
Proof. vm_compute. repeat split. Qed.

(** C6 (as the code has it). After CMD8, sent with the fixed argument
    0x1AA, [sd_init] goes on only when the R1 response byte is 0x01 and
    returns failure otherwise. The four bytes that follow, which carry the
    echoed pattern, are clocked in and dropped: whatever they are, the
    result of [sd_init] and the number of exchanges it makes are the
    same. *)
Theorem cmd8_echo_not_validated
    (card : stream) (n : nat) (go : bool) (evs : list event) (p : nat) :
  sd_init_until_cmd8 card n = Some (go, evs, p) ->
  (go = false -> outcome (sd_init card n) = Some (0, p))
  /\ (go = true ->
      u8 (card (p - 1)%nat) = 0x01
      /\ forall e0 e1 e2 e3 : byte,
           let card' := patch card p [e0; e1; e2; e3] in
           map card' [p; p + 1; p + 2; p + 3]%nat = [e0; e1; e2; e3]
           /\ outcome (sd_init card' n) = outcome (sd_init card n)).
Proof.
  intros Hpre.
  destruct (sd_init_split card n) as (go1 & evs1 & p1 & Hpre1 & Hout).
  rewrite Hpre in Hpre1. inversion Hpre1; subst go1 evs1 p1. clear Hpre1.
  split; [intros ->; exact Hout | ].
  intros ->. split; [exact (proj2 (sd_init_until_cmd8_r1 _ _ _ _ Hpre)) | ].
  intros e0 e1 e2 e3 card'. split.
  { subst card'. unfold patch. cbn [map length].
    repeat match goal with
           | |- context [(?a <=? ?b)%nat] =>
               destruct (Nat.leb_spec a b); [ | lia ]
           | |- context [(?a <? ?b)%nat] =>
               destruct (Nat.ltb_spec a b); [ | lia ]
           end.
    cbn [andb].
    replace (p - p)%nat with 0%nat by lia.
    replace (p + 1 - p)%nat with 1%nat by lia.
    replace (p + 2 - p)%nat with 2%nat by lia.
    replace (p + 3 - p)%nat with 3%nat by lia.
    reflexivity. }
  destruct (local_sd_init_until_cmd8 card card' n true evs p Hpre)
    as [Hle Hpre'].
  assert (Hpre2 : sd_init_until_cmd8 card' n = Some (true, evs, p)).
  { apply Hpre'. intros k Hk. subst card'. symmetry.
    apply patch_outside. lia. }
  destruct (sd_init_split card' n) as (go2 & evs2 & p2 & Hpre3 & Hout').
  rewrite Hpre2 in Hpre3. inversion Hpre3; subst go2 evs2 p2. clear Hpre3.
  rewrite Hout, Hout'.
  assert (Hecho : forall c : stream,
            sd_init_cmd8_echo c p
            = Some (tt, [Xfer (wrap8 0xFF) (c p); Xfer (wrap8 0xFF) (c (S p));
                         Xfer (wrap8 0xFF) (c (S (S p)));
                         Xfer (wrap8 0xFF) (c (S (S (S p))))],
                    S (S (S (S p))))) by reflexivity.
  rewrite (bind_run _ _ _ _ _ _ _ (Hecho card)).
  rewrite (bind_run _ _ _ _ _ _ _ (Hecho card')).
  rewrite (local_same sd_init_from_acmd41 card' card (S (S (S (S p))))
             local_sd_init_from_acmd41).
  2:{ intros k Hk. subst card'. apply patch_outside. cbn [length]. lia. }
  destruct (sd_init_from_acmd41 card (S (S (S (S p))))) as [[[r e] n'] | ];
    reflexivity.
Qed.

Lemma cmd8_echo_not_validated_sample :
  outcome (sd_init (patch (card_of (init_answers good_echo)) 24
                      [xde; xad; xbe; xef]) 0%nat)
  = outcome (sd_init (card_of (init_answers good_echo)) 0%nat).
Proof.
  assert (E : exists evs,
             sd_init_until_cmd8 (card_of (init_answers good_echo)) 0%nat
             = Some (true, evs, 24%nat)).
  { eexists. vm_compute. reflexivity. }
  destruct E as (evs & E).
  destruct (cmd8_echo_not_validated _ _ _ _ _ E) as [_ H].
  destruct (H eq_refl) as [_ H'].
  exact (proj2 (H' xde xad xbe xef)).
Defined.

(** ** The orchestrator *)

Lemma bind_usart {B} (out : list byte) (f : unit -> M B) card n :
  bind (usart out) f card n
  = match f tt card n with
    | Some (b, e2, n2) => Some (b, map Tx out ++ e2, n2)
    | None => None
    end.
Proof. reflexivity. Qed.

Lemma say_app (a b : list byte) : say (a ++ b) = say a ++ say b.
Proof. apply map_app. Qed.

(** [main] always reaches one of its [while (1);] loops, and what it did
    before is determined step by step. *)
Lemma main_runs (card : stream) (n : nat) :
  exists ok_i ev_i n_i,
    sd_init card n = Some (ok_i, ev_i, n_i)
    /\ let t0 := say (crlf ++ bytes "Initializing SD Card..." ++ crlf)
                 ++ ev_i in
       if ok_i =? 0 then
         main card n
         = Some (InitFailed,
                 t0 ++ say (bytes "SD Card init failed!" ++ crlf), n_i)
       else
         exists ok_m mbr ev_m n_m,
           sd_read_sector 0 (repeat x00 SECTOR_SIZE) card n_i
           = Some ((ok_m, mbr), ev_m, n_m)
           /\ let t1 := t0 ++ say (bytes "SD Card OK." ++ crlf) ++ ev_m in
              if ok_m =? 0 then
                main card n
                = Some (MbrFailed,
                        t1 ++ say (bytes "MBR read error" ++ crlf), n_m)
              else
                exists ok_v vbr ev_v n_v,
                  sd_read_sector (part_start mbr) mbr card n_m
                  = Some ((ok_v, vbr), ev_v, n_v)
                  /\ let t2 := t1 ++ ev_v in
                     if ok_v =? 0 then
                       main card n
                       = Some (VbrFailed,
                               t2 ++ say (bytes "VBR read error" ++ crlf),
                               n_v)
                     else
                       let fat32 := snd (parse_fat32_info vbr) in
                       exists ok_r root ev_r n_r,
                         sd_read_sector (first_root_sector fat32) vbr card n_v
                         = Some ((ok_r, root), ev_r, n_r)
                         /\ let t3 :=
                              t2
                              ++ say (bytes "FAT32 detected. Root Cluster: "
                                      ++ decimal (to_int16 (root_cluster fat32))
                                      ++ crlf)
                              ++ ev_r in
                            if ok_r =? 0 then
                              main card n
                              = Some (RootFailed,
                                      t3 ++ say (bytes "Root dir read error"
                                                 ++ crlf),
                                      n_r)
                            else
                              main card n
                              = Some (Listed,
                                      t3 ++ say (bytes "Root Directory:"
                                                 ++ crlf
                                                 ++ print_root_dir root),
                                      n_r).
Proof.
  destruct (sd_init_run card n)
    as (ok_i & body_i & tail_i & n_i & Hinit & _).
  set (ev_i := CsHigh :: body_i ++ tail_i) in *. clearbody ev_i.
  exists ok_i, ev_i, n_i. split; [exact Hinit | ].
  cbv zeta. unfold main. cbv zeta.
  rewrite bind_usart, (bind_run _ _ _ _ _ _ _ Hinit).
  change (usart0_puts (crlf ++ bytes "Initializing SD Card..." ++ crlf))
    with (crlf ++ bytes "Initializing SD Card..." ++ crlf).
  fold (say (crlf ++ bytes "Initializing SD Card..." ++ crlf)).
  destruct (ok_i =? 0).
  { rewrite bind_usart. cbn [ret].
    change (usart0_puts (bytes "SD Card init failed!" ++ crlf))
      with (bytes "SD Card init failed!" ++ crlf).
    fold (say (bytes "SD Card init failed!" ++ crlf)).
    rewrite app_nil_r, <- !app_assoc. reflexivity. }
  destruct (sd_read_sector_run 0 (repeat x00 SECTOR_SIZE) card n_i)
    as (ok_m & mbr & body_m & b_m & n_m & Hmbr & _).
  set (ev_m := CsLow :: CsLow :: body_m ++ [CsHigh; Xfer 0xFF b_m]) in *.
  clearbody ev_m.
  exists ok_m, mbr, ev_m, n_m. split; [exact Hmbr | ].
  rewrite bind_usart, (bind_run _ _ _ _ _ _ _ Hmbr).
  change (usart0_puts (bytes "SD Card OK." ++ crlf))
    with (bytes "SD Card OK." ++ crlf).
  fold (say (bytes "SD Card OK." ++ crlf)).
  destruct (ok_m =? 0).
  { rewrite bind_usart. cbn [ret].
    change (usart0_puts (bytes "MBR read error" ++ crlf))
      with (bytes "MBR read error" ++ crlf).
    fold (say (bytes "MBR read error" ++ crlf)).
    rewrite app_nil_r, <- !app_assoc. reflexivity. }
  fold (part_start mbr).
  destruct (sd_read_sector_run (part_start mbr) mbr card n_m)
    as (ok_v & vbr & body_v & b_v & n_v & Hvbr & _).
  set (ev_v := CsLow :: CsLow :: body_v ++ [CsHigh; Xfer 0xFF b_v]) in *.
  clearbody ev_v.
  exists ok_v, vbr, ev_v, n_v. split; [exact Hvbr | ].
  rewrite (bind_run _ _ _ _ _ _ _ Hvbr).
  destruct (ok_v =? 0).
  { rewrite bind_usart. cbn [ret].
    change (usart0_puts (bytes "VBR read error" ++ crlf))
      with (bytes "VBR read error" ++ crlf).
    fold (say (bytes "VBR read error" ++ crlf)).
    rewrite app_nil_r, <- !app_assoc. reflexivity. }
  set (fat32 := snd (parse_fat32_info vbr)).
  destruct (sd_read_sector_run (first_root_sector fat32) vbr card n_v)
    as (ok_r & root & body_r & b_r & n_r & Hroot & _).
  set (ev_r := CsLow :: CsLow :: body_r ++ [CsHigh; Xfer 0xFF b_r]) in *.
  clearbody ev_r.
  exists ok_r, root, ev_r, n_r. split; [exact Hroot | ].
  rewrite !bind_usart, (bind_run _ _ _ _ _ _ _ Hroot).
  rewrite usart0_puts_itoa.
  change (usart0_puts (bytes "FAT32 detected. Root Cluster: "))
    with (bytes "FAT32 detected. Root Cluster: ").
  change (usart0_puts crlf) with crlf.
  fold (say (bytes "FAT32 detected. Root Cluster: ")).
  fold (say (decimal (to_int16 (root_cluster fat32)))). fold (say crlf).
  rewrite !say_app.
  destruct (ok_r =? 0).
  { rewrite bind_usart. cbn [ret].
    change (usart0_puts (bytes "Root dir read error" ++ crlf))
      with (bytes "Root dir read error" ++ crlf).
    fold (say (bytes "Root dir read error" ++ crlf)).
    rewrite !say_app, app_nil_r, <- !app_assoc. reflexivity. }
  rewrite !bind_usart. cbn [ret].
  change (usart0_puts (bytes "Root Directory:" ++ crlf))
    with (bytes "Root Directory:" ++ crlf).
  fold (say (bytes "Root Directory:" ++ crlf)). fold (say (print_root_dir root)).
  rewrite !say_app, app_nil_r, <- !app_assoc. reflexivity.
Qed.

(** C4. [main] always halts at one of its five [while (1);] loops, and
    the halt point tells what ran: every step before it succeeded, the
    step at it failed, each step started where the previous one ended,
    and after the failing step [main] only prints that step's message: no
    exchange and no chip-select change follows (the run ends at the
    exchange number where the failing step ended) and nothing of the
    directory is printed. In particular, when [sd_init] fails no
    [sd_read_sector] runs. *)
Theorem failure_stops_pipeline (card : stream) (n : nat) :
  exists h evs n' ok_i ev_i n_i,
    main card n = Some (h, evs, n')
    /\ sd_init card n = Some (ok_i, ev_i, n_i)
    /\ let t0 := say (crlf ++ bytes "Initializing SD Card..." ++ crlf)
                 ++ ev_i in
       match h with
       | InitFailed =>
           ok_i = 0 /\ n' = n_i
           /\ evs = t0 ++ say (bytes "SD Card init failed!" ++ crlf)
       | _ =>
           ok_i <> 0
           /\ exists ok_m mbr ev_m n_m,
                sd_read_sector 0 (repeat x00 SECTOR_SIZE) card n_i
                = Some ((ok_m, mbr), ev_m, n_m)
                /\ let t1 := t0 ++ say (bytes "SD Card OK." ++ crlf) ++ ev_m in
                   match h with
                   | MbrFailed =>
                       ok_m = 0 /\ n' = n_m
                       /\ evs = t1 ++ say (bytes "MBR read error" ++ crlf)
                   | _ =>
                       ok_m <> 0
                       /\ exists ok_v vbr ev_v n_v,
                            sd_read_sector (part_start mbr) mbr card n_m
                            = Some ((ok_v, vbr), ev_v, n_v)
                            /\ let t2 := t1 ++ ev_v in
                               match h with
                               | VbrFailed =>
                                   ok_v = 0 /\ n' = n_v
                                   /\ evs = t2 ++ say (bytes "VBR read error"
                                                       ++ crlf)
                               | _ =>
                                   let fat32 := snd (parse_fat32_info vbr) in
                                   ok_v <> 0
                                   /\ exists ok_r root ev_r,
                                        sd_read_sector
                                          (first_root_sector fat32) vbr card n_v
                                        = Some ((ok_r, root), ev_r, n')
                                        /\ let t3 :=
                                             t2
                                             ++ say (bytes "FAT32 detected. Root Cluster: "
                                                     ++ decimal (to_int16 (root_cluster fat32))
                                                     ++ crlf)
                                             ++ ev_r in
                                           match h with
                                           | RootFailed =>
                                               ok_r = 0
                                               /\ evs = t3 ++ say (bytes "Root dir read error" ++ crlf)
                                           | _ =>
                                               ok_r <> 0 /\ h = Listed
                                               /\ evs = t3 ++ say (bytes "Root Directory:" ++ crlf
                                                                   ++ print_root_dir root)
                                           end
                               end
                   end
       end.
Proof.
  destruct (main_runs card n) as (ok_i & ev_i & n_i & Hinit & H).
  cbv zeta in H.
  destruct (Z.eqb_spec ok_i 0) as [Ei | Ei].
  { eexists InitFailed, _, _, ok_i, ev_i, n_i.
    split; [exact H | ]. split; [exact Hinit | ]. cbv zeta. auto. }
  destruct H as (ok_m & mbr & ev_m & n_m & Hmbr & H).
  destruct (Z.eqb_spec ok_m 0) as [Em | Em].
  { eexists MbrFailed, _, _, ok_i, ev_i, n_i.
    split; [exact H | ]. split; [exact Hinit | ]. cbv zeta.
    split; [exact Ei | ]. exists ok_m, mbr, ev_m, n_m. auto. }
  destruct H as (ok_v & vbr & ev_v & n_v & Hvbr & H).
  destruct (Z.eqb_spec ok_v 0) as [Ev | Ev].
  { eexists VbrFailed, _, _, ok_i, ev_i, n_i.
    split; [exact H | ]. split; [exact Hinit | ]. cbv zeta.
    split; [exact Ei | ]. exists ok_m, mbr, ev_m, n_m.
    split; [exact Hmbr | ]. split; [exact Em | ].
    exists ok_v, vbr, ev_v, n_v. auto. }
  destruct H as (ok_r & root & ev_r & n_r & Hroot & H).
  destruct (Z.eqb_spec ok_r 0) as [Er | Er].
  { eexists RootFailed, _, _, ok_i, ev_i, n_i.
    split; [exact H | ]. split; [exact Hinit | ]. cbv zeta.
    split; [exact Ei | ]. exists ok_m, mbr, ev_m, n_m.
    split; [exact Hmbr | ]. split; [exact Em | ].
    exists ok_v, vbr, ev_v, n_v.
    split; [exact Hvbr | ]. split; [exact Ev | ].
    exists ok_r, root, ev_r. auto. }
  eexists Listed, _, _, ok_i, ev_i, n_i.
  split; [exact H | ]. split; [exact Hinit | ]. cbv zeta.
  split; [exact Ei | ]. exists ok_m, mbr, ev_m, n_m.
  split; [exact Hmbr | ]. split; [exact Em | ].
  exists ok_v, vbr, ev_v, n_v.
  split; [exact Hvbr | ]. split; [exact Ev | ].
  exists ok_r, root, ev_r. auto.
Qed.

(** ** Numbers printed through [itoa] *)

Lemma sd_init_result card n ok evs n' :
  sd_init card n = Some (ok, evs, n') -> ok = 0 \/ ok = 1.
Proof.
  intros H.
  destruct (sd_init_run card n)
    as (ok1 & body & tail & n1 & Hrun & _ & Hok & _).
  rewrite H in Hrun. destruct (run_inj _ _ _ _ _ _ Hrun) as (<- & _ & _).
  destruct Hok as [[-> _] | [-> _]]; auto.
Qed.

Lemma sd_read_sector_result sector buffer card n ok buffer' evs n' :
  sd_read_sector sector buffer card n = Some ((ok, buffer'), evs, n') ->
  ok = 0 \/ ok = 1.
Proof.
  intros H.
  destruct (sd_read_sector_run sector buffer card n)
    as (ok1 & b1 & body & b & n1 & Hrun & _ & Hok & _).
  rewrite H in Hrun. destruct (run_inj _ _ _ _ _ _ Hrun) as (E & _ & _).
  injection E as <- _.
  destruct Hok as [[-> _] | [-> _]]; auto.
Qed.

(** Once [sd_init] and the reads of the MBR and of the boot sector have
    succeeded, [main] prints the root-cluster line and reads the root
    directory. *)
Lemma main_after_vbr card n ev_i n_i mbr ev_m n_m vbr ev_v n_v :
  sd_init card n = Some (1, ev_i, n_i) ->
  sd_read_sector 0 (repeat x00 SECTOR_SIZE) card n_i
  = Some ((1, mbr), ev_m, n_m) ->
  sd_read_sector (part_start mbr) mbr card n_m = Some ((1, vbr), ev_v, n_v) ->
  let fat32 := snd (parse_fat32_info vbr) in
  exists ok_r root ev_r n_r,
    sd_read_sector (first_root_sector fat32) vbr card n_v
    = Some ((ok_r, root), ev_r, n_r)
    /\ main card n
       = Some (if ok_r =? 0 then RootFailed else Listed,
               (say (crlf ++ bytes "Initializing SD Card..." ++ crlf)
                ++ ev_i ++ say (bytes "SD Card OK." ++ crlf) ++ ev_m ++ ev_v)
               ++ say (bytes "FAT32 detected. Root Cluster: "
                       ++ decimal (to_int16 (root_cluster fat32)) ++ crlf)
               ++ ev_r
               ++ say (if ok_r =? 0
                       then bytes "Root dir read error" ++ crlf
                       else bytes "Root Directory:" ++ crlf
                            ++ print_root_dir root),
               n_r).
Proof.
  intros Hinit Hmbr Hvbr fat32.
  destruct (main_runs card n) as (ok_i & ev_i' & n_i' & Hinit' & H).
  rewrite Hinit in Hinit'.
  destruct (run_inj _ _ _ _ _ _ Hinit') as (<- & <- & <-).
  cbv zeta in H. cbn [Z.eqb] in H.
  destruct H as (ok_m & mbr' & ev_m' & n_m' & Hmbr' & H).
  rewrite Hmbr in Hmbr'.
  destruct (run_inj _ _ _ _ _ _ Hmbr') as (E & <- & <-).
  injection E as <- <-. cbn [Z.eqb] in H.
  destruct H as (ok_v & vbr' & ev_v' & n_v' & Hvbr' & H).
  rewrite Hvbr in Hvbr'.
  destruct (run_inj _ _ _ _ _ _ Hvbr') as (E & <- & <-).
  injection E as <- <-. cbn [Z.eqb] in H.
  destruct H as (ok_r & root & ev_r & n_r & Hroot & H).
  exists ok_r, root, ev_r, n_r. split; [exact Hroot | ].
  fold fat32 in H.
  destruct (ok_r =? 0); rewrite H; rewrite <- !app_assoc; reflexivity.
Qed.

(** C10. The size of an emitted directory entry, the little-endian value
    of its bytes 28 to 31, is printed by [itoa], whose argument is a
    16-bit [int]: the digits printed are those of the 32-bit size
    converted to [int], and they are the decimal text of the size exactly
    when the size is at most 32767. The same holds for the root-cluster
    number, the little-endian value of bytes 44 to 47 of the boot sector:
    once [sd_init] and the reads of the MBR and of the boot sector have
    succeeded, [main] prints it through [itoa] right after the events of
    these three steps, then reads the root directory; and it prints it
    in no other run. *)
Theorem size_printed_through_int
    (entry : list byte) (card : stream) (n : nat) :
  classify entry = Regular ->
  let fsize := dir_size entry in
  fsize = u8 (idx entry 28) + 2 ^ 8 * u8 (idx entry 29)
          + 2 ^ 16 * u8 (idx entry 30) + 2 ^ 24 * u8 (idx entry 31)
  /\ 0 <= fsize < 2 ^ 32
  /\ print_dir_entry entry
     = bytes "Name: " ++ print_filename entry ++ bytes " | Attr: "
       ++ usart0_print_hex (idx entry 11) ++ bytes " | Size: "
       ++ decimal (to_int16 fsize) ++ crlf
  /\ (decimal (to_int16 fsize) = decimal fsize <-> fsize <= 32767)
  /\ (forall ev_i n_i mbr ev_m n_m vbr ev_v n_v,
        sd_init card n = Some (1, ev_i, n_i) ->
        sd_read_sector 0 (repeat x00 SECTOR_SIZE) card n_i
        = Some ((1, mbr), ev_m, n_m) ->
        sd_read_sector (part_start mbr) mbr card n_m
        = Some ((1, vbr), ev_v, n_v) ->
        let fat32 := snd (parse_fat32_info vbr) in
        let rc := root_cluster fat32 in
        rc = u8 (idx vbr 44) + 2 ^ 8 * u8 (idx vbr 45)
             + 2 ^ 16 * u8 (idx vbr 46) + 2 ^ 24 * u8 (idx vbr 47)
        /\ 0 <= rc < 2 ^ 32
        /\ (decimal (to_int16 rc) = decimal rc <-> rc <= 32767)
        /\ exists ok_r root ev_r n_r,
             sd_read_sector (first_root_sector fat32) vbr card n_v
             = Some ((ok_r, root), ev_r, n_r)
             /\ main card n
                = Some (if ok_r =? 0 then RootFailed else Listed,
                        (say (crlf ++ bytes "Initializing SD Card..." ++ crlf)
                         ++ ev_i ++ say (bytes "SD Card OK." ++ crlf)
                         ++ ev_m ++ ev_v)
                        ++ say (bytes "FAT32 detected. Root Cluster: "
                                ++ decimal (to_int16 rc) ++ crlf)
                        ++ ev_r
                        ++ say (if ok_r =? 0
                                then bytes "Root dir read error" ++ crlf
                                else bytes "Root Directory:" ++ crlf
                                     ++ print_root_dir root),
                        n_r))
  /\ (forall h evs n',
        main card n = Some (h, evs, n') ->
        h = RootFailed \/ h = Listed ->
        exists ev_i n_i mbr ev_m n_m vbr ev_v n_v post,
          sd_init card n = Some (1, ev_i, n_i)
          /\ sd_read_sector 0 (repeat x00 SECTOR_SIZE) card n_i
             = Some ((1, mbr), ev_m, n_m)
          /\ sd_read_sector (part_start mbr) mbr card n_m
             = Some ((1, vbr), ev_v, n_v)
          /\ evs = (say (crlf ++ bytes "Initializing SD Card..." ++ crlf)
                    ++ ev_i ++ say (bytes "SD Card OK." ++ crlf)
                    ++ ev_m ++ ev_v)
                   ++ say (bytes "FAT32 detected. Root Cluster: "
                           ++ decimal
                                (to_int16
                                   (root_cluster (snd (parse_fat32_info vbr))))
                           ++ crlf)
                   ++ post).
Proof.
  intros Hreg fsize.
  assert (Hrange : 0 <= fsize < 2 ^ 32) by apply le32_range.
  split; [apply le32_value | ].
  split; [exact Hrange | ]. split.
  { rewrite print_dir_entry_cases, Hreg, usart0_puts_itoa. reflexivity. }
  split.
  { rewrite <- usart0_puts_itoa. apply itoa_exact_iff. lia. }
  split.
  { intros ev_i n_i mbr ev_m n_m vbr ev_v n_v Hinit Hmbr Hvbr fat32 rc.
    assert (Hrc : 0 <= rc < 2 ^ 32).
    { destruct (parsed_ranges vbr) as (_ & _ & _ & _ & R & _). exact R. }
    split. { destruct (parsed_fields vbr) as (_ & _ & _ & _ & R & _).
             unfold rc, fat32. rewrite R. apply le32_value. }
    split; [exact Hrc | ].
    split. { rewrite <- usart0_puts_itoa. apply itoa_exact_iff. lia. }
    exact (main_after_vbr card n ev_i n_i mbr ev_m n_m vbr ev_v n_v
             Hinit Hmbr Hvbr). }
  intros h evs n' Hmain Hh.
  destruct (main_runs card n) as (ok_i & ev_i & n_i & Hinit & H).
  cbv zeta in H.
  destruct (sd_init_result _ _ _ _ _ Hinit) as [-> | ->]; cbn [Z.eqb] in H.
  { rewrite H in Hmain. destruct (run_inj _ _ _ _ _ _ Hmain) as (<- & _ & _).
    destruct Hh; discriminate. }
  destruct H as (ok_m & mbr & ev_m & n_m & Hmbr & H).
  destruct (sd_read_sector_result _ _ _ _ _ _ _ _ Hmbr) as [-> | ->];
    cbn [Z.eqb] in H.
  { rewrite H in Hmain. destruct (run_inj _ _ _ _ _ _ Hmain) as (<- & _ & _).
    destruct Hh; discriminate. }
  destruct H as (ok_v & vbr & ev_v & n_v & Hvbr & H).
  destruct (sd_read_sector_result _ _ _ _ _ _ _ _ Hvbr) as [-> | ->];
    cbn [Z.eqb] in H.
  { rewrite H in Hmain. destruct (run_inj _ _ _ _ _ _ Hmain) as (<- & _ & _).
    destruct Hh; discriminate. }
  destruct (main_after_vbr card n ev_i n_i mbr ev_m n_m vbr ev_v n_v
              Hinit Hmbr Hvbr)
    as (ok_r & root & ev_r & n_r & _ & Hrun).
  rewrite Hmain in Hrun. destruct (run_inj _ _ _ _ _ _ Hrun) as (_ & -> & _).
  exists ev_i, n_i, mbr, ev_m, n_m, vbr, ev_v, n_v. eexists.
  split; [exact Hinit | ]. split; [exact Hmbr | ]. split; [exact Hvbr | ].
  reflexivity.
Qed.

Lemma size_printed_through_int_sample :
  print_dir_entry big_entry
  = bytes "Name: BIG.BIN | Attr: 20 | Size: -25536" ++ crlf
  /\ dir_size big_entry = 40000
  /\ root_cluster (snd (parse_fat32_info big_root_vbr)) = 40000
  /\ exists h pre post n',
       main big_root_card 0%nat
       = Some (h,
               pre ++ say (bytes "FAT32 detected. Root Cluster: -25536"
                           ++ crlf) ++ post,
               n').
Proof.
  assert (Hreg : classify big_entry = Regular) by reflexivity.
  destruct (size_printed_through_int big_entry big_root_card 0%nat Hreg)
    as (_ & _ & Hprint & _ & Hmain & _).
  split; [rewrite Hprint; reflexivity | ].
  split; [reflexivity | ]. split; [reflexivity | ].
  assert (Hi : exists ev_i,
             sd_init big_root_card 0%nat = Some (1, ev_i, 54%nat)).
  { eexists. vm_compute. reflexivity. }
  destruct Hi as (ev_i & Hi).
  assert (Hm : exists ev_m,
             sd_read_sector 0 (repeat x00 SECTOR_SIZE) big_root_card 54%nat
             = Some ((1, sample_mbr), ev_m, 578%nat)).
  { eexists. vm_compute. reflexivity. }
  destruct Hm as (ev_m & Hm).
  assert (Hv : exists ev_v,
             sd_read_sector (part_start sample_mbr) sample_mbr
               big_root_card 578%nat
             = Some ((1, big_root_vbr), ev_v, 1102%nat)).
  { eexists. vm_compute. reflexivity. }
  destruct Hv as (ev_v & Hv).
  destruct (Hmain _ _ _ _ _ _ _ _ Hi Hm Hv)
    as (_ & _ & _ & ok_r & root & ev_r & n_r & _ & Hrun).
  eexists _, _, _, _. exact Hrun.
Defined.

(** ** The end-to-end example of the specification *)

Example main_lists_hello :
  option_map (fun x => (fst (fst x), printed (snd (fst x))))
    (main sample_card 0%nat)
  = Some (Listed,
          crlf ++ bytes "Initializing SD Card..." ++ crlf
          ++ bytes "SD Card OK." ++ crlf
          ++ bytes "FAT32 detected. Root Cluster: 2" ++ crlf
          ++ bytes "Root Directory:" ++ crlf
          ++ bytes "Name: HELLO.TXT | Attr: 20 | Size: 10" ++ crlf)
  /\ first_root_sector (snd (parse_fat32_info sample_vbr)) = 232.
Proof. vm_compute. split; reflexivity. Qed.

(** * Further properties *)

(** ** Output helpers *)

(** X1. [usart0_print_hex] prints exactly two upper-case hexadecimal
    digits, the high nibble first: read back as digits they give the
    byte. *)
Theorem print_hex_round_trip (v : byte) :
  map hex_value (usart0_print_hex v)
  = [Some (u8 v / 16); Some (u8 v mod 16)]
  /\ 16 * (u8 v / 16) + u8 v mod 16 = u8 v.
Proof.
  split; [destruct v; reflexivity | ].
  pose proof (Z.div_mod (u8 v) 16 ltac:(lia)). lia.
Qed.

Lemma usart0_puts_prefix (a b : list byte) :
  Forall (fun c => c <> x00) a -> usart0_puts (a ++ x00 :: b) = a.
Proof.
  induction 1 as [| c a Hc _ IH]; [reflexivity | ].
  cbn [app usart0_puts]. destruct (Byte.eqb c x00) eqn:E.
  - apply Byte.byte_dec_bl in E. contradiction.
  - unfold usart0_putc. cbn [app]. now rewrite IH.
Qed.

Lemma usart0_puts_clean (str : list byte) :
  Forall (fun c => c <> x00) (usart0_puts str)
  /\ (length (usart0_puts str) <= length str)%nat.
Proof.
  induction str as [| c str [IH1 IH2]]; [split; [constructor | reflexivity] | ].
  cbn [usart0_puts]. destruct (Byte.eqb c x00) eqn:E.
  - split; [constructor | cbn; lia].
  - unfold usart0_putc. cbn [app length]. split; [ | lia].
    constructor; [ | exact IH1]. now apply Byte.eqb_false.
Qed.

Lemma usart0_puts_terminated (a : list byte) :
  (length (usart0_puts (a ++ [x00])) <= length a)%nat.
Proof.
  induction a as [| c a IH]; [cbn; lia | ].
  cbn [app usart0_puts]. destruct (Byte.eqb c x00); cbn [length].
  - lia.
  - unfold usart0_putc. cbn [app length]. lia.
Qed.

Lemma usart0_puts_In (str : list byte) (c : byte) :
  In c (usart0_puts str) -> In c str.
Proof.
  induction str as [| d str IH]; [intros [] | ].
  cbn [usart0_puts]. destruct (Byte.eqb d x00); [intros [] | ].
  unfold usart0_putc. cbn [app]. intros [-> | H]; [now left | right; auto].
Qed.

(** X2. [usart0_puts] transmits the bytes of the string up to, and not
    including, the first NUL: it never transmits a NUL, a string without
    NUL is transmitted whole, and whatever follows the first NUL is not
    transmitted. *)
Theorem usart0_puts_stops_at_nul (a b : list byte) :
  Forall (fun c => c <> x00) a ->
  usart0_puts a = a
  /\ usart0_puts (a ++ x00 :: b) = a
  /\ forall str, Forall (fun c => c <> x00) (usart0_puts str).
Proof.
  intros Ha. split; [apply usart0_puts_no_nul, Ha | ].
  split; [apply usart0_puts_prefix, Ha | ].
  intros str. apply usart0_puts_clean.
Qed.

Lemma usart0_puts_stops_at_nul_sample :
  usart0_puts (bytes "AB" ++ x00 :: bytes "CD") = bytes "AB".
Proof.
  apply (usart0_puts_stops_at_nul (bytes "AB") (bytes "CD")).
  repeat constructor; discriminate.
Defined.

(** ** File names *)

Lemma copy_field_length (n i : nat) (entry : list byte) :
  (length (copy_field n i entry) <= n)%nat.
Proof.
  revert i. induction n as [| n IH]; intros i; [reflexivity | ].
  cbn [copy_field]. destruct (Byte.eqb (idx entry i) space); cbn [length].
  - lia.
  - specialize (IH (S i)). lia.
Qed.

Lemma copy_field_no_space (n i : nat) (entry : list byte) :
  Forall (fun c => c <> space) (copy_field n i entry).
Proof.
  revert i. induction n as [| n IH]; intros i; [constructor | ].
  cbn [copy_field]. destruct (Byte.eqb (idx entry i) space) eqn:E.
  - constructor.
  - constructor; [now apply Byte.eqb_false | apply IH].
Qed.

Lemma copy_field_from (n i : nat) (entry : list byte) (c : byte) :
  In c (copy_field n i entry) ->
  exists j, (i <= j < i + n)%nat /\ c = idx entry j.
Proof.
  revert i. induction n as [| n IH]; intros i; [intros [] | ].
  cbn [copy_field]. destruct (Byte.eqb (idx entry i) space); [intros [] | ].
  intros [<- | H].
  - exists i. split; [lia | reflexivity].
  - destruct (IH (S i) H) as (j & Hj & ->). exists j. split; [lia | reflexivity].
Qed.

Lemma print_filename_built (entry : list byte) :
  print_filename entry = usart0_puts (built_name entry ++ [x00]).
Proof.
  unfold print_filename, built_name.
  destruct (negb (Byte.eqb (idx entry 8) space)); reflexivity.
Qed.

(** [copy_field] copies the bytes from index [i] up to the first space
    among them, and all [n] of them when none is a space. *)
Lemma copy_field_prefix (entry : list byte) (n : nat) :
  forall i,
    exists m,
      (m <= n)%nat
      /\ copy_field n i entry = map (idx entry) (seq i m)
      /\ (forall j, (j < m)%nat -> idx entry (i + j) <> space)
      /\ ((m < n)%nat -> idx entry (i + m) = space).
Proof.
  induction n as [| n IH]; intros i.
  { exists 0%nat. split; [lia | ]. split; [reflexivity | ].
    split; intros; lia. }
  cbn [copy_field]. destruct (Byte.eqb (idx entry i) space) eqn:E.
  { exists 0%nat. split; [lia | ]. split; [reflexivity | ].
    split; [intros; lia | ]. intros _. rewrite Nat.add_0_r.
    apply Byte.byte_dec_bl, E. }
  destruct (IH (S i)) as (m & Hm & Hcopy & Hbefore & Hstop).
  exists (S m). split; [lia | ]. split; [cbn [seq map]; now rewrite Hcopy | ].
  split.
  - intros [| j] Hj.
    + rewrite Nat.add_0_r. now apply Byte.eqb_false.
    + replace (i + S j)%nat with (S i + j)%nat by lia. apply Hbefore. lia.
  - intros Hlt. replace (i + S m)%nat with (S i + m)%nat by lia.
    apply Hstop. lia.
Qed.

(** X3. The name built by [print_filename] has at most 12 characters, so
    that with its terminator it fits the 13-byte buffer; what is printed
    has at most 12 characters and contains neither a space nor a NUL.
    The name built is the bytes of the base name before its first space
    (all 8 when it has none), followed, when byte 8 is not a space, by a
    dot and the bytes of the extension before its first space (all 3
    when it has none): bytes after the first space of a field are not
    copied. What is printed is that name up to its first NUL, hence the
    whole of it when none of the 11 name bytes is a NUL. *)
Theorem print_filename_shape (entry : list byte) :
  (length (built_name entry) <= 12)%nat
  /\ (length (print_filename entry) <= 12)%nat
  /\ Forall (fun c => c <> space /\ c <> x00) (print_filename entry)
  /\ ((forall j, (j < 11)%nat -> idx entry j <> x00) ->
      print_filename entry
      = copy_field 8 0 entry
        ++ (if Byte.eqb (idx entry 8) space then []
            else dot :: copy_field 3 8 entry))
  /\ exists m8 m3,
       (m8 <= 8)%nat /\ (m3 <= 3)%nat
       /\ (forall j, (j < m8)%nat -> idx entry j <> space)
       /\ ((m8 < 8)%nat -> idx entry m8 = space)
       /\ (forall j, (j < m3)%nat -> idx entry (8 + j) <> space)
       /\ ((m3 < 3)%nat -> idx entry (8 + m3) = space)
       /\ let name :=
            map (idx entry) (seq 0 m8)
            ++ (if Byte.eqb (idx entry 8) space then []
                else dot :: map (idx entry) (seq 8 m3)) in
          built_name entry = name
          /\ print_filename entry = usart0_puts (name ++ [x00])
          /\ ((forall j, (j < 11)%nat -> idx entry j <> x00) ->
              print_filename entry = name).
Proof.
  assert (Hlen : (length (built_name entry) <= 12)%nat).
  { unfold built_name.
    pose proof (copy_field_length 8 0 entry).
    pose proof (copy_field_length 3 8 entry).
    destruct (negb (Byte.eqb (idx entry 8) space));
      rewrite ?length_app; cbn [length]; lia. }
  assert (Hsp : Forall (fun c => c <> space) (built_name entry)).
  { unfold built_name.
    destruct (negb (Byte.eqb (idx entry 8) space)).
    - apply Forall_app. split; [apply copy_field_no_space | ].
      apply Forall_app. split; [ | apply copy_field_no_space].
      constructor; [discriminate | constructor].
    - apply copy_field_no_space. }
  assert (Hwhole : (forall j, (j < 11)%nat -> idx entry j <> x00) ->
                   print_filename entry = built_name entry).
  { intros Hclean. rewrite print_filename_built.
    apply usart0_puts_prefix.
    unfold built_name. rewrite Forall_forall. intros c Hc.
    assert (Hfield : forall n i, (i + n <= 11)%nat ->
                     In c (copy_field n i entry) -> c <> x00).
    { intros n i Hn Hin. destruct (copy_field_from n i entry c Hin)
        as (j & Hj & ->). apply Hclean. lia. }
    destruct (negb (Byte.eqb (idx entry 8) space)).
    - apply in_app_or in Hc. destruct Hc as [Hc | [<- | Hc]].
      + apply (Hfield 8 0)%nat; [lia | exact Hc].
      + discriminate.
      + apply (Hfield 3 8)%nat; [lia | exact Hc].
    - apply (Hfield 8 0)%nat; [lia | exact Hc]. }
  assert (Hbuilt : built_name entry
                   = copy_field 8 0 entry
                     ++ (if Byte.eqb (idx entry 8) space then []
                         else dot :: copy_field 3 8 entry)).
  { unfold built_name.
    destruct (Byte.eqb (idx entry 8) space); cbn [negb];
      [now rewrite app_nil_r | reflexivity]. }
  split; [exact Hlen | ].
  split.
  { rewrite print_filename_built.
    pose proof (usart0_puts_terminated (built_name entry)). lia. }
  split.
  { rewrite print_filename_built.
    destruct (usart0_puts_clean (built_name entry ++ [x00])) as [Hnul _].
    rewrite Forall_forall in *. intros c Hc. split; [ | now apply Hnul].
    apply usart0_puts_In in Hc. apply in_app_or in Hc.
    destruct Hc as [Hc | [<- | []]]; [now apply Hsp | discriminate]. }
  split.
  { intros Hclean. rewrite (Hwhole Hclean). exact Hbuilt. }
  destruct (copy_field_prefix entry 8 0) as (m8 & Hm8 & Hc8 & Hb8 & Hs8).
  destruct (copy_field_prefix entry 3 8) as (m3 & Hm3 & Hc3 & Hb3 & Hs3).
  exists m8, m3. split; [exact Hm8 | ]. split; [exact Hm3 | ].
  split; [exact Hb8 | ]. split; [exact Hs8 | ].
  split; [exact Hb3 | ]. split; [exact Hs3 | ].
  cbv zeta. rewrite <- Hc8, <- Hc3, <- Hbuilt.
  split; [reflexivity | ]. split; [apply print_filename_built | exact Hwhole].
Qed.

Lemma print_filename_shape_sample :
  print_filename hello_entry = bytes "HELLO.TXT"
  /\ print_filename spaced_entry = bytes "A.TXT".
Proof.
  split.
  { destruct (print_filename_shape hello_entry) as (_ & _ & _ & H & _).
    rewrite H; [reflexivity | ].
    intros j Hj.
    do 11 (destruct j as [| j]; [discriminate | ]). lia. }
  destruct (print_filename_shape spaced_entry)
    as (_ & _ & _ & _ & m8 & m3 & _ & Hm3 & Hb8 & Hs8 & Hb3 & Hs3 & H).
  cbv zeta in H. destruct H as (_ & _ & H).
  rewrite H.
  2:{ intros j Hj. do 11 (destruct j as [| j]; [discriminate | ]). lia. }
  assert (m8 = 1%nat) as ->.
  { destruct m8 as [| [| m]].
    - exfalso. assert (E : idx spaced_entry 0 = space) by (apply Hs8; lia).
      discriminate E.
    - reflexivity.
    - exfalso. apply (Hb8 1%nat); [lia | reflexivity]. }
  assert (m3 = 3%nat) as ->.
  { destruct m3 as [| [| [| [| m]]]].
    - exfalso. assert (E : idx spaced_entry (8 + 0) = space) by (apply Hs3; lia).
      discriminate E.
    - exfalso. assert (E : idx spaced_entry (8 + 1) = space) by (apply Hs3; lia).
      discriminate E.
    - exfalso. assert (E : idx spaced_entry (8 + 2) = space) by (apply Hs3; lia).
      discriminate E.
    - reflexivity.
    - lia. }
  reflexivity.
Defined.

(** ** Volume geometry *)

(** X4. [parse_fat32_info] accepts every sector: it always returns 1, and
    the geometry depends only on the 14 bytes at offsets 11 to 16, 36 to
    39 and 44 to 47, so that the boot signature at offsets 510 and 511,
    like every other byte, is not examined. Bytes per sector, sectors per
    cluster and root cluster are decoded little-endian from offsets 11,
    13 and 44, and every field is within the range of its type. *)
Theorem parse_fat32_info_reads_bpb_only (sector : list byte) :
  let info := snd (parse_fat32_info sector) in
  fst (parse_fat32_info sector) = 1
  /\ (forall sector' : list byte,
        (forall i, In i bpb_offsets -> idx sector' i = idx sector i) ->
        parse_fat32_info sector' = parse_fat32_info sector)
  /\ bytes_per_sector info = u8 (idx sector 11) + 2 ^ 8 * u8 (idx sector 12)
  /\ sectors_per_cluster info = u8 (idx sector 13)
  /\ root_cluster info
     = u8 (idx sector 44) + 2 ^ 8 * u8 (idx sector 45)
       + 2 ^ 16 * u8 (idx sector 46) + 2 ^ 24 * u8 (idx sector 47)
  /\ 0 <= bytes_per_sector info < 2 ^ 16
  /\ 0 <= root_cluster info < 2 ^ 32
  /\ 0 <= data_start info < 2 ^ 32.
Proof.
  cbv zeta. split; [reflexivity | ]. split.
  { intros sector' H. unfold parse_fat32_info.
    rewrite !H by (unfold bpb_offsets; cbn [In]; tauto). reflexivity. }
  destruct (parsed_fields sector) as (Hs & _ & _ & _ & Hc & _).
  destruct (parsed_ranges sector) as (_ & _ & _ & _ & Rc & Rd).
  cbv zeta in *.
  assert (Hb : bytes_per_sector (snd (parse_fat32_info sector))
               = u8 (idx sector 11) + 2 ^ 8 * u8 (idx sector 12)).
  { cbn [snd parse_fat32_info bytes_per_sector].
    pose proof (u8_range (idx sector 11)). pose proof (u8_range (idx sector 12)).
    unfold wrap16. rewrite Z.shiftl_mul_pow2 by lia.
    rewrite (Z.mod_small (_ * _)) by lia.
    rewrite lor_low_shifted by lia. rewrite Z.mod_small by lia. lia. }
  split; [exact Hb | ]. split; [exact Hs | ].
  split; [rewrite Hc; apply le32_value | ].
  split; [ | split; assumption].
  rewrite Hb.
  pose proof (u8_range (idx sector 11)). pose proof (u8_range (idx sector 12)).
  lia.
Qed.

Lemma parse_fat32_info_reads_bpb_only_sample :
  parse_fat32_info (firstn 510 sample_vbr ++ [x55; xaa])
  = parse_fat32_info sample_vbr.
Proof.
  apply (parse_fat32_info_reads_bpb_only sample_vbr).
  intros i Hi. unfold bpb_offsets in Hi. cbn [In] in Hi.
  repeat (destruct Hi as [<- | Hi]; [reflexivity | ]). contradiction.
Defined.



(** ** Waiting for a response *)

Lemma sd_wait_response_first (k : nat) (res : byte) card n :
  exists d,
    (d <= k)%nat /\ (0 < k -> 0 < d)%nat
    /\ sd_wait_response k res card n
       = Some (match d with O => res | S d' => card (n + d')%nat end,
               polls card n d, (n + d)%nat)
    /\ (forall i, (S i < d)%nat -> bit7 (card (n + i)%nat) = true)
    /\ (forall d', d = S d' ->
        bit7 (card (n + d')%nat) = false \/ d = k).
Proof.
  revert res n. induction k as [| k IH]; intros res n.
  - exists 0%nat. cbn. rewrite Nat.add_0_r.
    split; [lia | ]. split; [lia | ]. split; [reflexivity | ].
    split; [intros i Hi; lia | intros d' Hd; discriminate].
  - cbn [sd_wait_response]. unfold bind, spi_transfer.
    destruct (Z.land (u8 (card n)) 0x80 =? 0) eqn:E.
    + exists 1%nat. cbn [ret polls app]. rewrite Nat.add_0_r, Nat.add_1_r.
      split; [lia | ]. split; [lia | ]. split; [reflexivity | ].
      split; [intros i Hi; lia | ].
      intros d' Hd. injection Hd as <-. left.
      unfold bit7. rewrite Nat.add_0_r, E. reflexivity.
    + destruct (IH (card n) (S n)) as (d & Hd & Hpos & Hrun & Hbefore & Hlast).
      rewrite Hrun. exists (S d). split; [lia | ]. split; [lia | ].
      split.
      { cbn [polls app]. f_equal. f_equal; [ f_equal | lia ].
        destruct d as [| d']; f_equal; lia. }
      split.
      { intros [| i] Hi.
        - rewrite Nat.add_0_r. unfold bit7. rewrite E. reflexivity.
        - replace (n + S i)%nat with (S n + i)%nat by lia.
          apply Hbefore. lia. }
      intros d' Hd'. injection Hd' as <-.
      destruct d as [| d0].
      * right. lia.
      * destruct (Hlast d0 eq_refl) as [H | H].
        -- left. replace (n + S d0)%nat with (S n + d0)%nat by lia. exact H.
        -- right. lia.
Qed.

(** A run of [sd_send_cmd], with the command byte at the head of its
    frame and the way the response is found. *)
Lemma sd_send_cmd_first (cmd arg crc : Z) card n :
  exists d xs,
    (1 <= d <= 8)%nat
    /\ sd_send_cmd cmd arg crc card n
       = Some (card (n + 5 + d)%nat,
               CsLow :: Xfer (wrap8 (Z.lor 0x40 cmd)) (card n) :: xs,
               (n + 6 + d)%nat)
    /\ forallb is_xfer xs = true
    /\ (forall i, (1 <= i < d)%nat -> bit7 (card (n + 5 + i)%nat) = true)
    /\ (bit7 (card (n + 5 + d)%nat) = false \/ d = 8%nat).
Proof.
  destruct (sd_wait_response_first 8 xff card (n + 6))
    as (d & Hd & Hpos & Hrun & Hbefore & Hlast).
  specialize (Hpos ltac:(lia)).
  destruct d as [| d']; [lia | ].
  eexists (S d'), _. split; [lia | ]. split.
  { unfold sd_send_cmd, bind, SD_CS_LOW, spi_transfer.
    replace (S (S (S (S (S (S n)))))) with (n + 6)%nat by lia.
    rewrite Hrun. cbn [app].
    replace (n + 5 + S d')%nat with (n + 6 + d')%nat by lia. reflexivity. }
  split; [cbn [forallb is_xfer andb]; apply polls_xfer | ].
  split.
  - intros i Hi. replace (n + 5 + i)%nat with (n + 6 + (i - 1))%nat by lia.
    apply Hbefore. lia.
  - replace (n + 5 + S d')%nat with (n + 6 + d')%nat by lia.
    destruct (Hlast d' eq_refl) as [H | H]; [left; exact H | right; exact H].
Qed.

Lemma bit7_set_not_r1 (b : byte) : bit7 b = true -> u8 b <> 0x00 /\ u8 b <> 0x01.
Proof. destruct b; cbv; intros H; split; congruence. Qed.

(** X6. [sd_send_cmd] takes as the response the first of the bytes
    received after the six frame bytes whose bit 7 is clear, and gives up
    after eight: it then returns the eighth byte, whose bit 7 is set. A
    command that a card leaves unanswered therefore returns neither 0x00
    nor 0x01, after exactly 14 exchanges. *)
Theorem sd_send_cmd_response (cmd arg crc : Z) (card : stream) (n : nat) :
  exists d,
    (1 <= d <= 8)%nat
    /\ outcome (sd_send_cmd cmd arg crc card n)
       = Some (card (n + 5 + d)%nat, (n + 6 + d)%nat)
    /\ (forall i, (1 <= i < d)%nat -> bit7 (card (n + 5 + i)%nat) = true)
    /\ (bit7 (card (n + 5 + d)%nat) = false \/ d = 8%nat)
    /\ ((forall i, (1 <= i <= 8)%nat -> bit7 (card (n + 5 + i)%nat) = true) ->
        d = 8%nat
        /\ u8 (card (n + 5 + d)%nat) <> 0x00
        /\ u8 (card (n + 5 + d)%nat) <> 0x01).
Proof.
  destruct (sd_send_cmd_first cmd arg crc card n)
    as (d & xs & Hd & Hrun & _ & Hbefore & Hlast).
  exists d. split; [exact Hd | ]. split; [rewrite Hrun; reflexivity | ].
  split; [exact Hbefore | ]. split; [exact Hlast | ].
  intros Hsilent.
  assert (Hset : bit7 (card (n + 5 + d)%nat) = true) by (apply Hsilent; lia).
  split.
  - destruct Hlast as [H | H]; [congruence | exact H].
  - apply bit7_set_not_r1, Hset.
Qed.

Lemma sd_send_cmd_response_absent_card :
  exists d,
    outcome (sd_send_cmd 0 0 0x95 (card_of []) 0%nat)
    = Some (card_of [] (0 + 5 + d)%nat, (0 + 6 + d)%nat)
    /\ d = 8%nat.
Proof.
  destruct (sd_send_cmd_response 0 0 0x95 (card_of []) 0%nat)
    as (d & _ & Hout & _ & _ & Hsilent).
  exists d. split; [exact Hout | ].
  apply Hsilent. intros i _. unfold card_of.
  destruct (0 + 5 + i)%nat; reflexivity.
Defined.

(** ** Reading a sector *)

Lemma firstn_store (buffer : list byte) (i : nat) (v : byte) :
  (i < length buffer)%nat ->
  firstn (S i) (store buffer i v) = firstn i buffer ++ [v].
Proof.
  revert i. induction buffer as [| b rest IH]; intros i Hi; [cbn in Hi; lia | ].
  destruct i as [| i]; [reflexivity | ].
  cbn [store]. cbn [length] in Hi.
  change (firstn (S (S i)) (b :: store rest i v))
    with (b :: firstn (S i) (store rest i v)).
  rewrite IH by lia. reflexivity.
Qed.

Lemma skipn_store (buffer : list byte) (i j : nat) (v : byte) :
  (i < j)%nat -> skipn j (store buffer i v) = skipn j buffer.
Proof.
  revert i j. induction buffer as [| b rest IH]; intros i j Hij.
  - destruct i; reflexivity.
  - destruct j as [| j]; [lia | ].
    destruct i as [| i]; [reflexivity | ].
    cbn [store skipn]. apply IH. lia.
Qed.

Lemma read_payload_contents (k i : nat) (buffer : list byte) card n :
  (i + k <= length buffer)%nat ->
  read_payload k i buffer card n
  = Some (firstn i buffer ++ map card (seq n k) ++ skipn (i + k) buffer,
          polls card n k, (n + k)%nat).
Proof.
  revert i buffer n. induction k as [| k IH]; intros i buffer n Hk.
  - cbn [read_payload ret seq map app polls]. rewrite !Nat.add_0_r.
    now rewrite firstn_skipn.
  - cbn [read_payload]. rewrite bind_spi_transfer.
    rewrite IH by (rewrite store_length; lia).
    rewrite firstn_store by lia.
    rewrite skipn_store by lia.
    cbn [seq map polls]. rewrite <- app_assoc. cbn [app].
    replace (S i + k)%nat with (i + S k)%nat by lia.
    replace (S n + k)%nat with (n + S k)%nat by lia.
    reflexivity.
Qed.

Lemma token_loop_first (k : nat) :
  forall (t : Z) card n,
    Z.of_nat k = t -> 1 <= t <= 0xFFFF ->
    exists t' d,
      (1 <= d <= k)%nat
      /\ (forall fuel, (k <= fuel)%nat ->
            token_loop fuel t card n = Some (t', polls card n d, (n + d)%nat))
      /\ (forall i, (S i < d)%nat -> card (n + i)%nat <> xfe)
      /\ (t' <> 0 -> card (n + d - 1)%nat = xfe)
      /\ (t' = 0 -> d = k).
Proof.
  induction k as [| k IH]; intros t card n Hk Ht; [lia | ].
  destruct (u8 (card n) =? 0xFE) eqn:Etoken.
  { exists t, 1%nat. split; [lia | ]. split.
    { intros [| fuel] Hf; [lia | ]. cbn [token_loop].
      unfold bind, spi_transfer. rewrite Etoken. cbn [ret app polls].
      do 2 f_equal. lia. }
    split; [intros i Hi; lia | ]. split; [ | lia].
    intros _. replace (n + 1 - 1)%nat with n by lia.
    apply Z.eqb_eq, u8_token in Etoken. exact Etoken. }
  assert (Hnot : card n <> xfe).
  { intros E. rewrite E in Etoken. discriminate Etoken. }
  destruct (wrap16 (t - 1) =? 0) eqn:Elast.
  { exists 0, 1%nat.
    rewrite wrap16_pred in Elast by exact Ht. apply Z.eqb_eq in Elast.
    split; [lia | ]. split.
    { intros [| fuel] Hf; [lia | ]. cbn [token_loop].
      unfold bind, spi_transfer. rewrite Etoken. cbv zeta.
      rewrite (wrap16_pred t Ht), Elast. cbn [Z.eqb negb ret app polls].
      do 2 f_equal. lia. }
    split; [intros i Hi; lia | ].
    split; [intros H; now contradiction H | ]. intros _. lia. }
  rewrite wrap16_pred in Elast by exact Ht. apply Z.eqb_neq in Elast.
  destruct (IH (t - 1) card (S n) ltac:(lia) ltac:(lia))
    as (t' & d & Hd & Hloop & Hbefore & Hfound & Hzero).
  exists t', (S d). split; [lia | ]. split.
  { intros [| fuel] Hf; [lia | ]. cbn [token_loop].
    unfold bind at 1. unfold spi_transfer at 1. rewrite Etoken. cbv zeta.
    rewrite (wrap16_pred t Ht).
    destruct (Z.eqb_spec (t - 1) 0) as [E | _]; [contradiction | ].
    cbn [negb]. rewrite (Hloop fuel) by lia. cbn [app polls].
    do 2 f_equal. lia. }
  split.
  { intros [| i] Hi.
    - rewrite Nat.add_0_r. exact Hnot.
    - replace (n + S i)%nat with (S n + i)%nat by lia. apply Hbefore. lia. }
  split.
  { intros Hne. replace (n + S d - 1)%nat with (S n + d - 1)%nat by lia.
    apply Hfound, Hne. }
  intros Hz. rewrite (Hzero Hz). reflexivity.
Qed.

(** A run of [sd_read_sector]: its events, and on success where the
    response, the token and the payload were found. *)
Lemma sd_read_sector_trace (sector : Z) (buffer : list byte) card n :
  exists ok buffer' xs b n',
    sd_read_sector sector buffer card n
    = Some ((ok, buffer'),
            CsLow :: CsLow :: Xfer 0x51 (card n) :: xs
            ++ [CsHigh; Xfer 0xFF b], n')
    /\ forallb is_xfer xs = true
    /\ (ok = 0 /\ buffer' = buffer
        \/ ok = 1
           /\ exists q t,
                (n + 6 <= q < t)%nat /\ (t <= q + POLL_FUEL)%nat
                /\ u8 (card q) = 0x00 /\ card t = xfe
                /\ (forall k, (q < k < t)%nat -> card k <> xfe)
                /\ (n' = t + 516)%nat
                /\ (length buffer = SECTOR_SIZE ->
                    buffer' = map card (seq (S t) SECTOR_SIZE))).
Proof.
  destruct (sd_send_cmd_first 17 sector 0xFF card n)
    as (d1 & xs & Hd1 & Hrun & Hx & _).
  change (wrap8 (Z.lor 0x40 17)) with 0x51 in Hrun.
  unfold sd_read_sector. rewrite bind_cs_low.
  rewrite (bind_run _ _ _ _ _ _ _ Hrun).
  destruct (u8 (card (n + 5 + d1)%nat) =? 0x00) eqn:Er; cbn [negb].
  2:{ exists 0, buffer, xs, (card (n + 6 + d1)%nat), (S (n + 6 + d1)).
      split; [reflexivity | ]. split; [exact Hx | ].
      left; split; reflexivity. }
  apply Z.eqb_eq in Er.
  destruct (token_loop_first POLL_FUEL 0xFFFF card (n + 6 + d1)%nat
              poll_fuel_ceiling ltac:(lia))
    as (t & d & Hd & Hloop & Hbefore & Hfound & _).
  specialize (Hloop POLL_FUEL (le_n _)).
  rewrite (bind_run _ _ _ _ _ _ _ Hloop).
  destruct (t =? 0) eqn:Et.
  { exists 0, buffer, (xs ++ polls card (n + 6 + d1) d),
      (card (n + 6 + d1 + d)%nat), (S (n + 6 + d1 + d)).
    split. { cbn. rewrite <- app_assoc. reflexivity. }
    split. { rewrite forallb_app, Hx. apply polls_xfer. }
    left; split; reflexivity. }
  apply Z.eqb_neq in Et.
  destruct (read_payload_run SECTOR_SIZE 0 buffer card (n + 6 + d1 + d)%nat)
    as (buffer' & Hpay & Hlen).
  rewrite (bind_run _ _ _ _ _ _ _ Hpay).
  exists 1, buffer',
    (xs ++ polls card (n + 6 + d1) d
        ++ polls card (n + 6 + d1 + d) (SECTOR_SIZE + 2)),
    (card (n + 6 + d1 + d + SECTOR_SIZE + 2)%nat),
    (n + 6 + d1 + d + SECTOR_SIZE + 3)%nat.
  split.
  { rewrite polls_app. cbn [polls].
    unfold bind, spi_transfer, SD_CS_HIGH, ret. cbn [app].
    rewrite <- !app_assoc. cbn [app].
    replace (S (n + 6 + d1 + d + SECTOR_SIZE))
      with (n + 6 + d1 + d + SECTOR_SIZE + 1)%nat by lia.
    replace (S (n + 6 + d1 + d + SECTOR_SIZE + 1))
      with (n + 6 + d1 + d + SECTOR_SIZE + 2)%nat by lia.
    replace (S (n + 6 + d1 + d + SECTOR_SIZE + 2))
      with (n + 6 + d1 + d + SECTOR_SIZE + 3)%nat by lia.
    reflexivity. }
  split. { rewrite !forallb_app, Hx, !polls_xfer. reflexivity. }
  right. split; [reflexivity | ].
  exists (n + 5 + d1)%nat, (n + 6 + d1 + d - 1)%nat.
  split; [lia | ]. split; [lia | ]. split; [exact Er | ].
  split; [apply Hfound, Et | ]. split.
  { intros k Hk.
    replace k with (n + 6 + d1 + (k - (n + 6 + d1)))%nat by lia.
    apply Hbefore. lia. }
  split; [unfold SECTOR_SIZE; lia | ].
  intros Hbuf.
  rewrite (read_payload_contents SECTOR_SIZE 0 buffer card) in Hpay by lia.
  destruct (run_inj _ _ _ _ _ _ Hpay) as (<- & _ & _).
  cbn [firstn app Nat.add]. rewrite skipn_all2 by lia.
  rewrite app_nil_r. do 2 f_equal. lia.
Qed.

(** X7. A successful [sd_read_sector] leaves in a 512-byte buffer the 512
    bytes that the card sent right after the data token, in order, where
    the token is the first byte 0xFE after the 0x00 response to CMD17;
    the two checksum bytes and one filler byte follow, so the call ends
    516 exchanges after the token. A failed [sd_read_sector] leaves the
    buffer as it was. *)
Theorem sd_read_sector_contents
    (sector : Z) (buffer : list byte) (card : stream) (n : nat) :
  length buffer = SECTOR_SIZE ->
  exists ok buffer' evs n',
    sd_read_sector sector buffer card n = Some ((ok, buffer'), evs, n')
    /\ (ok = 0 /\ buffer' = buffer
        \/ ok = 1
           /\ exists q t,
                (n + 6 <= q < t)%nat /\ (t <= q + POLL_FUEL)%nat
                /\ u8 (card q) = 0x00 /\ card t = xfe
                /\ (forall k, (q < k < t)%nat -> card k <> xfe)
                /\ buffer' = map card (seq (S t) SECTOR_SIZE)
                /\ (n' = t + 516)%nat).
Proof.
  intros Hlen.
  destruct (sd_read_sector_trace sector buffer card n)
    as (ok & buffer' & xs & b & n' & Hrun & _ & Hres).
  exists ok, buffer'. eexists _, n'. split; [exact Hrun | ].
  destruct Hres as [H | (Hok & q & t & Hq & Ht & Hr & Htok & Hfirst & Hn & Hbuf)];
    [left; exact H | right].
  split; [exact Hok | ]. exists q, t. auto 10.
Qed.

Lemma sd_read_sector_contents_sample :
  exists ok buffer' evs n',
    sd_read_sector 0 (repeat x00 SECTOR_SIZE)
      (card_of (read_answers sample_mbr)) 0%nat
    = Some ((ok, buffer'), evs, n')
    /\ (ok = 0 /\ buffer' = repeat x00 SECTOR_SIZE
        \/ ok = 1
           /\ exists q t,
                (0 + 6 <= q < t)%nat /\ (t <= q + POLL_FUEL)%nat
                /\ u8 (card_of (read_answers sample_mbr) q) = 0x00
                /\ card_of (read_answers sample_mbr) t = xfe
                /\ (forall k, (q < k < t)%nat ->
                      card_of (read_answers sample_mbr) k <> xfe)
                /\ buffer'
                   = map (card_of (read_answers sample_mbr))
                       (seq (S t) SECTOR_SIZE)
                /\ (n' = t + 516)%nat).
Proof.
  apply (sd_read_sector_contents 0 (repeat x00 SECTOR_SIZE)
           (card_of (read_answers sample_mbr)) 0%nat).
  reflexivity.
Defined.

(** ** The checksum of a data block *)

Lemma local_token_loop (fuel : nat) (t : Z) : local (token_loop fuel t).
Proof.
  revert t. induction fuel as [| fuel IH]; intros t; cbn [token_loop];
    [auto with locality | ].
  local_step.
  match goal with
  | |- local (if ?c then _ else _) => destruct c
  end; [auto with locality | ]. cbv zeta.
  destruct (negb (wrap16 (t - 1) =? 0)); auto with locality.
Qed.

Lemma local_read_payload (k i : nat) (buffer : list byte) :
  local (read_payload k i buffer).
Proof.
  revert i buffer. induction k as [| k IH]; intros i buffer;
    cbn [read_payload]; [auto with locality | ].
  local_step. apply IH.
Qed.

#[local] Hint Resolve local_token_loop local_read_payload : locality.

Lemma local_sd_read_sector_until_crc (sector : Z) (buffer : list byte) :
  local (sd_read_sector_until_crc sector buffer).
Proof. unfold sd_read_sector_until_crc. local_auto. Qed.

Lemma sd_read_sector_split (sector : Z) (buffer : list byte) card n :
  exists go buffer' evs p,
    sd_read_sector_until_crc sector buffer card n
    = Some ((go, buffer'), evs, p)
    /\ outcome (sd_read_sector sector buffer card n)
       = if go : bool then Some ((1, buffer'), (p + 3)%nat)
         else Some ((0, buffer'), p).
Proof.
  destruct (sd_send_cmd_shape 17 sector 0xFF card n)
    as (r & xs & d1 & Hrun & _).
  unfold sd_read_sector, sd_read_sector_until_crc. rewrite !bind_cs_low.
  rewrite !(bind_run _ _ _ _ _ _ _ Hrun).
  destruct (u8 r =? 0x00); cbn [negb].
  2:{ eexists _, _, _, _. split; reflexivity. }
  destruct (token_loop_run POLL_FUEL 0xFFFF card (n + 6 + d1)%nat
              poll_fuel_ceiling ltac:(lia))
    as (t & d & Hloop & _).
  specialize (Hloop POLL_FUEL (le_n _)).
  rewrite !(bind_run _ _ _ _ _ _ _ Hloop).
  destruct (t =? 0).
  { eexists _, _, _, _. split; reflexivity. }
  destruct (read_payload_run SECTOR_SIZE 0 buffer card (n + 6 + d1 + d)%nat)
    as (buffer' & Hpay & _).
  rewrite !(bind_run _ _ _ _ _ _ _ Hpay).
  eexists _, _, _, _. split; [reflexivity | ].
  unfold bind, spi_transfer, SD_CS_HIGH, ret, outcome. cbn [option_map fst snd].
  do 2 f_equal. lia.
Qed.

(** X8. The two checksum bytes that follow the payload, and the filler
    byte after them, are read by [sd_read_sector] and not examined: once
    the payload has been read, the call succeeds with that payload
    whatever these three bytes are. *)
Theorem crc_not_validated
    (sector : Z) (buffer : list byte) (card : stream) (n : nat)
    (buffer' : list byte) (evs : list event) (p : nat) :
  sd_read_sector_until_crc sector buffer card n
  = Some ((true, buffer'), evs, p) ->
  forall c0 c1 c2 : byte,
    let card' := patch card p [c0; c1; c2] in
    map card' [p; p + 1; p + 2]%nat = [c0; c1; c2]
    /\ outcome (sd_read_sector sector buffer card' n)
       = Some ((1, buffer'), (p + 3)%nat)
    /\ outcome (sd_read_sector sector buffer card n)
       = Some ((1, buffer'), (p + 3)%nat).
Proof.
  intros Hpre c0 c1 c2 card'. split.
  { subst card'. unfold patch. cbn [map length].
    repeat match goal with
           | |- context [(?a <=? ?b)%nat] =>
               destruct (Nat.leb_spec a b); [ | lia ]
           | |- context [(?a <? ?b)%nat] =>
               destruct (Nat.ltb_spec a b); [ | lia ]
           end.
    cbn [andb].
    replace (p - p)%nat with 0%nat by lia.
    replace (p + 1 - p)%nat with 1%nat by lia.
    replace (p + 2 - p)%nat with 2%nat by lia.
    reflexivity. }
  destruct (local_sd_read_sector_until_crc sector buffer card card' n
              _ _ _ Hpre) as [_ Hpre'].
  assert (Hpre2 : sd_read_sector_until_crc sector buffer card' n
                  = Some ((true, buffer'), evs, p)).
  { apply Hpre'. intros k Hk. subst card'. symmetry.
    apply patch_outside. lia. }
  split.
  - destruct (sd_read_sector_split sector buffer card' n)
      as (go & b & e & q & Hrun & Hout).
    rewrite Hpre2 in Hrun.
    destruct (run_inj _ _ _ _ _ _ Hrun) as (Hpair & _ & <-).
    injection Hpair as <- <-. exact Hout.
  - destruct (sd_read_sector_split sector buffer card n)
      as (go & b & e & q & Hrun & Hout).
    rewrite Hpre in Hrun.
    destruct (run_inj _ _ _ _ _ _ Hrun) as (Hpair & _ & <-).
    injection Hpair as <- <-. exact Hout.
Qed.

Lemma crc_not_validated_sample :
  outcome (sd_read_sector 0 (repeat x00 SECTOR_SIZE)
             (patch (card_of (read_answers sample_mbr)) 521
                [x00; x00; x00]) 0%nat)
  = Some ((1, sample_mbr), 524%nat).
Proof.
  assert (E : exists evs,
             sd_read_sector_until_crc 0 (repeat x00 SECTOR_SIZE)
               (card_of (read_answers sample_mbr)) 0%nat
             = Some ((true, sample_mbr), evs, 521%nat)).
  { eexists. vm_compute. reflexivity. }
  destruct E as (evs & E).
  exact (proj1 (proj2 (crc_not_validated _ _ _ _ _ _ _ E x00 x00 x00))).
Defined.

(** ** The order of commands *)

Lemma command_bytes_quiet (l rest : list event) :
  commands l = 0%nat -> command_bytes (l ++ rest) = command_bytes rest.
Proof.
  induction l as [| e l IH]; [reflexivity | ].
  unfold commands in *. destruct e; cbn [filter length app command_bytes];
    intros H; try discriminate; auto.
Qed.

Lemma commands_polls card p d : commands (polls card p d) = 0%nat.
Proof. apply commands_xfers, polls_xfer. Qed.

Lemma commands_say (text : list byte) : commands (say text) = 0%nat.
Proof. induction text as [| c text IH]; [reflexivity | exact IH]. Qed.

Lemma issues_quiet (l : list event) : commands l = 0%nat -> issues l [].
Proof. intros H rest. now apply command_bytes_quiet. Qed.

Lemma issues_app (e1 e2 : list event) (l1 l2 : list Z) :
  issues e1 l1 -> issues e2 l2 -> issues (e1 ++ e2) (l1 ++ l2).
Proof.
  intros H1 H2 rest. rewrite <- !app_assoc. now rewrite H1, H2.
Qed.

Lemma issues_command_bytes (evs : list event) (l : list Z) :
  issues evs l -> command_bytes evs = l.
Proof.
  intros H. specialize (H []). rewrite !app_nil_r in H. exact H.
Qed.

(** Rewriting the command bytes of a sequence of events piece by piece. *)
Ltac command_bytes_norm :=
  repeat (progress (rewrite <- ?app_assoc; cbn [app command_bytes])).

Ltac command_bytes_go :=
  command_bytes_norm;
  repeat (rewrite command_bytes_quiet
            by first [assumption | apply commands_polls | apply commands_say
                     | reflexivity];
          command_bytes_norm).

Ltac command_bytes_tac := intros ?rest; command_bytes_go.

Lemma acmd41_loop_issues (k : nat) :
  forall (t : Z) card n,
    Z.of_nat k = t -> 1 <= t <= 0xFFFF ->
    exists t' evs n' j,
      (forall fuel, (k <= fuel)%nat ->
         acmd41_loop fuel t card n = Some (t', evs, n'))
      /\ issues evs (acmd41_rounds j)
      /\ (1 <= j <= k)%nat
      /\ (t' = 0 -> j = k).
Proof.
  induction k as [| k IH]; intros t card n Hk Ht; [lia | ].
  destruct (sd_send_cmd_first 55 0 0x65 card n)
    as (d1 & xs1 & Hd1 & Hrun1 & Hx1 & _).
  destruct (sd_send_cmd_first 41 0x40000000 0x77 card (n + 6 + d1))
    as (d2 & xs2 & Hd2 & Hrun2 & Hx2 & _).
  change (wrap8 (Z.lor 0x40 55)) with 0x77 in Hrun1.
  change (wrap8 (Z.lor 0x40 41)) with 0x69 in Hrun2.
  apply commands_xfers in Hx1, Hx2.
  destruct (u8 (card (n + 6 + d1 + 5 + d2)%nat) =? 0x00) eqn:Eready.
  { exists t. eexists _, _, 1%nat. split.
    { intros [| fuel] Hf; [lia | ]. cbn [acmd41_loop].
      rewrite (bind_run _ _ _ _ _ _ _ Hrun1).
      rewrite (bind_run _ _ _ _ _ _ _ Hrun2).
      rewrite Eready. reflexivity. }
    split; [command_bytes_tac; reflexivity | ]. split; lia. }
  destruct (wrap16 (t - 1) =? 0) eqn:Elast.
  { rewrite wrap16_pred in Elast by exact Ht. apply Z.eqb_eq in Elast.
    exists 0. eexists _, _, 1%nat. split.
    { intros [| fuel] Hf; [lia | ]. cbn [acmd41_loop].
      rewrite (bind_run _ _ _ _ _ _ _ Hrun1).
      rewrite (bind_run _ _ _ _ _ _ _ Hrun2).
      rewrite Eready. cbv zeta. rewrite (wrap16_pred t Ht), Elast.
      reflexivity. }
    split; [command_bytes_tac; reflexivity | ]. split; lia. }
  rewrite wrap16_pred in Elast by exact Ht. apply Z.eqb_neq in Elast.
  destruct (IH (t - 1) card (n + 6 + d1 + 6 + d2)%nat ltac:(lia) ltac:(lia))
    as (t' & evs & n' & j & Hloop & Hiss & Hj & Hzero).
  exists t'. eexists _, n', (S j). split.
  { intros [| fuel] Hf; [lia | ]. cbn [acmd41_loop].
    rewrite (bind_run _ _ _ _ _ _ _ Hrun1).
    rewrite (bind_run _ _ _ _ _ _ _ Hrun2).
    rewrite Eready. cbv zeta. rewrite (wrap16_pred t Ht).
    destruct (Z.eqb_spec (t - 1) 0) as [E | _]; [contradiction | ].
    cbn [negb]. rewrite (Hloop fuel) by lia. reflexivity. }
  split.
  { command_bytes_tac. rewrite Hiss. reflexivity. }
  split; [lia | ]. intros Hz. rewrite (Hzero Hz). reflexivity.
Qed.

Lemma sd_init_commands card n :
  exists ok evs n' l k rest,
    sd_init card n = Some (ok, evs, n')
    /\ evs = CsHigh :: polls card n 10
             ++ CsLow :: Xfer 0x40 (card (n + 10)%nat) :: rest
    /\ issues evs l
    /\ (k <= POLL_FUEL)%nat
    /\ init_commands ok k l.
Proof.
  unfold sd_init. rewrite bind_cs_high.
  rewrite (bind_run _ _ _ _ _ _ _ (spi_send_dummy_run 10 card n)).
  destruct (sd_send_cmd_first 0 0 0x95 card (n + 10))
    as (d0 & xs0 & Hd0 & Hrun0 & Hx0 & _).
  change (wrap8 (Z.lor 0x40 0)) with 0x40 in Hrun0.
  rewrite (bind_run _ _ _ _ _ _ _ Hrun0).
  apply commands_xfers in Hx0.
  destruct (u8 (card (n + 10 + 5 + d0)%nat) =? 0x01) eqn:E0; cbn [negb].
  2:{ exists 0. eexists _, _, [0x40], 0%nat, _.
      split; [cbn [ret]; reflexivity | ].
      split; [cbn [app]; reflexivity | ].
      split; [command_bytes_tac; reflexivity | ].
      split; [lia | ]. right. auto. }
  destruct (sd_send_cmd_first 8 0x1AA 0x87 card (n + 10 + 6 + d0))
    as (d8 & xs8 & Hd8 & Hrun8 & Hx8 & _).
  change (wrap8 (Z.lor 0x40 8)) with 0x48 in Hrun8.
  rewrite (bind_run _ _ _ _ _ _ _ Hrun8).
  apply commands_xfers in Hx8.
  destruct (u8 (card (n + 10 + 6 + d0 + 5 + d8)%nat) =? 0x01) eqn:E8;
    cbn [negb].
  2:{ exists 0. eexists _, _, [0x40; 0x48], 0%nat, _.
      split; [cbn [ret]; reflexivity | ].
      split; [cbn [app]; reflexivity | ].
      split; [command_bytes_tac; reflexivity | ].
      split; [lia | ]. right. auto. }
  set (n8 := (n + 10 + 6 + d0 + 6 + d8)%nat) in *.
  repeat (rewrite bind_spi_transfer; cbv beta).
  change (S (S (S (S n8)))) with (4 + n8)%nat.
  destruct (acmd41_loop_issues POLL_FUEL 0xFFFF card (4 + n8)%nat
              poll_fuel_ceiling ltac:(lia))
    as (t & evl & nl & j & Hloop & Hiss & Hj & Hzero).
  specialize (Hloop POLL_FUEL (le_n _)).
  rewrite (bind_run _ _ _ _ _ _ _ Hloop).
  destruct (Z.eqb_spec t 0) as [Et | Et].
  { exists 0. eexists _, _, ([0x40; 0x48] ++ acmd41_rounds j), j, _.
    split; [cbn [ret]; reflexivity | ].
    split; [cbn [app]; reflexivity | ].
    split; [command_bytes_tac; rewrite Hiss; reflexivity | ].
    split; [lia | ]. right. split; [reflexivity | ].
    right. right. left. split; [exact (Hzero Et) | reflexivity]. }
  destruct (sd_send_cmd_first 58 0 0xFD card nl)
    as (d58 & xs58 & Hd58 & Hrun58 & Hx58 & _).
  change (wrap8 (Z.lor 0x40 58)) with 0x7A in Hrun58.
  rewrite (bind_run _ _ _ _ _ _ _ Hrun58).
  apply commands_xfers in Hx58.
  destruct (u8 (card (nl + 5 + d58)%nat) =? 0x00) eqn:E58; cbn [negb].
  2:{ exists 0.
      eexists _, _, ([0x40; 0x48] ++ acmd41_rounds j ++ [0x7A]), j, _.
      split; [cbn [ret]; reflexivity | ].
      split; [cbn [app]; reflexivity | ].
      split; [command_bytes_tac; rewrite Hiss; command_bytes_norm;
              rewrite command_bytes_quiet by assumption; reflexivity | ].
      split; [lia | ]. right. split; [reflexivity | ].
      right. right. right. split; [lia | reflexivity]. }
  exists 1.
  eexists _, _, ([0x40; 0x48] ++ acmd41_rounds j ++ [0x7A]), j, _.
  split; [unfold bind, spi_transfer, SD_CS_HIGH, ret; reflexivity | ].
  split; [cbn [app]; reflexivity | ].
  split; [command_bytes_tac; rewrite Hiss; command_bytes_norm;
          rewrite command_bytes_quiet by assumption; reflexivity | ].
  split; [lia | ]. left. split; [reflexivity | ]. split; [lia | reflexivity].
Qed.

(** X9. [sd_init] starts by driving chip-select high and clocking 10
    filler bytes (80 clock cycles) with the card deselected; only then
    does it select the card, and the first byte it sends to it is the
    CMD0 command byte. *)
Theorem sd_init_power_up_clocks
    (card : stream) (n : nat) (ok : Z) (evs : list event) (n' : nat) :
  sd_init card n = Some (ok, evs, n') ->
  exists rest,
    evs = CsHigh :: polls card n 10
          ++ CsLow :: Xfer 0x40 (card (n + 10)%nat) :: rest
    /\ sent (polls card n 10) = repeat 0xFF 10
    /\ commands (CsHigh :: polls card n 10) = 0%nat.
Proof.
  intros Hrun.
  destruct (sd_init_commands card n)
    as (ok1 & evs1 & n1 & l & k & rest & Hrun1 & Hevs & _).
  rewrite Hrun in Hrun1.
  destruct (run_inj _ _ _ _ _ _ Hrun1) as (<- & <- & <-).
  exists rest. split; [exact Hevs | ]. split; [apply sent_polls | ].
  apply (commands_polls card n 10).
Qed.

Lemma sd_init_power_up_clocks_sample :
  exists ok evs n' rest,
    sd_init idle_card 0%nat = Some (ok, evs, n')
    /\ evs = CsHigh :: polls idle_card 0 10
             ++ CsLow :: Xfer 0x40 x01 :: rest.
Proof.
  destruct (sd_init_run idle_card 0%nat)
    as (ok & body & tail & n' & E & _).
  destruct (sd_init_power_up_clocks idle_card 0%nat ok _ n' E)
    as (rest & Hevs & _).
  exists ok. eexists _, n', rest. split; [exact E | exact Hevs].
Defined.

Lemma acmd41_rounds_known (k : nat) :
  Forall (fun m => In m [0x40; 0x48; 0x77; 0x69; 0x7A; 0x51])
    (acmd41_rounds k).
Proof.
  induction k as [| k IH]; [constructor | ].
  cbn [acmd41_rounds].
  constructor; [cbn [In]; tauto | ]. constructor; [cbn [In]; tauto | exact IH].
Qed.

Lemma init_commands_known (ok : Z) (k : nat) (l : list Z) :
  init_commands ok k l ->
  Forall (fun m => In m [0x40; 0x48; 0x77; 0x69; 0x7A; 0x51]) l.
Proof.
  assert (H2 : Forall (fun m => In m [0x40; 0x48; 0x77; 0x69; 0x7A; 0x51])
                 [0x40; 0x48]).
  { constructor; [cbn [In]; tauto | ]. constructor; [cbn [In]; tauto | ].
    constructor. }
  assert (H1 : Forall (fun m => In m [0x40; 0x48; 0x77; 0x69; 0x7A; 0x51])
                 [0x7A]).
  { constructor; [cbn [In]; tauto | constructor]. }
  assert (H0 : Forall (fun m => In m [0x40; 0x48; 0x77; 0x69; 0x7A; 0x51])
                 [0x40]).
  { constructor; [cbn [In]; tauto | constructor]. }
  pose proof (acmd41_rounds_known k) as Hk.
  intros [(_ & _ & ->) | (_ & [-> | [-> | [(_ & ->) | (_ & ->)]]])];
    rewrite ?Forall_app; auto.
Qed.

(** ** The course of [sd_init], command by command *)

Lemma acmd41_loop_rounds (k : nat) :
  forall (t : Z) card n,
    Z.of_nat k = t -> 1 <= t <= 0xFFFF ->
    exists t' evs n' j pj,
      (forall fuel, (k <= fuel)%nat ->
         acmd41_loop fuel t card n = Some (t', evs, n'))
      /\ busy_rounds card n j = Some pj
      /\ ((t' = 0 /\ j = k /\ n' = pj /\ issues evs (acmd41_rounds j))
          \/ (t' <> 0 /\ (j < k)%nat /\ t' = t - Z.of_nat j
              /\ issues evs (acmd41_rounds (S j))
              /\ exists r55 p55,
                   outcome (sd_send_cmd 55 0 0x65 card pj) = Some (r55, p55)
                   /\ outcome (sd_send_cmd 41 0x40000000 0x77 card p55)
                      = Some (x00, n'))).
Proof.
  induction k as [| k IH]; intros t card n Hk Ht; [lia | ].
  destruct (sd_send_cmd_first 55 0 0x65 card n)
    as (d1 & xs1 & Hd1 & Hrun1 & Hx1 & _).
  destruct (sd_send_cmd_first 41 0x40000000 0x77 card (n + 6 + d1)%nat)
    as (d2 & xs2 & Hd2 & Hrun2 & Hx2 & _).
  change (wrap8 (Z.lor 0x40 55)) with 0x77 in Hrun1.
  change (wrap8 (Z.lor 0x40 41)) with 0x69 in Hrun2.
  apply commands_xfers in Hx1, Hx2.
  destruct (u8 (card (n + 6 + d1 + 5 + d2)%nat) =? 0x00) eqn:Eready.
  { exists t. eexists _, _, 0%nat, n. split.
    { intros [| fuel] Hf; [lia | ]. cbn [acmd41_loop].
      rewrite (bind_run _ _ _ _ _ _ _ Hrun1).
      rewrite (bind_run _ _ _ _ _ _ _ Hrun2).
      rewrite Eready. reflexivity. }
    split; [reflexivity | ]. right.
    split; [lia | ]. split; [lia | ]. split; [lia | ].
    split; [command_bytes_tac; reflexivity | ].
    eexists _, _. rewrite Hrun1, Hrun2. split; [reflexivity | ].
    apply Z.eqb_eq, u8_zero in Eready. rewrite Eready. reflexivity. }
  assert (Hbusy : forall j,
            busy_rounds card n (S j)
            = busy_rounds card (n + 6 + d1 + 6 + d2)%nat j).
  { intros j. cbn [busy_rounds]. rewrite Hrun1, Hrun2, Eready. reflexivity. }
  destruct (wrap16 (t - 1) =? 0) eqn:Elast.
  { rewrite wrap16_pred in Elast by exact Ht. apply Z.eqb_eq in Elast.
    exists 0. eexists _, _, 1%nat, _. split.
    { intros [| fuel] Hf; [lia | ]. cbn [acmd41_loop].
      rewrite (bind_run _ _ _ _ _ _ _ Hrun1).
      rewrite (bind_run _ _ _ _ _ _ _ Hrun2).
      rewrite Eready. cbv zeta. rewrite (wrap16_pred t Ht), Elast.
      reflexivity. }
    split; [rewrite Hbusy; reflexivity | ]. left.
    split; [reflexivity | ]. split; [lia | ]. split; [reflexivity | ].
    command_bytes_tac. reflexivity. }
  rewrite wrap16_pred in Elast by exact Ht. apply Z.eqb_neq in Elast.
  destruct (IH (t - 1) card (n + 6 + d1 + 6 + d2)%nat ltac:(lia) ltac:(lia))
    as (t' & evs & n' & j & pj & Hloop & Hrounds & Hend).
  exists t'. eexists _, n', (S j), pj. split.
  { intros [| fuel] Hf; [lia | ]. cbn [acmd41_loop].
    rewrite (bind_run _ _ _ _ _ _ _ Hrun1).
    rewrite (bind_run _ _ _ _ _ _ _ Hrun2).
    rewrite Eready. cbv zeta. rewrite (wrap16_pred t Ht).
    destruct (Z.eqb_spec (t - 1) 0) as [E | _]; [contradiction | ].
    cbn [negb]. rewrite (Hloop fuel) by lia. reflexivity. }
  split; [rewrite Hbusy; exact Hrounds | ].
  destruct Hend as [(Hz & Hj & Hn & Hiss) | (Hnz & Hj & Ht' & Hiss & Hlast)].
  - left. split; [exact Hz | ]. split; [lia | ]. split; [exact Hn | ].
    command_bytes_tac. rewrite Hiss. reflexivity.
  - right. split; [exact Hnz | ]. split; [lia | ]. split; [lia | ].
    split; [ | exact Hlast].
    command_bytes_tac. rewrite Hiss. reflexivity.
Qed.

(** [sd_init] returns on every card, and its run is the course that the
    responses decide. *)
Lemma sd_init_course card n :
  exists ok evs n',
    sd_init card n = Some (ok, evs, n')
    /\ init_course card n ok n' (command_bytes evs).
Proof.
  unfold sd_init, init_course. rewrite bind_cs_high.
  rewrite (bind_run _ _ _ _ _ _ _ (spi_send_dummy_run 10 card n)).
  destruct (sd_send_cmd_first 0 0 0x95 card (n + 10)%nat)
    as (d0 & xs0 & Hd0 & Hrun0 & Hx0 & _).
  change (wrap8 (Z.lor 0x40 0)) with 0x40 in Hrun0.
  rewrite (bind_run _ _ _ _ _ _ _ Hrun0).
  apply commands_xfers in Hx0.
  destruct (u8 (card (n + 10 + 5 + d0)%nat) =? 0x01) eqn:E0; cbn [negb].
  2:{ exists 0. eexists _, _. split; [cbn [ret]; reflexivity | ].
      exists (card (n + 10 + 5 + d0)%nat), (n + 10 + 6 + d0)%nat.
  split; [rewrite Hrun0; reflexivity | ].
      rewrite E0. cbn [negb].
      split; [reflexivity | ]. split; [reflexivity | ].
      apply issues_command_bytes. command_bytes_tac. reflexivity. }
  destruct (sd_send_cmd_first 8 0x1AA 0x87 card (n + 10 + 6 + d0)%nat)
    as (d8 & xs8 & Hd8 & Hrun8 & Hx8 & _).
  change (wrap8 (Z.lor 0x40 8)) with 0x48 in Hrun8.
  rewrite (bind_run _ _ _ _ _ _ _ Hrun8).
  apply commands_xfers in Hx8.
  destruct (u8 (card (n + 10 + 6 + d0 + 5 + d8)%nat) =? 0x01) eqn:E8;
    cbn [negb].
  2:{ exists 0. eexists _, _. split; [cbn [ret]; reflexivity | ].
      exists (card (n + 10 + 5 + d0)%nat), (n + 10 + 6 + d0)%nat.
  split; [rewrite Hrun0; reflexivity | ].
      rewrite E0. cbn [negb].
      exists (card (n + 10 + 6 + d0 + 5 + d8)%nat), (n + 10 + 6 + d0 + 6 + d8)%nat.
  split; [rewrite Hrun8; reflexivity | ].
      rewrite E8. cbn [negb].
      split; [reflexivity | ]. split; [reflexivity | ].
      apply issues_command_bytes. command_bytes_tac. reflexivity. }
  set (n8 := (n + 10 + 6 + d0 + 6 + d8)%nat) in *.
  repeat (rewrite bind_spi_transfer; cbv beta).
  change (S (S (S (S n8)))) with (4 + n8)%nat.
  replace (4 + n8)%nat with (n8 + 4)%nat by lia.
  destruct (acmd41_loop_rounds POLL_FUEL 0xFFFF card (n8 + 4)%nat
              poll_fuel_ceiling ltac:(lia))
    as (t & evl & nl & j & pj & Hloop & Hrounds & Hend).
  specialize (Hloop POLL_FUEL (le_n _)).
  rewrite (bind_run _ _ _ _ _ _ _ Hloop).
  destruct Hend as [(-> & -> & -> & Hiss) | (Hnz & Hj & _ & Hiss & Hlast)].
  { exists 0. eexists _, _. split; [cbn [Z.eqb ret]; reflexivity | ].
    exists (card (n + 10 + 5 + d0)%nat), (n + 10 + 6 + d0)%nat.
  split; [rewrite Hrun0; reflexivity | ].
    rewrite E0. cbn [negb].
    exists (card (n + 10 + 6 + d0 + 5 + d8)%nat), (n + 10 + 6 + d0 + 6 + d8)%nat.
  split; [rewrite Hrun8; reflexivity | ].
    rewrite E8. cbn [negb]. fold n8.
    exists POLL_FUEL, pj. split; [exact Hrounds | ]. left.
    split; [reflexivity | ]. split; [reflexivity | ].
    split; [reflexivity | ].
    apply issues_command_bytes. command_bytes_tac. rewrite Hiss.
    reflexivity. }
  destruct (Z.eqb_spec t 0) as [Et | _]; [contradiction | ].
  destruct Hlast as (r55 & p55 & H55 & H41).
  destruct (sd_send_cmd_first 58 0 0xFD card nl)
    as (d58 & xs58 & Hd58 & Hrun58 & Hx58 & _).
  change (wrap8 (Z.lor 0x40 58)) with 0x7A in Hrun58.
  rewrite (bind_run _ _ _ _ _ _ _ Hrun58).
  apply commands_xfers in Hx58.
  destruct (u8 (card (nl + 5 + d58)%nat) =? 0x00) eqn:E58; cbn [negb].
  2:{ exists 0. eexists _, _. split; [cbn [ret]; reflexivity | ].
      exists (card (n + 10 + 5 + d0)%nat), (n + 10 + 6 + d0)%nat.
  split; [rewrite Hrun0; reflexivity | ].
      rewrite E0. cbn [negb].
      exists (card (n + 10 + 6 + d0 + 5 + d8)%nat), (n + 10 + 6 + d0 + 6 + d8)%nat.
  split; [rewrite Hrun8; reflexivity | ].
      rewrite E8. cbn [negb]. fold n8.
      exists j, pj. split; [exact Hrounds | ]. right.
      split; [exact Hj | ]. exists r55, p55, nl, (card (nl + 5 + d58)%nat), (nl + 6 + d58)%nat.
      split; [exact H55 | ]. split; [exact H41 | ].
      split; [rewrite Hrun58; reflexivity | ].
      rewrite E58. cbn [negb]. split; [ | split; reflexivity].
      apply issues_command_bytes. command_bytes_tac. rewrite Hiss.
      command_bytes_go. reflexivity. }
  exists 1. eexists _, _.
  split; [unfold bind, spi_transfer, SD_CS_HIGH, ret; reflexivity | ].
  exists (card (n + 10 + 5 + d0)%nat), (n + 10 + 6 + d0)%nat.
  split; [rewrite Hrun0; reflexivity | ].
  rewrite E0. cbn [negb].
  exists (card (n + 10 + 6 + d0 + 5 + d8)%nat), (n + 10 + 6 + d0 + 6 + d8)%nat.
  split; [rewrite Hrun8; reflexivity | ].
  rewrite E8. cbn [negb]. fold n8.
  exists j, pj. split; [exact Hrounds | ]. right.
  split; [exact Hj | ]. exists r55, p55, nl, (card (nl + 5 + d58)%nat), (nl + 6 + d58)%nat.
  split; [exact H55 | ]. split; [exact H41 | ].
  split; [rewrite Hrun58; reflexivity | ].
  rewrite E58. cbn [negb]. split; [ | split; [reflexivity | lia]].
  apply issues_command_bytes. command_bytes_tac. rewrite Hiss.
  command_bytes_go. reflexivity.
Qed.

(** X10. Whatever the card answers, the commands [sd_init] issues are, in
    this order, CMD0, CMD8, then rounds of CMD55 and ACMD41, then CMD58;
    it stops at the first command whose response is not the awaited one.
    When it succeeds it has issued all of them, with at least one and at
    most 0xFFFF rounds. The responses decide where it stops: a response
    to CMD0 other than 0x01 ends it after CMD0 with result 0; otherwise
    a response to CMD8 other than 0x01 ends it after CMD8 with result 0;
    otherwise the rounds go on while the response to ACMD41 is not 0x00;
    after 0xFFFF such rounds it ends with result 0 and CMD58 is not
    issued; after a round whose ACMD41 got 0x00 it issues CMD58, whose
    response decides the result: 1 when it is 0x00, five exchanges
    later, and 0 otherwise, at once. *)
Theorem sd_init_command_order
    (card : stream) (n : nat) (ok : Z) (evs : list event) (n' : nat) :
  sd_init card n = Some (ok, evs, n') ->
  (exists k,
     (k <= POLL_FUEL)%nat
     /\ init_commands ok k (command_bytes evs)
     /\ (ok = 1 ->
         (1 <= k)%nat
         /\ command_bytes evs = [0x40; 0x48] ++ acmd41_rounds k ++ [0x7A]))
  /\ exists r0 p0,
       outcome (sd_send_cmd 0 0 0x95 card (n + 10)%nat) = Some (r0, p0)
       /\ if negb (u8 r0 =? 0x01)
          then ok = 0 /\ n' = p0 /\ command_bytes evs = [0x40]
          else
            exists r8 p8,
              outcome (sd_send_cmd 8 0x1AA 0x87 card p0) = Some (r8, p8)
              /\ if negb (u8 r8 =? 0x01)
                 then ok = 0 /\ n' = p8 /\ command_bytes evs = [0x40; 0x48]
                 else
                   exists j pj,
                     busy_rounds card (p8 + 4)%nat j = Some pj
                     /\ ((j = POLL_FUEL /\ ok = 0 /\ n' = pj
                          /\ command_bytes evs
                             = [0x40; 0x48] ++ acmd41_rounds j)
                         \/ ((j < POLL_FUEL)%nat
                             /\ exists r55 p55 p41 r58 p58,
                                  outcome (sd_send_cmd 55 0 0x65 card pj)
                                  = Some (r55, p55)
                                  /\ outcome (sd_send_cmd 41 0x40000000 0x77
                                                card p55)
                                     = Some (x00, p41)
                                  /\ outcome (sd_send_cmd 58 0 0xFD card p41)
                                     = Some (r58, p58)
                                  /\ command_bytes evs
                                     = [0x40; 0x48] ++ acmd41_rounds (S j)
                                       ++ [0x7A]
                                  /\ if negb (u8 r58 =? 0x00)
                                     then ok = 0 /\ n' = p58
                                     else ok = 1 /\ n' = (p58 + 5)%nat)).
Proof.
  intros Hrun. split.
  { destruct (sd_init_commands card n)
      as (ok1 & evs1 & n1 & l & k & rest & Hrun1 & _ & Hiss & Hk & Hl).
    rewrite Hrun in Hrun1.
    destruct (run_inj _ _ _ _ _ _ Hrun1) as (<- & <- & <-).
    rewrite (issues_command_bytes evs l Hiss).
    exists k. split; [exact Hk | ]. split; [exact Hl | ].
    intros Hone. destruct Hl as [(_ & Hk1 & Hl) | (Hzero & _)]; [auto | lia]. }
  destruct (sd_init_course card n) as (ok1 & evs1 & n1 & Hrun1 & Hcourse).
  rewrite Hrun in Hrun1.
  destruct (run_inj _ _ _ _ _ _ Hrun1) as (<- & <- & <-).
  exact Hcourse.
Qed.

Lemma sd_init_command_order_sample :
  exists evs n' k,
    sd_init (card_of (init_answers good_echo)) 0%nat = Some (1, evs, n')
    /\ command_bytes evs = [0x40; 0x48] ++ acmd41_rounds k ++ [0x7A].
Proof.
  assert (E : exists evs n',
             sd_init (card_of (init_answers good_echo)) 0%nat
             = Some (1, evs, n')).
  { eexists _, _. vm_compute. reflexivity. }
  destruct E as (evs & n' & E).
  destruct (sd_init_command_order _ _ _ _ _ E) as ((k & _ & _ & H) & _).
  destruct (H eq_refl) as (_ & Hk).
  exists evs, n', k. split; [exact E | exact Hk].
Defined.

(** ** Exhausted polls *)

Lemma busy_rounds_never_ready card (j : nat) :
  forall a,
    (forall k, (a <= k)%nat -> card k <> x00) ->
    exists pj, busy_rounds card a j = Some pj /\ (a <= pj)%nat.
Proof.
  induction j as [| j IH]; intros a Hnever.
  { exists a. split; [reflexivity | lia]. }
  destruct (sd_send_cmd_first 55 0 0x65 card a)
    as (d1 & xs1 & Hd1 & Hrun1 & _).
  destruct (sd_send_cmd_first 41 0x40000000 0x77 card (a + 6 + d1)%nat)
    as (d2 & xs2 & Hd2 & Hrun2 & _).
  destruct (IH (a + 6 + d1 + 6 + d2)%nat) as (pj & Hpj & Hle).
  { intros k Hk. apply Hnever. lia. }
  exists pj. split; [ | lia].
  cbn [busy_rounds]. rewrite Hrun1, Hrun2.
  destruct (Z.eqb_spec (u8 (card (a + 6 + d1 + 5 + d2)%nat)) 0x00)
    as [E | _]; [ | exact Hpj].
  apply u8_zero in E. exfalso. apply (Hnever (a + 6 + d1 + 5 + d2)%nat).
  - lia.
  - exact E.
Qed.

Lemma busy_rounds_more card (j : nat) :
  forall a m pj p,
    busy_rounds card a j = Some pj ->
    busy_rounds card a (j + S m) = Some p ->
    exists r55 p55 r41 p41,
      outcome (sd_send_cmd 55 0 0x65 card pj) = Some (r55, p55)
      /\ outcome (sd_send_cmd 41 0x40000000 0x77 card p55) = Some (r41, p41)
      /\ r41 <> x00.
Proof.
  induction j as [| j IH]; intros a m pj p Hj Hmore.
  { cbn [busy_rounds] in Hj. injection Hj as <-.
    cbn [Nat.add busy_rounds] in Hmore.
    destruct (sd_send_cmd 55 0 0x65 card a) as [[[r55 ev55] p55] | ] eqn:E55;
      [ | discriminate Hmore].
    destruct (sd_send_cmd 41 0x40000000 0x77 card p55)
      as [[[r41 ev41] p41] | ] eqn:E41; [ | discriminate Hmore].
    exists r55, p55, r41, p41. split; [reflexivity | ].
    split; [rewrite E41; reflexivity | ]. intros ->. discriminate Hmore. }
  cbn [Nat.add busy_rounds] in Hj, Hmore.
  destruct (sd_send_cmd 55 0 0x65 card a) as [[[r55 ev55] p55] | ];
    [ | discriminate Hj].
  destruct (sd_send_cmd 41 0x40000000 0x77 card p55)
    as [[[r41 ev41] p41] | ]; [ | discriminate Hj].
  destruct (u8 r41 =? 0x00); [discriminate Hj | ].
  exact (IH p41 m pj p Hj Hmore).
Qed.

Lemma sd_init_until_cmd8_course card n go evs p :
  sd_init_until_cmd8 card n = Some (go, evs, p) ->
  exists r0 p0,
    outcome (sd_send_cmd 0 0 0x95 card (n + 10)%nat) = Some (r0, p0)
    /\ if negb (u8 r0 =? 0x01) then go = false /\ p = p0 else
       exists r8,
         outcome (sd_send_cmd 8 0x1AA 0x87 card p0) = Some (r8, p)
         /\ go = (u8 r8 =? 0x01).
Proof.
  unfold sd_init_until_cmd8. rewrite bind_cs_high.
  rewrite (bind_run _ _ _ _ _ _ _ (spi_send_dummy_run 10 card n)).
  destruct (sd_send_cmd_first 0 0 0x95 card (n + 10)%nat)
    as (d0 & xs0 & Hd0 & Hrun0 & _).
  rewrite (bind_run _ _ _ _ _ _ _ Hrun0).
  destruct (u8 (card (n + 10 + 5 + d0)%nat) =? 0x01) eqn:E0; cbn [negb].
  2:{ cbn [ret]. intros H.
      destruct (run_inj _ _ _ _ _ _ H) as (<- & _ & <-).
      exists (card (n + 10 + 5 + d0)%nat), (n + 10 + 6 + d0)%nat.
      split; [rewrite Hrun0; reflexivity | ].
      rewrite E0. split; reflexivity. }
  destruct (sd_send_cmd_first 8 0x1AA 0x87 card (n + 10 + 6 + d0)%nat)
    as (d8 & xs8 & Hd8 & Hrun8 & _).
  rewrite (bind_run _ _ _ _ _ _ _ Hrun8).
  intros H.
  exists (card (n + 10 + 5 + d0)%nat), (n + 10 + 6 + d0)%nat.
  split; [rewrite Hrun0; reflexivity | ].
  rewrite E0. cbn [negb].
  exists (card (n + 10 + 6 + d0 + 5 + d8)%nat).
  destruct (u8 (card (n + 10 + 6 + d0 + 5 + d8)%nat) =? 0x01) eqn:E8;
    cbn [negb ret] in H;
    destruct (run_inj _ _ _ _ _ _ H) as (<- & _ & <-);
    (split; [rewrite Hrun8; reflexivity | reflexivity]).
Qed.

(** When none of the 0xFFFF rounds of the ACMD41 loop finds the card
    ready, [sd_init] returns 0 where the last round ended, CMD58 not
    issued. *)
Lemma sd_init_exhausted card n evs0 p pj :
  sd_init_until_cmd8 card n = Some (true, evs0, p) ->
  busy_rounds card (p + 4)%nat POLL_FUEL = Some pj ->
  exists evs,
    sd_init card n = Some (0, evs, pj)
    /\ command_bytes evs = [0x40; 0x48] ++ acmd41_rounds POLL_FUEL.
Proof.
  intros Hpre Hbusy.
  destruct (sd_init_until_cmd8_course _ _ _ _ _ Hpre)
    as (r0 & p0 & H0 & Hpre0).
  destruct (sd_init_course card n) as (ok & evs & n' & Hrun & Hcourse).
  destruct Hcourse as (r0' & p0' & H0' & Hcourse).
  rewrite H0 in H0'. injection H0' as <- <-.
  destruct (negb (u8 r0 =? 0x01)).
  { destruct Hpre0 as (Hgo & _). discriminate Hgo. }
  destruct Hpre0 as (r8 & H8 & Hgo).
  destruct Hcourse as (r8' & p8' & H8' & Hcourse).
  rewrite H8 in H8'. injection H8' as <- <-.
  rewrite <- Hgo in Hcourse. cbn [negb] in Hcourse.
  destruct Hcourse as (j & pj' & Hj & [(-> & -> & -> & Hcmds) | Hready]).
  { rewrite Hbusy in Hj. injection Hj as <-.
    exists evs. split; [exact Hrun | exact Hcmds]. }
  exfalso.
  destruct Hready as (Hlt & r55 & p55 & p41 & _ & _ & H55 & H41 & _).
  replace POLL_FUEL with (j + S (POLL_FUEL - S j))%nat in Hbusy by lia.
  destruct (busy_rounds_more _ _ _ _ _ _ Hj Hbusy)
    as (r55' & p55' & r41' & p41' & H55' & H41' & Hnz).
  rewrite H55 in H55'. injection H55' as <- <-.
  rewrite H41 in H41'. injection H41' as <- <-.
  now apply Hnz.
Qed.

Lemma sd_init_never_ready card n evs0 p :
  sd_init_until_cmd8 card n = Some (true, evs0, p) ->
  (forall k, (p + 4 <= k)%nat -> card k <> x00) ->
  exists evs n',
    sd_init card n = Some (0, evs, n')
    /\ busy_rounds card (p + 4)%nat POLL_FUEL = Some n'
    /\ command_bytes evs = [0x40; 0x48] ++ acmd41_rounds POLL_FUEL.
Proof.
  intros Hpre Hnever.
  destruct (busy_rounds_never_ready card POLL_FUEL _ Hnever)
    as (pj & Hbusy & _).
  destruct (sd_init_exhausted _ _ _ _ _ Hpre Hbusy) as (evs & Hrun & Hcmds).
  exists evs, pj. split; [exact Hrun | ]. split; [exact Hbusy | exact Hcmds].
Qed.

(** When the R1 byte of CMD17 is 0x00 and none of the next 0xFFFF bytes
    is the token 0xFE, [sd_read_sector] returns 0 after exactly 0xFFFF
    polls and the deselecting exchange, the buffer untouched. *)
Lemma sd_read_sector_token_timeout sector buffer card n r ev q :
  sd_send_cmd 17 sector 0xFF card n = Some (r, ev, q) ->
  u8 r = 0x00 ->
  (forall k, (q <= k < q + POLL_FUEL)%nat -> card k <> xfe) ->
  exists evs,
    sd_read_sector sector buffer card n
    = Some ((0, buffer), evs, (q + POLL_FUEL + 1)%nat).
Proof.
  intros Hcmd Hr Hnone.
  unfold sd_read_sector. rewrite bind_cs_low.
  rewrite (bind_run _ _ _ _ _ _ _ Hcmd). rewrite Hr. cbn [Z.eqb negb].
  destruct (token_loop_first POLL_FUEL 0xFFFF card q
              poll_fuel_ceiling ltac:(lia))
    as (t & d & Hd & Hloop & _ & Hfound & Hzero).
  specialize (Hloop POLL_FUEL (le_n _)).
  rewrite (bind_run _ _ _ _ _ _ _ Hloop).
  destruct (Z.eqb_spec t 0) as [Et | Et].
  2:{ exfalso. apply (Hnone (q + d - 1)%nat); [lia | exact (Hfound Et)]. }
  rewrite (Hzero Et). rewrite bind_cs_high, bind_spi_transfer.
  eexists. cbn [ret]. do 2 f_equal. lia.
Qed.

Lemma busy_rounds_silent card (j : nat) :
  forall a,
    (forall k, (a <= k < a + 28 * j)%nat -> card k = xff) ->
    busy_rounds card a j = Some (a + 28 * j)%nat.
Proof.
  induction j as [| j IH]; intros a Hsilent.
  { cbn [busy_rounds]. f_equal. lia. }
  destruct (sd_send_cmd_first 55 0 0x65 card a)
    as (d1 & xs1 & Hd1 & Hrun1 & _ & _ & Hlast1).
  assert (d1 = 8%nat) as ->.
  { destruct Hlast1 as [Hbit | E]; [ | exact E].
    rewrite (Hsilent (a + 5 + d1)%nat) in Hbit by lia. discriminate Hbit. }
  destruct (sd_send_cmd_first 41 0x40000000 0x77 card (a + 6 + 8)%nat)
    as (d2 & xs2 & Hd2 & Hrun2 & _ & _ & Hlast2).
  assert (d2 = 8%nat) as ->.
  { destruct Hlast2 as [Hbit | E]; [ | exact E].
    rewrite (Hsilent (a + 6 + 8 + 5 + d2)%nat) in Hbit by lia.
    discriminate Hbit. }
  cbn [busy_rounds]. rewrite Hrun1, Hrun2.
  rewrite (Hsilent (a + 6 + 8 + 5 + 8)%nat) by lia.
  change (u8 xff =? 0) with false. cbv iota.
  rewrite (IH (a + 6 + 8 + 6 + 8)%nat).
  - f_equal. lia.
  - intros k Hk. apply Hsilent. lia.
Qed.

(** C5. The ACMD41 loop of [sd_init] and the data-token loop of
    [sd_read_sector] start from the ceiling 0xFFFF and are left after at
    most that many iterations (fuel for 0xFFFF iterations is always
    enough, and more fuel changes nothing): the ACMD41 loop issues at
    most 2 * 0xFFFF commands and the token loop makes at most 0xFFFF
    exchanges. Hence [sd_init] and [sd_read_sector] return on every
    sequence of card answers, within a fixed number of exchanges; and a
    card that never gives the awaited answer (0x00, resp. the token 0xFE)
    makes them return failure. Exhausting the ceiling is failure by
    itself: when CMD0 and CMD8 were accepted and none of the 0xFFFF
    rounds of the ACMD41 loop got the response 0x00, [sd_init] returns 0
    at the exchange where the last round ended, having issued CMD0, CMD8
    and the 0xFFFF rounds and no CMD58, whatever the card would answer
    afterwards and whatever it sent as the CMD8 echo; and when CMD17 was
    accepted and none of the next 0xFFFF bytes is the token 0xFE,
    [sd_read_sector] returns 0 after exactly 0xFFFF polls and the
    deselecting exchange, with the buffer as it was. *)
Theorem polling_is_bounded
    (card : stream) (n : nat) (sector : Z) (buffer : list byte) :
  Z.of_nat POLL_FUEL = 0xFFFF
  /\ (exists t evs n',
        (forall fuel, (POLL_FUEL <= fuel)%nat ->
           acmd41_loop fuel 0xFFFF card n = Some (t, evs, n'))
        /\ (commands evs <= 2 * POLL_FUEL)%nat)
  /\ (exists t d,
        (forall fuel, (POLL_FUEL <= fuel)%nat ->
           token_loop fuel 0xFFFF card n
           = Some (t, polls card n d, (n + d)%nat))
        /\ (d <= POLL_FUEL)%nat)
  /\ (exists ok evs n',
        sd_init card n = Some (ok, evs, n')
        /\ (n' <= n + 61 + 28 * POLL_FUEL)%nat)
  /\ (exists res evs n',
        sd_read_sector sector buffer card n = Some (res, evs, n')
        /\ (n' <= n + 17 + POLL_FUEL + SECTOR_SIZE)%nat)
  /\ ((forall p, (n <= p)%nat -> card p <> x00) ->
      exists evs n', sd_init card n = Some (0, evs, n'))
  /\ ((forall p, (n <= p)%nat -> card p <> xfe) ->
      exists evs n',
        sd_read_sector sector buffer card n = Some ((0, buffer), evs, n'))
  /\ (forall evs0 p pj,
        sd_init_until_cmd8 card n = Some (true, evs0, p) ->
        busy_rounds card (p + 4)%nat POLL_FUEL = Some pj ->
        exists evs,
          sd_init card n = Some (0, evs, pj)
          /\ command_bytes evs = [0x40; 0x48] ++ acmd41_rounds POLL_FUEL)
  /\ (forall evs0 p,
        sd_init_until_cmd8 card n = Some (true, evs0, p) ->
        (forall k, (p + 4 <= k)%nat -> card k <> x00) ->
        exists evs n',
          sd_init card n = Some (0, evs, n')
          /\ busy_rounds card (p + 4)%nat POLL_FUEL = Some n'
          /\ command_bytes evs = [0x40; 0x48] ++ acmd41_rounds POLL_FUEL)
  /\ (forall r ev q,
        sd_send_cmd 17 sector 0xFF card n = Some (r, ev, q) ->
        u8 r = 0x00 ->
        (forall k, (q <= k < q + POLL_FUEL)%nat -> card k <> xfe) ->
        exists evs,
          sd_read_sector sector buffer card n
          = Some ((0, buffer), evs, (q + POLL_FUEL + 1)%nat)).
Proof.
  split; [exact poll_fuel_ceiling | ].
  split.
  { destruct (acmd41_loop_run POLL_FUEL 0xFFFF card n
                poll_fuel_ceiling ltac:(lia))
      as (t & evs & n' & Hloop & _ & _ & _ & _ & Hcnt).
    exists t, evs, n'. split; assumption. }
  split.
  { destruct (token_loop_run POLL_FUEL 0xFFFF card n
                poll_fuel_ceiling ltac:(lia))
      as (t & d & Hloop & _ & Hd & _).
    exists t, d. split; [assumption | lia]. }
  destruct (sd_init_run card n)
    as (ok & body & tail & n' & Hrun & _ & Hok & Hn' & Hready).
  destruct (sd_read_sector_run sector buffer card n)
    as (ok' & buffer' & body' & b' & n'' & Hrun' & _ & Hok' & Hn'' & Htoken).
  split; [exists ok; eexists _, n'; split; [exact Hrun | lia] | ].
  split; [eexists _, _, n''; split; [exact Hrun' | lia] | ].
  split.
  { intros Hnever. destruct Hok as [[-> _] | [Hone _]].
    - eexists _, _. exact Hrun.
    - destruct (Hready Hone) as (p & Hp & Hcard).
      exfalso. apply (Hnever p); [lia | exact Hcard]. }
  split.
  { intros Hnever. destruct Hok' as [[-> ->] | [Hone _]].
    - eexists _, _. exact Hrun'.
    - destruct (Htoken Hone) as (p & Hp & Hcard).
      exfalso. apply (Hnever p); [lia | exact Hcard]. }
  split; [intros evs0 p pj; apply sd_init_exhausted | ].
  split; [intros evs0 p; apply sd_init_never_ready | ].
  intros r ev q. apply sd_read_sector_token_timeout.
Qed.

Lemma polling_is_bounded_late_cards :
  (exists evs,
     sd_init late_ready_card 0%nat
     = Some (0, evs, (28 + 28 * POLL_FUEL)%nat)
     /\ command_bytes evs = [0x40; 0x48] ++ acmd41_rounds POLL_FUEL)
  /\ (exists evs,
        sd_read_sector 0 (repeat x00 SECTOR_SIZE) late_token_card 0%nat
        = Some ((0, repeat x00 SECTOR_SIZE), evs, (7 + POLL_FUEL + 1)%nat))
  /\ late_ready_card (28 + 28 * POLL_FUEL)%nat = x00
  /\ late_token_card (7 + POLL_FUEL)%nat = xfe.
Proof.
  pose proof poll_fuel_ceiling as Hceil.
  destruct (polling_is_bounded late_ready_card 0%nat 0 [])
    as (_ & _ & _ & _ & _ & _ & _ & Hinit & _).
  destruct (polling_is_bounded late_token_card 0%nat 0
              (repeat x00 SECTOR_SIZE))
    as (_ & _ & _ & _ & _ & _ & _ & _ & _ & Hread).
  split.
  { assert (Hpre : exists evs0,
               sd_init_until_cmd8 late_ready_card 0%nat
               = Some (true, evs0, 24%nat)).
    { eexists. vm_compute. reflexivity. }
    destruct Hpre as (evs0 & Hpre).
    apply (Hinit evs0 24%nat _ Hpre).
    apply (busy_rounds_silent late_ready_card POLL_FUEL 28%nat).
    intros k Hk. unfold late_ready_card.
    destruct (Z.ltb_spec (Z.of_nat k) (28 + 28 * 0xFFFF)) as [_ | Hge];
      [ | lia].
    apply nth_overflow. change (28 <= k)%nat. lia. }
  split.
  { assert (Hcmd : exists ev,
               sd_send_cmd 17 0 0xFF late_token_card 0%nat
               = Some (x00, ev, 7%nat)).
    { eexists. vm_compute. reflexivity. }
    destruct Hcmd as (ev & Hcmd).
    apply (Hread x00 ev 7%nat Hcmd eq_refl).
    intros k Hk. unfold late_token_card.
    destruct (Z.ltb_spec (Z.of_nat k) (7 + 0xFFFF)) as [_ | Hge]; [ | lia].
    rewrite nth_overflow by (change (7 <= k)%nat; lia). discriminate. }
  split.
  - unfold late_ready_card.
    destruct (Z.ltb_spec (Z.of_nat (28 + 28 * POLL_FUEL)) (28 + 28 * 0xFFFF))
      as [Hlt | _]; [lia | reflexivity].
  - unfold late_token_card.
    destruct (Z.ltb_spec (Z.of_nat (7 + POLL_FUEL)) (7 + 0xFFFF))
      as [Hlt | _]; [lia | reflexivity].
Defined.

Lemma sd_read_sector_issues
    (sector : Z) (buffer : list byte) card n res evs n' :
  sd_read_sector sector buffer card n = Some (res, evs, n') ->
  issues evs [0x51].
Proof.
  intros Hrun.
  destruct (sd_read_sector_trace sector buffer card n)
    as (ok & buffer' & xs & b & n1 & Hrun1 & Hx & _).
  rewrite Hrun in Hrun1.
  destruct (run_inj _ _ _ _ _ _ Hrun1) as (_ & -> & _).
  apply commands_xfers in Hx.
  command_bytes_tac. reflexivity.
Qed.

(** X11. Over a whole run of [main] the commands sent to the card are
    those of [sd_init] followed by at most three CMD17 (read single
    block): none when initialisation fails, one, two or three according
    to the read that fails, three when the directory is listed. No other
    command is ever issued; in particular [main] never sends a write
    command. *)
Theorem main_command_sequence (card : stream) (n : nat) :
  exists h evs n' init k,
    main card n = Some (h, evs, n')
    /\ command_bytes evs = init ++ repeat 0x51 (reads_before h)
    /\ init_commands (match h with InitFailed => 0 | _ => 1 end) k init
    /\ Forall (fun m => In m [0x40; 0x48; 0x77; 0x69; 0x7A; 0x51])
         (command_bytes evs).
Proof.
  assert (Hknown : forall ok k init j,
            init_commands ok k init ->
            Forall (fun m => In m [0x40; 0x48; 0x77; 0x69; 0x7A; 0x51])
              (init ++ repeat 0x51 j)).
  { intros ok k init j H. apply Forall_app. split.
    - exact (init_commands_known ok k init H).
    - apply Forall_forall. intros m Hm. apply repeat_spec in Hm.
      subst m. cbn [In]. tauto. }
  destruct (main_runs card n) as (ok_i & ev_i & n_i & Hinit & H).
  destruct (sd_init_commands card n)
    as (ok1 & evs1 & n1 & init & k & rest & Hrun1 & _ & Hiss & _ & Hl).
  rewrite Hinit in Hrun1.
  destruct (run_inj _ _ _ _ _ _ Hrun1) as (<- & <- & <-). clear Hrun1.
  cbv zeta in H.
  assert (Hok : ok_i = 0 \/ ok_i = 1).
  { destruct Hl as [(-> & _) | (-> & _)]; auto. }
  destruct Hok as [-> | ->]; cbn [Z.eqb] in H.
  { exists InitFailed. eexists _, _, init, k. split; [exact H | ].
    assert (Hcmd : command_bytes
                     ((say (crlf ++ bytes "Initializing SD Card..." ++ crlf)
                       ++ ev_i)
                      ++ say (bytes "SD Card init failed!" ++ crlf))
                   = init ++ repeat 0x51 (reads_before InitFailed)).
    { apply issues_command_bytes. command_bytes_tac. rewrite Hiss.
      command_bytes_go. cbn [reads_before repeat app]. reflexivity. }
    split; [exact Hcmd | ]. split; [exact Hl | ].
    rewrite Hcmd. exact (Hknown _ _ _ _ Hl). }
  destruct H as (ok_m & mbr & ev_m & n_m & Hmbr & H).
  pose proof (sd_read_sector_issues _ _ _ _ _ _ _ Hmbr) as Hiss_m.
  destruct (ok_m =? 0).
  { exists MbrFailed. eexists _, _, init, k. split; [exact H | ].
    match goal with
    | |- command_bytes ?E = _ /\ _ =>
        assert (Hcmd : command_bytes E
                       = init ++ repeat 0x51 (reads_before MbrFailed))
    end.
    { apply issues_command_bytes. command_bytes_tac. rewrite Hiss.
      command_bytes_go. rewrite Hiss_m. command_bytes_go. reflexivity. }
    split; [exact Hcmd | ]. split; [exact Hl | ].
    rewrite Hcmd. exact (Hknown _ _ _ _ Hl). }
  destruct H as (ok_v & vbr & ev_v & n_v & Hvbr & H).
  pose proof (sd_read_sector_issues _ _ _ _ _ _ _ Hvbr) as Hiss_v.
  destruct (ok_v =? 0).
  { exists VbrFailed. eexists _, _, init, k. split; [exact H | ].
    match goal with
    | |- command_bytes ?E = _ /\ _ =>
        assert (Hcmd : command_bytes E
                       = init ++ repeat 0x51 (reads_before VbrFailed))
    end.
    { apply issues_command_bytes. command_bytes_tac. rewrite Hiss.
      command_bytes_go. rewrite Hiss_m. command_bytes_go.
      rewrite Hiss_v. command_bytes_go. reflexivity. }
    split; [exact Hcmd | ]. split; [exact Hl | ].
    rewrite Hcmd. exact (Hknown _ _ _ _ Hl). }
  destruct H as (ok_r & root & ev_r & n_r & Hroot & H).
  pose proof (sd_read_sector_issues _ _ _ _ _ _ _ Hroot) as Hiss_r.
  destruct (ok_r =? 0).
  { exists RootFailed. eexists _, _, init, k. split; [exact H | ].
    match goal with
    | |- command_bytes ?E = _ /\ _ =>
        assert (Hcmd : command_bytes E
                       = init ++ repeat 0x51 (reads_before RootFailed))
    end.
    { apply issues_command_bytes. command_bytes_tac. rewrite Hiss.
      command_bytes_go. rewrite Hiss_m. command_bytes_go.
      rewrite Hiss_v. command_bytes_go. rewrite Hiss_r. command_bytes_go.
      reflexivity. }
    split; [exact Hcmd | ]. split; [exact Hl | ].
    rewrite Hcmd. exact (Hknown _ _ _ _ Hl). }
  exists Listed. eexists _, _, init, k. split; [exact H | ].
  match goal with
  | |- command_bytes ?E = _ /\ _ =>
      assert (Hcmd : command_bytes E
                     = init ++ repeat 0x51 (reads_before Listed))
  end.
  { apply issues_command_bytes. command_bytes_tac. rewrite Hiss.
    command_bytes_go. rewrite Hiss_m. command_bytes_go.
    rewrite Hiss_v. command_bytes_go. rewrite Hiss_r. command_bytes_go.
    reflexivity. }
  split; [exact Hcmd | ]. split; [exact Hl | ].
  rewrite Hcmd. exact (Hknown _ _ _ _ Hl).
Qed.

(** ** Buffers and bounds of the listing *)

Lemma decimal_short_spec (fuel : nat) (z : Z) :
  decimal_short fuel z = true ->
  forall i, 0 <= i < Z.of_nat fuel -> (length (decimal (z + i)) <= 6)%nat.
Proof.
  revert z. induction fuel as [| fuel IH]; intros z H i Hi; [lia | ].
  cbn [decimal_short] in H. apply andb_true_iff in H. destruct H as [H0 H1].
  destruct (Z.eq_dec i 0) as [-> | Hne].
  - rewrite Z.add_0_r. now apply Nat.leb_le.
  - replace (z + i) with (z + 1 + (i - 1)) by lia. apply IH; [exact H1 | lia].
Qed.

Lemma to_int16_range (v : Z) : - 2 ^ 15 <= to_int16 v < 2 ^ 15.
Proof.
  unfold to_int16, wrap16. cbv zeta.
  pose proof (Z.mod_pos_bound v (2 ^ 16) ltac:(lia)).
  destruct (Z.ltb_spec (v mod 2 ^ 16) (2 ^ 15)); lia.
Qed.

Lemma itoa_length (v : Z) : (length (itoa v) <= 6)%nat.
Proof.
  unfold itoa. pose proof (to_int16_range v) as R.
  replace (to_int16 v) with (- 2 ^ 15 + (to_int16 v + 2 ^ 15)) by lia.
  apply (decimal_short_spec (Z.to_nat (2 ^ 16)) (- 2 ^ 15)).
  - vm_compute. reflexivity.
  - rewrite Z2Nat.id by lia. lia.
Qed.

Lemma print_filename_length (entry : list byte) :
  (length (print_filename entry) <= 12)%nat.
Proof.
  rewrite print_filename_built.
  pose proof (usart0_puts_terminated (built_name entry)) as Hout.
  assert (Hlen : (length (built_name entry) <= 12)%nat); [ | lia ].
  unfold built_name.
  pose proof (copy_field_length 8 0 entry).
  pose proof (copy_field_length 3 8 entry).
  destruct (negb (Byte.eqb (idx entry 8) space));
    rewrite ?length_app; cbn [length]; lia.
Qed.

(** X12. Whatever 32-bit value is passed, [itoa] writes at most 6
    characters, so that with the terminator the text fits the 11-byte
    buffers [sizebuf] of [print_dir_entry] and [buf] of [main]; a line
    printed for a directory entry has at most 46 bytes and the listing of
    a block at most 16 such lines. *)
Theorem listing_output_bounded (entry sector : list byte) (v : Z) :
  (length (itoa v) + 1 <= 11)%nat
  /\ (length (print_dir_entry entry) <= 46)%nat
  /\ (length (print_root_dir sector) <= 16 * 46)%nat.
Proof.
  assert (Hline : forall e, (length (print_dir_entry e) <= 46)%nat).
  { intros e. rewrite print_dir_entry_cases.
    destruct (classify e); try (cbn [length]; lia).
    rewrite usart0_puts_itoa. fold (itoa (dir_size e)).
    rewrite !length_app.
    pose proof (print_filename_length e) as Hname.
    pose proof (itoa_length (dir_size e)).
    change (length (bytes "Name: ")) with 6%nat.
    change (length (bytes " | Attr: ")) with 9%nat.
    change (length (bytes " | Size: ")) with 9%nat.
    change (length (usart0_print_hex (idx e 11))) with 2%nat.
    change (length crlf) with 2%nat. lia. }
  split; [pose proof (itoa_length v); lia | ]. split; [apply Hline | ].
  rewrite print_root_dir_slots.
  generalize (map (slot sector) (seq 0 16)) (length_map (slot sector) (seq 0 16)).
  rewrite length_seq. intros l Hl.
  assert (H : (length (flat_map print_dir_entry l) <= length l * 46)%nat).
  { clear Hl. induction l as [| e l IH]; [reflexivity | ].
    cbn [flat_map length]. rewrite length_app. specialize (Hline e). lia. }
  lia.
Qed.

Lemma idx_skipn (p : list byte) (a j : nat) :
  idx (skipn a p) j = idx p (a + j).
Proof.
  unfold idx. revert p. induction a as [| a IH]; intros p; [reflexivity | ].
  destruct p as [| b p]; [destruct j; reflexivity | ].
  cbn [skipn Nat.add nth]. apply IH.
Qed.

(** X13. The listing loop of [main] reads only the 512 bytes of the sector
    buffer: 16 slots of 32 bytes, the last one ending at index 511, so
    that what it prints does not depend on anything at index 512 or
    above. A block none of whose slots is Regular prints nothing. *)
Theorem print_root_dir_within_sector (sector : list byte) :
  (forall sector' : list byte,
     firstn SECTOR_SIZE sector' = firstn SECTOR_SIZE sector ->
     print_root_dir sector' = print_root_dir sector)
  /\ ((forall k, (k < 16)%nat -> classify (slot sector k) <> Regular) ->
      print_root_dir sector = []).
Proof.
  split.
  - intros sector' Hsame. rewrite !print_root_dir_slots.
    assert (Hslot : forall k, (k < 16)%nat ->
              print_dir_entry (slot sector' k)
              = print_dir_entry (slot sector k)).
    { intros k Hk. apply print_dir_entry_ext. intros j Hj.
      unfold slot. rewrite !idx_skipn. unfold idx.
      assert (F : forall l : list byte,
                nth (32 * k + j) l x00
                = nth (32 * k + j) (firstn SECTOR_SIZE l) x00).
      { intros l. rewrite nth_firstn.
        destruct (Nat.ltb_spec (32 * k + j) SECTOR_SIZE);
          [reflexivity | unfold SECTOR_SIZE in *; lia]. }
      rewrite (F sector'), (F sector), Hsame. reflexivity. }
    assert (Hall : forall l, (forall k, In k l -> (k < 16)%nat) ->
              flat_map print_dir_entry (map (slot sector') l)
              = flat_map print_dir_entry (map (slot sector) l)).
    { induction l as [| k l IH]; intros Hl; [reflexivity | ].
      cbn [map flat_map]. rewrite Hslot by (apply Hl; now left).
      rewrite IH by (intros k' Hk'; apply Hl; now right). reflexivity. }
    apply Hall. intros k Hk. apply in_seq in Hk. lia.
  - intros Hnone. rewrite print_root_dir_slots.
    assert (Hall : forall l, (forall k, In k l -> (k < 16)%nat) ->
              flat_map print_dir_entry (map (slot sector) l) = []).
    { induction l as [| k l IH]; intros Hl; [reflexivity | ].
      cbn [map flat_map]. rewrite IH by (intros k' Hk'; apply Hl; now right).
      rewrite app_nil_r.
      destruct (print_dir_entry (slot sector k)) as [| c out] eqn:E;
        [reflexivity | ].
      exfalso. apply (Hnone k); [apply Hl; now left | ].
      apply print_dir_entry_emits. rewrite E. discriminate. }
    apply Hall. intros k Hk. apply in_seq in Hk. lia.
Qed.

Lemma print_root_dir_within_sector_sample :
  print_root_dir (free_then_hello ++ hello_entry)
  = print_root_dir free_then_hello.
Proof.
  apply (proj1 (print_root_dir_within_sector free_then_hello)).
  reflexivity.
Defined.

(** ** Chip-select after a failed initialisation *)

(** X14. When [sd_init] fails it returns without driving chip-select
    high again: after the initial deselection every event is an
    assertion of chip-select or an exchange, so that the card is left
    selected. When it succeeds, the last thing it does to chip-select is
    to drive it high. *)
Theorem failed_init_leaves_card_selected
    (card : stream) (n : nat) (ok : Z) (evs : list event) (n' : nat) :
  sd_init card n = Some (ok, evs, n') ->
  (ok = 0 ->
   exists body,
     evs = CsHigh :: body /\ forallb selected_event body = true
     /\ chip_selects_released evs = 1%nat)
  /\ (ok = 1 -> chip_selects_released evs = 2%nat)
  /\ (ok = 0 \/ ok = 1).
Proof.
  intros Hrun.
  destruct (sd_init_run card n)
    as (ok1 & body & tail & n1 & Hrun1 & Hsel & Hok & _).
  rewrite Hrun in Hrun1.
  destruct (run_inj _ _ _ _ _ _ Hrun1) as (<- & -> & <-).
  assert (Hbody : chip_selects_released body = 0%nat).
  { clear - Hsel. induction body as [| e body IH]; [reflexivity | ].
    cbn [forallb] in Hsel. apply andb_true_iff in Hsel.
    destruct Hsel as [He Hb]. unfold chip_selects_released in *.
    destruct e; try discriminate; cbn [filter]; auto. }
  assert (Happ : forall a b,
            chip_selects_released (a ++ b)
            = (chip_selects_released a + chip_selects_released b)%nat).
  { intros a b. unfold chip_selects_released.
    now rewrite filter_app, length_app. }
  split; [ | split ].
  - intros Hzero. destruct Hok as [[_ ->] | [Hone _]]; [ | lia].
    exists body. rewrite app_nil_r. split; [reflexivity | ].
    split; [exact Hsel | ].
    change (chip_selects_released (CsHigh :: body))
      with (S (chip_selects_released body)). now rewrite Hbody.
  - intros Hone. destruct Hok as [[Hzero _] | [_ [b ->]]]; [lia | ].
    change (chip_selects_released (CsHigh :: body ++ [CsHigh; Xfer 0xFF b]))
      with (S (chip_selects_released (body ++ [CsHigh; Xfer 0xFF b]))).
    rewrite Happ, Hbody. reflexivity.
  - destruct Hok as [[-> _] | [-> _]]; auto.
Qed.

Lemma failed_init_leaves_card_selected_sample :
  exists evs n' body,
    sd_init idle_card 0%nat = Some (0, evs, n')
    /\ evs = CsHigh :: body /\ forallb selected_event body = true.
Proof.
  destruct (sd_init_run idle_card 0%nat)
    as (ok & body0 & tail & n' & E & _ & Hok & _ & Hready).
  assert (ok = 0) as ->.
  { destruct Hok as [[-> _] | [Hone _]]; [reflexivity | ].
    destruct (Hready Hone) as (p & _ & Hp). discriminate Hp. }
  destruct (failed_init_leaves_card_selected _ _ _ _ _ E) as (H & _).
  destruct (H eq_refl) as (body & Hevs & Hsel & _).
  eexists _, n', body. split; [exact E | ]. split; assumption.
Defined.
